(** * sandbox.py: configuration store, interpreter selection, runtime
      detection, credential provisioning and the activate / run workflows

    A shallow embedding of [sandbox.py].  Python [str] values are Rocq
    strings whose characters are code points below 256; a [dict] with
    string keys is a [gmap string string]; the file system, the process
    environment, the list of spawned processes and the log are threaded
    through a state-and-exception monad. *)

From Stdlib Require Import ZArith Ascii String.
From stdpp Require Import base list strings pretty gmap sorting.

Local Open Scope Z_scope.

(** ** Python string primitives used by the source *)

Module Py.

(** [str.isspace] on code points below 256: the characters removed by
    [str.strip()]. *)
Definition isspace (c : ascii) : bool :=
  match N_of_ascii c with
  | 9 | 10 | 11 | 12 | 13 | 28 | 29 | 30 | 31 | 32 | 133 | 160 => true
  | _ => false
  end%N.

(** Line boundaries of [str.splitlines] on code points below 256. *)
Definition is_linebreak (c : ascii) : bool :=
  match N_of_ascii c with
  | 10 | 11 | 12 | 13 | 28 | 29 | 30 | 133 => true
  | _ => false
  end%N.

Definition LF : ascii := "010"%char.
Definition CR : ascii := "013"%char.

Fixpoint lstrip (s : string) : string :=
  match s with
  | EmptyString => EmptyString
  | String c s' => if isspace c then lstrip s' else s
  end.

Fixpoint rstrip (s : string) : string :=
  match s with
  | EmptyString => EmptyString
  | String c s' =>
      match rstrip s' with
      | EmptyString => if isspace c then EmptyString else String c EmptyString
      | r => String c r
      end
  end.

(** [s.strip()] *)
Definition strip (s : string) : string := rstrip (lstrip s).

(** [s.startswith(p)] *)
Definition startswith (p s : string) : bool := String.prefix p s.

(** [sub in s] *)
Fixpoint str_in (sub s : string) : bool :=
  match s with
  | EmptyString => String.prefix sub EmptyString
  | String _ s' => String.prefix sub s || str_in sub s'
  end.

(** [s.split(sep, 1)] for a one-character separator, as the pair it
    unpacks to; [None] when the separator does not occur (the unpacking
    would raise). *)
Fixpoint split_once (sep : ascii) (s : string) : option (string * string) :=
  match s with
  | EmptyString => None
  | String c s' =>
      if Ascii.eqb c sep then Some (EmptyString, s')
      else match split_once sep s' with
           | Some (a, b) => Some (String c a, b)
           | None => None
           end
  end.

(** [s.splitlines()]: a CR LF pair is one boundary, and no empty last
    line is produced after a final boundary. *)
Fixpoint splitlines (s : string) : list string :=
  match s with
  | EmptyString => []
  | String c s' =>
      if is_linebreak c then
        match s' with
        | String c' s'' =>
            if Ascii.eqb c CR && Ascii.eqb c' LF
            then EmptyString :: splitlines s''
            else EmptyString :: splitlines s'
        | EmptyString => [EmptyString]
        end
      else
        match splitlines s' with
        | [] => [String c EmptyString]
        | l :: ls => String c l :: ls
        end
  end.

(** Text-mode reading ([Path.read_text], universal newlines): CR LF and
    a lone CR both become LF. *)
Fixpoint universal_newlines (s : string) : string :=
  match s with
  | EmptyString => EmptyString
  | String c s' =>
      if Ascii.eqb c CR then
        match s' with
        | String c' s'' =>
            if Ascii.eqb c' LF then String LF (universal_newlines s'')
            else String LF (universal_newlines s')
        | EmptyString => String LF EmptyString
        end
      else String c (universal_newlines s')
  end.

(** [sep.join(ls)] *)
Definition join (sep : string) (ls : list string) : string := String.concat sep ls.

(** Truthiness of a [str]: the empty string is false. *)
Definition nonempty (s : string) : bool :=
  match s with EmptyString => false | _ => true end.

(** Truthiness of an [Optional[str]]: [None] and [""] are false. *)
Definition truthy (o : option string) : bool :=
  match o with Some s => nonempty s | None => false end.

(** [a or b] on optional strings. *)
Definition por (a b : option string) : option string :=
  if truthy a then a else b.

(** [a or d] where [d] is a string. *)
Definition or_else (a : option string) (d : string) : string :=
  match a with
  | Some v => if nonempty v then v else d
  | None => d
  end.

Definition is_digit (c : ascii) : bool :=
  (48 <=? N_of_ascii c)%N && (N_of_ascii c <=? 57)%N.

Definition digit_val (c : ascii) : Z := Z.of_N (N_of_ascii c) - 48.

(** The digits of an [int] literal: decimal digits, where single
    underscores may separate digits.  [acc] is the value so far and
    [prev] tells whether the previous character was a digit. *)
Fixpoint int_digits (acc : Z) (prev : bool) (s : string) : option Z :=
  match s with
  | EmptyString => if prev then Some acc else None
  | String c s' =>
      if is_digit c then int_digits (10 * acc + digit_val c) true s'
      else if Ascii.eqb c "_" && prev then int_digits acc false s'
      else None
  end.

(** [int(s)]: surrounding whitespace is ignored, one sign is allowed;
    [None] stands for [ValueError]. *)
Definition int (s : string) : option Z :=
  match strip s with
  | String "+" d => int_digits 0 false d
  | String "-" d => Z.opp <$> int_digits 0 false d
  | d => int_digits 0 false d
  end.

End Py.

(** ** Constants of the module *)

Definition RETURN_SUCCESS : Z := 0.
Definition RETURN_UNHANDLED_EXCEPTION : Z := 1.
Definition RETURN_MISSING_DEPENDENCY : Z := 2.
Definition RETURN_NO_PYTHON : Z := 3.
Definition RETURN_NO_RUNTIME : Z := 4.

Definition DEFAULT_CONTAINER_RUNTIME : string := "podman".
Definition DEFAULT_CONTAINER_NAME : string := "ansible_target".
Definition DEFAULT_CONTAINER_IMAGE : string := "ansible_target:latest".
Definition DEFAULT_HOST_PORT : Z := 2222.
Definition DEFAULT_SSH_PORT : Z := 22.
Definition DEFAULT_SSH_DIR : string := "ssh_keys".
Definition DEFAULT_KEY_BASENAME : string := "ansible_target".
Definition DEFAULT_VAULT_PASSWORD_FILE : string := "vault-pw.txt".
Definition DEFAULT_LOG_FILE : string := "ansible.log".
Definition PLAYBOOK_FILE : string := "playbooks/sample_playbook.yml".
Definition INVENTORY_FILE : string := "inventory/main.yml".

Definition ANSIBLE_ENV_DEFAULTS : list (string * string) :=
  [ ("ANSIBLE_DISPLAY_ARGS_TO_STDOUT", "false");
    ("ANSIBLE_CALLBACKS_ENABLED", "profile_tasks");
    ("ANSIBLE_LOAD_CALLBACK_PLUGINS", "true");
    ("ANSIBLE_LOG_PATH", DEFAULT_LOG_FILE);
    ("ANSIBLE_ROLES_PATH", "roles");
    ("ANSIBLE_FILTER_PLUGINS", "plugins");
    ("ANSIBLE_LIBRARY", "library");
    ("ANSIBLE_CALLBACK_RESULT_FORMAT", "yaml") ].

(** ** The settings file *)

(** The file system maps a path to what it names: a regular file with
    its content, a directory with its mode, or a symbolic link (the
    program only makes links to directories and never reads through
    one). *)
Inductive node :=
| File (content : string)
| Dir (mode : Z)
| Link (target : string).

Abbreviation files := (gmap string node).

Definition KV (kv : string * string) : string := kv.1 +:+ "=" +:+ kv.2.

(** One iteration of the loop of [load_env_file]. *)
Definition load_env_line (data : gmap string string) (raw_line : string)
  : gmap string string :=
  let line := Py.strip raw_line in
  if negb (Py.nonempty line) || Py.startswith "#" line then data
  else if negb (Py.str_in "=" line) then data
  else match Py.split_once "=" line with
       | Some (key, value) => <[Py.strip key := Py.strip value]> data
       | None => data
       end.

(** [load_env_file] where [path] names a regular file or nothing. *)
Definition load_env_file (fs : files) (path : string) : gmap string string :=
  match fs !! path with
  | Some (File text) =>
      foldl load_env_line ∅ (Py.splitlines (Py.universal_newlines text))
  | _ => ∅
  end.

(** Order of Python tuples of two strings. *)
Definition item_le (a b : string * string) : Prop :=
  match String.compare a.1 b.1 with
  | Lt => True
  | Eq => String.leb a.2 b.2 = true
  | Gt => False
  end.

Global Instance item_le_dec a b : Decision (item_le a b).
Proof. unfold item_le. destruct (String.compare a.1 b.1); apply _. Defined.

(** [sorted(values.items())] *)
Definition sorted_items (values : gmap string string) : list (string * string) :=
  merge_sort item_le (map_to_list values).

Definition env_text (values : gmap string string) : string :=
  Py.join (String Py.LF EmptyString) (KV <$> sorted_items values)
    +:+ String Py.LF EmptyString.

Definition write_env_file (fs : files) (path : string)
    (values : gmap string string) : files :=
  <[path := File (env_text values)]> fs.


(** ** Interpreter selection *)

(** A version is a tuple of three Python integers, compared as tuples
    are: lexicographically. *)
Definition version : Type := Z * Z * Z.

Definition version_compare (a b : version) : comparison :=
  let '(a1, a2, a3) := a in
  let '(b1, b2, b3) := b in
  match a1 ?= b1 with
  | Eq => match a2 ?= b2 with
          | Eq => a3 ?= b3
          | c => c
          end
  | c => c
  end.

Definition version_ltb (a b : version) : bool :=
  match version_compare a b with Lt => true | _ => false end.
Definition version_geb (a b : version) : bool := negb (version_ltb a b).
Definition version_gtb (a b : version) : bool := version_ltb b a.

Definition MIN_VERSION : version := (3, 10, 0).
Definition MAX_VERSION : version := (3, 15, 0).

(** The version lies in the accepted range: neither of the two [continue]
    guards of the loop fires. *)
Definition in_range (v : version) : bool :=
  negb (version_ltb v MIN_VERSION) && negb (version_geb v MAX_VERSION).

(** The loop body of [select_python]; the state is [(best, best_path)]. *)
Definition select_step (st : option version * option string)
    (cand : string * version) : option version * option string :=
  let '(path, ver) := cand in
  if version_ltb ver MIN_VERSION then st
  else if version_geb ver MAX_VERSION then st
  else match st.1 with
       | None => (Some ver, Some path)
       | Some best =>
           if version_gtb ver best then (Some ver, Some path) else st
       end.

Definition select_python (candidates : list (string * version)) : option string :=
  (foldl select_step (None, None) candidates).2.

(** ** Container runtime detection *)

(** The list [ordered] built by [detect_container_runtime]. *)
Definition search_order (preferred : option string) : list string :=
  let ordered :=
    match preferred with
    | Some p => if Py.nonempty p then [p] else []
    | None => []
    end in
  ordered ++ filter (λ r, r ∉ ordered) ["podman"; "docker"].

(** The [for ... break] loop: the first candidate [shutil.which] finds. *)
Fixpoint first_found (which : string → option string) (ordered : list string)
  : option string :=
  match ordered with
  | [] => None
  | candidate :: rest =>
      if Py.truthy (which candidate) then Some candidate
      else first_found which rest
  end.

Definition volume_option (runtime : string) : string :=
  if String.eqb runtime "podman" then ":ro,z" else ":ro".

Definition detect_container_runtime (which : string → option string)
    (preferred : option string) : option string * option string :=
  match first_found which (search_order preferred) with
  | Some runtime =>
      if Py.nonempty runtime
      then (Some runtime, Some (volume_option runtime))
      else (None, None)
  | None => (None, None)
  end.

(** ** Paths *)

(** [p / q] of [pathlib]: an absolute right operand replaces the left. *)
Definition pjoin (p q : string) : string :=
  if Py.startswith "/" q then q else p +:+ "/" +:+ q.

Infix "</>" := pjoin (at level 40, left associativity).

(** The text before the last slash, when there is one. *)
Fixpoint before_last_slash (p : string) : option string :=
  match p with
  | EmptyString => None
  | String c p' =>
      match before_last_slash p' with
      | Some d => Some (String c d)
      | None => if Ascii.eqb c "/" then Some EmptyString else None
      end
  end.

(** [Path.parent] *)
Definition parent (p : string) : string :=
  match before_last_slash p with
  | Some EmptyString => "/"
  | Some d => d
  | None => "."
  end.

Fixpoint strip_prefix (p s : string) : option string :=
  match p, s with
  | EmptyString, _ => Some s
  | String a p', String b s' => if Ascii.eqb a b then strip_prefix p' s' else None
  | String _ _, EmptyString => None
  end.

(** [p] is an entry of the directory [d]. *)
Definition is_child (d p : string) : bool :=
  match strip_prefix (d +:+ "/") p with
  | Some name => Py.nonempty name && negb (Py.str_in "/" name)
  | None => false
  end.

(** ** Processes, exceptions, state *)

(** The exceptions the workflows distinguish: [CalledProcessError] is
    the [subprocess.SubprocessError] a failing command raises; [OSError]
    stands for [FileNotFoundError], [FileExistsError] and the like, which
    an [except subprocess.SubprocessError] clause does not catch. *)
Inductive exn :=
| CalledProcessError (returncode : Z) (cmd : list string)
| OSError (what : string).

Definition is_SubprocessError (e : exn) : bool :=
  match e with CalledProcessError _ _ => true | OSError _ => false end.

(** One call of [subprocess.run]. *)
Record command := Command {
  argv : list string;
  capture : bool;
  cmd_env : option (gmap string string)
}.

Record completed := Completed { returncode : Z; stdout : string }.

(** A spawned command with the status it exited with; [None] when the
    program could not be started. *)
Record event := Event { ev_cmd : command; ev_status : option Z }.

(** Log records of level WARNING and above (INFO and DEBUG records are
    not modelled): the format string and its arguments. *)
Inductive level := WARNING | ERROR | CRITICAL.

Inductive log_arg := LStr (s : string) | LExn (e : exn).

Record log_record := LogRecord {
  lvl : level;
  fmt : string;
  fmt_args : list log_arg
}.

(** The state the workflows act on.  [fs] is the file system,
    [environ] is [os.environ], [trace] the commands spawned so far with
    their exit status, oldest first, [log] the records emitted so far,
    and [container_started] the local variable of that name in [run]. *)
Record state := State {
  fs : files;
  environ : gmap string string;
  trace : list event;
  log : list log_record;
  container_started : bool
}.

Definition set_fs (f : files → files) (s : state) : state :=
  State (f (fs s)) (environ s) (trace s) (log s) (container_started s).
Definition set_environ (f : gmap string string → gmap string string) (s : state) : state :=
  State (fs s) (f (environ s)) (trace s) (log s) (container_started s).
Definition set_trace (f : list event → list event) (s : state) : state :=
  State (fs s) (environ s) (f (trace s)) (log s) (container_started s).
Definition set_log (f : list log_record → list log_record) (s : state) : state :=
  State (fs s) (environ s) (trace s) (f (log s)) (container_started s).
Definition set_container_started (b : bool) (s : state) : state :=
  State (fs s) (environ s) (trace s) (log s) b.

(** What a spawned program does: it exits with a status and an output,
    leaving the file system as [files_after]; or it cannot be started
    at all. *)
Inductive spawned :=
| Exited (returncode : Z) (stdout : string) (files_after : files)
| NotStarted (what : string).

(** The host the workflows run on: what [shutil.which] finds, how each
    spawned program behaves in the state it is started in, and what
    [find_python_candidates] reports. *)
Record host := Host {
  which : string → option string;
  spawn : state → command → spawned;
  find_python_candidates : list (string * version)
}.

Inductive result (A : Type) :=
| Ok (a : A)
| Raise (e : exn).
Arguments Ok {A} a.
Arguments Raise {A} e.

Definition M (A : Type) : Type := state → result A * state.

Global Instance M_ret : MRet M := λ A a s, (Ok a, s).
Global Instance M_bind : MBind M := λ A B f m s,
  match m s with
  | (Ok a, s') => f a s'
  | (Raise e, s') => (Raise e, s')
  end.

Definition raise {A} (e : exn) : M A := λ s, (Raise e, s).
Definition gets {A} (f : state → A) : M A := λ s, (Ok (f s), s).
Definition modify (f : state → state) : M unit := λ s, (Ok (), f s).
Definition when (b : bool) (m : M unit) : M unit := if b then m else mret ().

(** [try: body except E: handler], for the exceptions [catches] selects. *)
Definition try_except {A} (body : M A) (catches : exn → bool)
    (handler : exn → M A) : M A := λ s,
  match body s with
  | (Raise e, s') => if catches e then handler e s' else (Raise e, s')
  | r => r
  end.

(** [try: body finally: final]: [final] runs on every exit of [body];
    an exception of [final] replaces the outcome of [body]. *)
Definition try_finally {A} (body : M A) (final : M unit) : M A := λ s,
  let '(r, s1) := body s in
  match final s1 with
  | (Ok _, s2) => (r, s2)
  | (Raise e, s2) => (Raise e, s2)
  end.

Definition logging (l : level) (f : string) (a : list log_arg) : M unit :=
  modify (set_log (λ rs, rs ++ [LogRecord l f a])).

(** [subprocess.run(args, check=..., capture_output=..., env=...)] *)
Definition subprocess_run (h : host) (args : list string) (check capture : bool)
    (env : option (gmap string string)) : M completed := λ s,
  let c := Command args capture env in
  match spawn h s c with
  | NotStarted what =>
      (Raise (OSError what), set_trace (λ t, t ++ [Event c None]) s)
  | Exited rc out fs' =>
      let s' := set_trace (λ t, t ++ [Event c (Some rc)]) (set_fs (λ _, fs') s) in
      if check && negb (rc =? 0)
      then (Raise (CalledProcessError rc args), s')
      else (Ok (Completed rc out), s')
  end.

(** The type of the injectable [runner]. *)
Definition runner_t : Type :=
  list string → bool → option (gmap string string) → M completed.

Definition _run_subprocess (h : host) : runner_t :=
  λ args capture env, subprocess_run h args true capture env.

(** *** File operations *)

Definition path_exists (s : state) (p : string) : bool :=
  bool_decide (is_Some (fs s !! p)).

(** [p.mkdir(parents=True, exist_ok=True)] *)
Definition mkdir (p : string) : M unit := λ s,
  match fs s !! p with
  | Some (File _) => (Raise (OSError "FileExistsError"), s)
  | Some _ => (Ok (), s)
  | None => (Ok (), set_fs <[p := Dir 511]> s)
  end.

(** [os.chmod(p, mode)]; only the mode of a directory is recorded. *)
Definition chmod (p : string) (mode : Z) : M unit := λ s,
  match fs s !! p with
  | Some (Dir _) => (Ok (), set_fs <[p := Dir mode]> s)
  | Some _ => (Ok (), s)
  | None => (Raise (OSError "FileNotFoundError"), s)
  end.

(** [p.unlink()] *)
Definition unlink (p : string) : M unit := λ s,
  match fs s !! p with
  | Some (Dir _) => (Raise (OSError "IsADirectoryError"), s)
  | Some _ => (Ok (), set_fs (delete p) s)
  | None => (Raise (OSError "FileNotFoundError"), s)
  end.

(** [p.read_bytes()] *)
Definition read_bytes (p : string) : M string := λ s,
  match fs s !! p with
  | Some (File b) => (Ok b, s)
  | Some _ => (Raise (OSError "IsADirectoryError"), s)
  | None => (Raise (OSError "FileNotFoundError"), s)
  end.

(** [p.write_bytes(b)], [p.write_text(b)] *)
Definition write_bytes (p b : string) : M unit := λ s,
  match fs s !! p with
  | Some (Dir _) | Some (Link _) => (Raise (OSError "IsADirectoryError"), s)
  | _ => (Ok (), set_fs <[p := File b]> s)
  end.

(** [p.symlink_to(target)] *)
Definition symlink_to (p target : string) : M unit := λ s,
  if path_exists s p then (Raise (OSError "FileExistsError"), s)
  else (Ok (), set_fs <[p := Link target]> s).

(** [load_env_file] in the workflows: reading a path that names a
    directory raises. *)
Definition read_env_file (path : string) : M (gmap string string) := λ s,
  match fs s !! path with
  | Some (Dir _) | Some (Link _) => (Raise (OSError "IsADirectoryError"), s)
  | _ => (Ok (load_env_file (fs s) path), s)
  end.

(** ** Activation workflow *)

(** Command-line arguments ([argparse.Namespace]).  [playbook_path] is
    the project root after [Path(...).resolve()]. *)
Module Args.
Record t := Make {
  playbook_path : string;
  env_file : string;
  container_runtime : option string;
  container_name : option string;
  container_host_port : option string;
  skip_container : bool;
  limit : option string
}.
End Args.

(** A dict literal, given as its items in order: a later item replaces
    an earlier one with the same key. *)
Definition dict_of (items : list (string * string)) : gmap string string :=
  foldl (λ m kv, <[kv.1 := kv.2]> m) ∅ items.

(** [d.update(other)]: the entries of [other] replace those of [d]. *)
Definition dict_update (d other : gmap string string) : gmap string string :=
  other ∪ d.

Definition build_activation_env (playbook_path : string) : gmap string string :=
  dict_of
    ([("PLAYBOOK_PATH", playbook_path)]
     ++ ANSIBLE_ENV_DEFAULTS
     ++ [("ANSIBLE_VAULT_PASSWORD_FILE", playbook_path </> DEFAULT_VAULT_PASSWORD_FILE);
         ("CONTAINER_RUNTIME", DEFAULT_CONTAINER_RUNTIME);
         ("CONTAINER_HOST_PORT", pretty DEFAULT_HOST_PORT);
         ("CONTAINER_NAME", DEFAULT_CONTAINER_NAME)]).

(** [select_python] with the warning it logs when nothing is selected. *)
Definition select_python_io (candidates : list (string * version)) : M (option string) :=
  let best_path := select_python candidates in
  when (negb (bool_decide (is_Some best_path)))
       (logging WARNING "No suitable Python found in candidates" []);;
  mret best_path.

Definition ensure_venv (h : host) (playbook_path : string) (unit_testing : bool)
  : M (option string) :=
  let venv_dir := playbook_path </> ".venv" in
  let venv_python := venv_dir </> "bin" </> "python" in
  ex ← gets (λ s, path_exists s venv_python);
  if ex : bool then mret (Some venv_python)
  else if unit_testing then mret None
  else
    let candidates := find_python_candidates h in
    match candidates with
    | [] =>
        logging ERROR "No python3 interpreters found. Please install Python 3.10-3.14." [];;
        mret None
    | _ =>
        picked ← select_python_io candidates;
        match picked with
        | None =>
            logging ERROR
              "No suitable Python Python 3.10-3.14 found. Please install Python 3.10-3.14." [];;
            mret None
        | Some picked =>
            try_except
              (subprocess_run h [picked; "-m"; "venv"; venv_dir] true false None;;
               ex ← gets (λ s, path_exists s venv_python);
               mret (if ex : bool then Some venv_python else None))
              is_SubprocessError
              (λ exc,
                 logging ERROR "Failed to create virtualenv with %s: %s"
                   [LStr picked; LExn exc];;
                 mret None)
        end
    end.

Definition _venv_python (playbook_path : string) : M (option string) :=
  let candidate := playbook_path </> ".venv" </> "bin" </> "python" in
  ex ← gets (λ s, path_exists s candidate);
  mret (if ex : bool then Some candidate else None).

Definition install_requirements (h : host) (venv_python : string) : M unit :=
  subprocess_run h [venv_python; "-m"; "pip"; "install"; "--upgrade"; "pip"] true false None;;
  subprocess_run h [venv_python; "-m"; "pip"; "install"; "-r"; "requirements.txt"] true false None;;
  subprocess_run h [venv_python; "-m"; "pip"; "uninstall"; "-y"; "pytest-ansible"] false false None;;
  mret ().

Definition activate (h : host) (args : Args.t) : M Z :=
  let playbook_path := Args.playbook_path args in
  let env_file := Args.env_file args in
  unit_testing ← gets (λ s, Py.truthy (environ s !! "UNIT_TESTING"));
  venv_python ← _venv_python playbook_path;
  '(venv_python, created) ←
    match venv_python with
    | None =>
        venv_python ← ensure_venv h playbook_path unit_testing;
        mret (venv_python, bool_decide (is_Some venv_python))
    | Some _ => mret (venv_python, false)
    end;
  match venv_python with
  | Some p => when created (install_requirements h p)
  | None => mret ()
  end;;
  env_values ← read_env_file env_file;
  let env_values :=
    dict_update env_values (build_activation_env playbook_path) in
  let env_values :=
    match venv_python with
    | Some p => <["VENV_PYTHON" := p]> env_values
    | None => env_values
    end in
  (* write_env_file(env_file, env_values) *)
  write_bytes env_file (env_text env_values);;
  mret RETURN_SUCCESS.

(** ** Run workflow *)

Definition detect_ansible (h : host) : M bool :=
  if Py.truthy (which h "ansible") then mret true
  else logging ERROR "'ansible' was not found in PATH" [];; mret false.

(** [detect_container_runtime] with the warning it logs when it finds
    no engine. *)
Definition detect_container_runtime_io (h : host) (preferred : option string)
  : M (option string * option string) :=
  let r := detect_container_runtime (which h) preferred in
  when (negb (bool_decide (is_Some r.1)))
       (logging WARNING "No container runtime found" []);;
  mret r.

Definition keygen_args (key_path : string) : list string :=
  ["ssh-keygen"; "-q"; "-t"; "ed25519"; "-N"; ""; "-C"; "ansible@target"; "-f"; key_path].

Definition setup_ssh_keys (base_dir key_basename : string) (runner : runner_t)
  : M (string * string) :=
  let ssh_dir := base_dir </> DEFAULT_SSH_DIR in
  mkdir ssh_dir;;
  chmod ssh_dir 448;;
  let key_path := ssh_dir </> key_basename in
  let pub_path := ssh_dir </> (key_basename +:+ ".pub") in
  let auth_keys := ssh_dir </> "authorized_keys" in
  ex ← gets (λ s, path_exists s key_path);
  when ex (unlink key_path);;
  ex ← gets (λ s, path_exists s pub_path);
  when ex (unlink pub_path);;
  runner (keygen_args key_path) false None;;
  b ← read_bytes pub_path;
  write_bytes auth_keys b;;
  mret (key_path, auth_keys).

Definition setup_vault (playbook_path vault_file : string) : M string :=
  let target := playbook_path </> vault_file in
  ex ← gets (λ s, path_exists s target);
  when (negb ex) (write_bytes target ("password" +:+ String Py.LF EmptyString));;
  mret target.

(** [p.is_dir() or p.is_symlink()] *)
Definition is_dir_or_symlink (n : node) : bool :=
  match n with File _ => false | _ => true end.

(** The entries of [roles_dir] that are directories or symbolic links. *)
Definition role_entries (s : state) (roles_dir : string) : list string :=
  (filter (λ pn, is_child roles_dir pn.1 && is_dir_or_symlink pn.2 = true)
          (map_to_list (fs s))).*1.

Definition setup_roles (playbook_path : string) (runner : runner_t) : M unit :=
  let roles_dir := playbook_path </> "roles" in
  ex ← gets (λ s, path_exists s roles_dir);
  if negb ex then mret ()
  else
    is_file ← gets (λ s, match fs s !! roles_dir with
                         | Some (File _) => true
                         | _ => false
                         end);
    when is_file (raise (OSError "NotADirectoryError"));;
    entries ← gets (λ s, role_entries s roles_dir);
    match entries with
    | _ :: _ => mret ()
    | [] =>
        let requirements := roles_dir </> "requirements.yml" in
        ex ← gets (λ s, path_exists s requirements);
        if negb ex then mret ()
        else
          let sibling_role := parent playbook_path </> "ans_dev_sandbox_role" in
          ex ← gets (λ s, path_exists s sibling_role);
          if ex : bool then
            let link_path := roles_dir </> "ans_dev_sandbox_role" in
            ex ← gets (λ s, path_exists s link_path);
            when ex (unlink link_path);;
            symlink_to link_path ("../.." </> "ans_dev_sandbox_role")
          else
            runner ["ansible-galaxy"; "install"; "--role-file"; requirements;
                    "--roles-path"; roles_dir] false None;;
            mret ()
    end.

(** The local function [_has_collection] of [setup_collections]. *)
Definition _has_collection (runner : runner_t) (name : string) : M bool :=
  try_except
    (result ← runner ["ansible-galaxy"; "collection"; "list"] true None;
     mret (Py.str_in name (stdout result)))
    is_SubprocessError
    (λ _, mret false).

Definition setup_collections (runner : runner_t) : M unit :=
  has ← _has_collection runner "ansible.posix";
  when (negb has)
    (runner ["ansible-galaxy"; "collection"; "install"; "ansible.posix"] false None;;
     mret ());;
  has ← _has_collection runner "community.general";
  when (negb has)
    (runner ["ansible-galaxy"; "collection"; "install"; "community.general"] false None;;
     mret ()).

Definition stop_args (runtime container_name : string) : list string :=
  [runtime; "container"; "stop"; container_name].

Definition start_args (runtime volume_opt playbook_path container_name : string)
    (host_port ssh_port : Z) (image : string) : list string :=
  [runtime; "run"; "--detach"; "--hostname"; container_name;
   "--name"; container_name;
   "--publish"; pretty host_port +:+ ":" +:+ pretty ssh_port;
   "--rm"; "--volume";
   (playbook_path </> DEFAULT_SSH_DIR) +:+ ":/root/.ssh" +:+ volume_opt;
   image].

Definition setup_container (runtime volume_opt playbook_path container_name : string)
    (host_port ssh_port : Z) (image : string) (runner : runner_t) : M unit :=
  runner [runtime; "build"; "--file"; "containerfile"; "--tag"; container_name;
          playbook_path] false None;;
  try_except
    (runner (stop_args runtime container_name) false None;; mret ())
    is_SubprocessError
    (λ _, mret ());;
  runner (start_args runtime volume_opt playbook_path container_name
            host_port ssh_port image) false None;;
  mret ().

Definition playbook_args (inventory playbook : string) (limit : option string)
  : list string :=
  ["ansible-playbook"; "--inventory"; inventory; playbook]
  ++ match limit with
     | Some l => if Py.nonempty l then ["-l"; l] else []
     | None => []
     end.

Definition run_playbook (inventory playbook : string)
    (extra_env : gmap string string) (limit : option string)
    (runner : runner_t) : M unit :=
  env ← gets (λ s, dict_update (environ s) extra_env);
  runner (playbook_args inventory playbook limit) false (Some env);;
  mret ().

Definition set_env_vars (path : string) : M unit :=
  env_vars ← read_env_file path;
  modify (set_environ (λ e, dict_update e env_vars)).

(** [cli or persisted or default] *)
Definition resolve (cli persisted : option string) (default : string) : string :=
  Py.or_else (Py.por cli persisted) default.

(** The condition under which [run] warns about an override:
    [cli and persisted and cli != persisted]. *)
Definition overrides (cli persisted : option string) : bool :=
  Py.truthy cli && Py.truthy persisted && negb (bool_decide (cli = persisted)).

Definition override_record (key : string) (cli persisted : option string) : log_record :=
  LogRecord WARNING
    ("Overriding " +:+ key +:+ " from .env (%s) with CLI value (%s)")
    [LStr (default "" persisted); LStr (default "" cli)].

(** The [if ...: logging.warning(...)] that follows each of the three
    resolutions in [run]. *)
Definition warn_override (key : string) (cli persisted : option string) : M unit :=
  when (overrides cli persisted)
       (logging (lvl (override_record key cli persisted))
                (fmt (override_record key cli persisted))
                (fmt_args (override_record key cli persisted))).

(** The limit [run] hands to [run_playbook]. *)
Definition dispatch_limit (args : Args.t) : option string :=
  if Args.skip_container args && negb (Py.truthy (Args.limit args))
  then Some "localhost"
  else Args.limit args.

(** The [finally] block of [run]. *)
Definition cleanup (h : host) (runtime container_name : string) : M unit :=
  started ← gets container_started;
  when started
    (try_except
       (_run_subprocess h (stop_args runtime container_name) false None;; mret ())
       is_SubprocessError
       (λ _, logging WARNING "Failed to stop container %s during cleanup"
               [LStr container_name])).

(** The [try] block of [run]. *)
Definition run_body (h : host) (args : Args.t)
    (runtime volume_opt container_name key_path vault_path : string)
    (host_port : Z) : M unit :=
  let playbook_path := Args.playbook_path args in
  (if negb (Args.skip_container args) then
     setup_container runtime volume_opt playbook_path container_name
       host_port DEFAULT_SSH_PORT DEFAULT_CONTAINER_IMAGE (_run_subprocess h);;
     modify (set_container_started true)
   else mret ());;
  setup_roles playbook_path (_run_subprocess h);;
  setup_collections (_run_subprocess h);;
  let extra_env :=
    dict_of [("ANSIBLE_PRIVATE_KEY_FILE", key_path);
             ("ANSIBLE_HOST_KEY_CHECKING", "False");
             ("ANSIBLE_VAULT_PASSWORD_FILE", vault_path)] in
  let limit := dispatch_limit args in
  run_playbook (playbook_path </> INVENTORY_FILE) (playbook_path </> PLAYBOOK_FILE)
    extra_env limit (_run_subprocess h).

(** The first part of [run]: the settings are loaded and exported, and
    each of the three settings is resolved, with its warning.  The
    result is [(runtime_preference, container_name, host_port_str)]. *)
Definition resolve_settings (args : Args.t) : M (string * string * string) :=
  let env_file := Args.env_file args in
  settings ← read_env_file env_file;
  set_env_vars env_file;;
  let runtime_preference :=
    resolve (Args.container_runtime args) (settings !! "CONTAINER_RUNTIME")
      DEFAULT_CONTAINER_RUNTIME in
  warn_override "CONTAINER_RUNTIME" (Args.container_runtime args)
    (settings !! "CONTAINER_RUNTIME");;
  let container_name :=
    resolve (Args.container_name args) (settings !! "CONTAINER_NAME")
      DEFAULT_CONTAINER_NAME in
  warn_override "CONTAINER_NAME" (Args.container_name args)
    (settings !! "CONTAINER_NAME");;
  let host_port_str :=
    resolve (Args.container_host_port args) (settings !! "CONTAINER_HOST_PORT")
      (pretty DEFAULT_HOST_PORT) in
  warn_override "CONTAINER_HOST_PORT" (Args.container_host_port args)
    (settings !! "CONTAINER_HOST_PORT");;
  mret (runtime_preference, container_name, host_port_str).

(** The rest of [run], from the conversion of the port on. *)
Definition run_resolved (h : host) (args : Args.t)
    (runtime_preference container_name host_port_str : string) : M Z :=
  let playbook_path := Args.playbook_path args in
  match Py.int host_port_str with
  | None =>
      logging ERROR "Invalid CONTAINER_HOST_PORT value: %s" [LStr host_port_str];;
      mret RETURN_NO_RUNTIME
  | Some host_port =>
      '(runtime, volume_opt) ← detect_container_runtime_io h (Some runtime_preference);
      match runtime with
      | None =>
          logging ERROR "Neither podman nor docker found; cannot continue" [];;
          mret RETURN_NO_RUNTIME
      | Some runtime =>
          ansible ← detect_ansible h;
          if negb ansible then mret RETURN_MISSING_DEPENDENCY
          else
            '(key_path, auth_keys) ←
              setup_ssh_keys playbook_path DEFAULT_KEY_BASENAME (_run_subprocess h);
            vault_path ← setup_vault playbook_path DEFAULT_VAULT_PASSWORD_FILE;
            modify (set_container_started false);;
            try_finally
              (run_body h args runtime (Py.or_else volume_opt ":ro")
                 container_name key_path vault_path host_port)
              (cleanup h runtime container_name);;
            mret RETURN_SUCCESS
      end
  end.

Definition run (h : host) (args : Args.t) : M Z :=
  '(runtime_preference, container_name, host_port_str) ← resolve_settings args;
  run_resolved h args runtime_preference container_name host_port_str.

(** [main] after argument parsing: every exception of the subcommand
    (none of those modelled is a [SystemExit]) is logged and turned into
    the status for unhandled failures. *)
Definition main (func : Args.t → M Z) (args : Args.t) : M Z := λ s,
  match func args s with
  | (Raise exc, s') =>
      (Ok RETURN_UNHANDLED_EXCEPTION,
       set_log (λ rs, rs ++ [LogRecord CRITICAL "Unhandled exception: %s" [LExn exc]]) s')
  | r => r
  end.

(** ** Predicates used in the statements *)

Fixpoint all_chars (P : ascii → bool) (s : string) : bool :=
  match s with
  | EmptyString => true
  | String c s' => P c && all_chars P s'
  end.

(** No character of the string is a line boundary. *)
Definition single_line (s : string) : bool :=
  all_chars (λ c, negb (Py.is_linebreak c)) s.

(** An entry the settings file can hold as it is: key and value are
    trimmed and on one line, and the key has no ["="] and does not start
    a comment. *)
Definition storable (k v : string) : Prop :=
  Py.strip k = k ∧ Py.strip v = v
  ∧ Py.str_in "=" k = false ∧ Py.startswith "#" k = false
  ∧ single_line k = true ∧ single_line v = true.

Definition all_storable (m : gmap string string) : Prop :=
  map_Forall storable m.

(** The keys of a list of items are in ascending order. *)
Definition keys_ascending (l : list (string * string)) : Prop :=
  Sorted (λ a b, String.leb a.1 b.1 = true) l.

(** The lines the loop of [load_env_file] iterates over. *)
Definition env_lines (fs : files) (path : string) : list string :=
  match fs !! path with
  | Some (File text) => Py.splitlines (Py.universal_newlines text)
  | _ => []
  end.

(** The version [a] is below [b], spelled out. *)
Definition version_lt (a b : version) : Prop :=
  (a.1.1 < b.1.1
   ∨ (a.1.1 = b.1.1 ∧ (a.1.2 < b.1.2 ∨ (a.1.2 = b.1.2 ∧ a.2 < b.2))))%Z.

(** The probing order as the documentation of [detect_container_runtime]
    words it: the preferred engine first, when one is given, then podman
    and docker, without repeating the preferred one. *)
Definition documented_order (preferred : option string) : list string :=
  match preferred with
  | Some p => p :: filter (λ r, r ≠ p) ["podman"; "docker"]
  | None => ["podman"; "docker"]
  end.

(** What the loop has established after the candidates [l]: nothing
    selected and nothing in range so far, or the selected candidate sits
    at an index [i], is in range, no candidate in range is above it and
    those in range before [i] are strictly below. *)
Definition selected (l : list (string * version))
    (st : option version * option string) : Prop :=
  match st with
  | (None, None) => ∀ p v, (p, v) ∈ l → in_range v = false
  | (Some v, Some p) =>
      ∃ i : nat, l !! i = Some (p, v) ∧ in_range v = true
        ∧ (∀ (j : nat) p' v',
             l !! j = Some (p', v') → in_range v' = true → ¬ version_lt v v')
        ∧ (∀ (j : nat) p' v',
             (j < i)%nat → l !! j = Some (p', v') → in_range v' = true →
             version_lt v' v)
  | _ => False
  end.


(** The paths [setup_ssh_keys] works on. *)
Definition ssh_dir_path (base_dir : string) : string :=
  base_dir </> DEFAULT_SSH_DIR.
Definition key_path_of (base_dir key_basename : string) : string :=
  ssh_dir_path base_dir </> key_basename.
Definition pub_path_of (base_dir key_basename : string) : string :=
  ssh_dir_path base_dir </> (key_basename +:+ ".pub").
Definition auth_keys_of (base_dir : string) : string :=
  ssh_dir_path base_dir </> "authorized_keys".

(** The state in which [setup_ssh_keys] starts the key generator: the
    key directory is there, with mode 0700 when it is a directory of its
    own, and nothing is left at the paths of the two key files. *)
Definition keygen_state (base_dir key_basename : string) (s : state) : state :=
  set_fs (λ f,
    delete (pub_path_of base_dir key_basename)
      (delete (key_path_of base_dir key_basename)
         (match f !! ssh_dir_path base_dir with
          | Some (Link _) => f
          | _ => <[ssh_dir_path base_dir := Dir 448]> f
          end))) s.

(** [s] with other content, or none, at the paths of the two key files. *)
Definition put_file (p : string) (content : option string) (f : files) : files :=
  match content with
  | Some b => <[p := File b]> f
  | None => delete p f
  end.


(** What [setup_ssh_keys] does from the call of the generator on. *)
Definition after_keygen (base_dir key_basename : string) (runner : runner_t)
  : M (string * string) :=
  runner (keygen_args (key_path_of base_dir key_basename)) false None;;
  b ← read_bytes (pub_path_of base_dir key_basename);
  write_bytes (auth_keys_of base_dir) b;;
  mret (key_path_of base_dir key_basename, auth_keys_of base_dir).

(** *** Commands in the trace *)

Definition is_build (e : event) : bool :=
  match argv (ev_cmd e) with _ :: "build" :: _ => true | _ => false end.

Definition is_stop (e : event) : bool :=
  match argv (ev_cmd e) with [_; "container"; "stop"; _] => true | _ => false end.

Definition is_start (e : event) : bool :=
  match argv (ev_cmd e) with _ :: "run" :: "--detach" :: _ => true | _ => false end.

(** The command that starts the container, and it exited with status 0. *)
Definition started_ok (e : event) : bool :=
  is_start e && bool_decide (ev_status e = Some 0%Z).

Definition is_dispatch (e : event) : bool :=
  match argv (ev_cmd e) with
  | program :: option :: _ =>
      String.eqb option "--inventory" && String.eqb program "ansible-playbook"
  | _ => false
  end.

(** Neither image build, nor container stop, nor container start. *)
Definition plain (e : event) : bool :=
  negb (is_build e) && negb (is_stop e) && negb (is_start e).

(** [m] leaves the variable [container_started] alone and spawns only
    commands that satisfy [P]. *)
Definition tame {A} (P : event → Prop) (m : M A) : Prop :=
  ∀ s r s', m s = (r, s') →
    container_started s' = container_started s
    ∧ ∃ evs, trace s' = trace s ++ evs ∧ Forall P evs.

(** A dispatch of the playbook is the one [run] asks for. *)
Definition dispatch_ok (args : Args.t) (e : event) : Prop :=
  is_dispatch e = true →
  argv (ev_cmd e)
  = playbook_args (Args.playbook_path args </> INVENTORY_FILE)
      (Args.playbook_path args </> PLAYBOOK_FILE) (dispatch_limit args).

(** A command of [run] outside the container life cycle. *)
Definition benign (args : Args.t) (e : event) : Prop :=
  plain e = true ∧ dispatch_ok args e.

(** [P] holds of every event of the command line [line]. *)
Definition covers (P : event → Prop) (line : list string) : Prop :=
  ∀ capture env st, P (Event (Command line capture env) st).

(** The commands of an attempt to set the container up: the build, then
    the stop of a stale container, then the start with the command line
    [start_line]; the list ends where a command made the attempt fail. *)
Definition setup_attempt (runtime container_name : string)
    (start_line : list string) (evs : list event) (success : bool) : Prop :=
  ∃ b, is_build b = true ∧ is_stop b = false ∧ started_ok b = false
    ∧ is_dispatch b = false
    ∧ ((evs = [b] ∧ success = false)
       ∨ ∃ st, argv (ev_cmd st) = stop_args runtime container_name
           ∧ ((evs = [b; st] ∧ success = false)
              ∨ ∃ run, argv (ev_cmd run) = start_line
                  ∧ evs = [b; st; run]
                  ∧ success = bool_decide (ev_status run = Some 0%Z))).

(** The commands [run] can have spawned when it is left: commands
    outside the container life cycle, followed by nothing more, or by a
    failed attempt to set the container up, or by a successful one, the
    commands of the role, collection and playbook steps, and the stop of
    the container as the last command. *)
Definition run_trace (args : Args.t) (evs : list event) : Prop :=
  ∃ K X, evs = K ++ X ∧ Forall (benign args) K
    ∧ (X = []
       ∨ (Args.skip_container args = false
          ∧ ∃ runtime volume_opt container_name host_port,
            let start_line :=
              start_args runtime volume_opt (Args.playbook_path args)
                container_name host_port DEFAULT_SSH_PORT DEFAULT_CONTAINER_IMAGE in
            setup_attempt runtime container_name start_line X false
            ∨ ∃ att rest stop,
                X = att ++ rest ++ [stop]
                ∧ setup_attempt runtime container_name start_line att true
                ∧ Forall (benign args) rest
                ∧ argv (ev_cmd stop) = stop_args runtime container_name)).

(** The warnings of the three resolutions of [run], in order. *)
Definition override_warnings (args : Args.t) (settings : gmap string string)
  : list log_record :=
  (if overrides (Args.container_runtime args) (settings !! "CONTAINER_RUNTIME")
   then [override_record "CONTAINER_RUNTIME" (Args.container_runtime args)
           (settings !! "CONTAINER_RUNTIME")]
   else [])
  ++ (if overrides (Args.container_name args) (settings !! "CONTAINER_NAME")
      then [override_record "CONTAINER_NAME" (Args.container_name args)
              (settings !! "CONTAINER_NAME")]
      else [])
  ++ (if overrides (Args.container_host_port args) (settings !! "CONTAINER_HOST_PORT")
      then [override_record "CONTAINER_HOST_PORT" (Args.container_host_port args)
              (settings !! "CONTAINER_HOST_PORT")]
      else []).


(** The settings path names a regular file or nothing. *)
Definition readable (s : state) (path : string) : Prop :=
  match fs s !! path with
  | Some (Dir _) | Some (Link _) => False
  | _ => True
  end.

(** The first part of [activate]: the virtual environment is found or
    made, and the requirements installed when it was made. *)
Definition venv_phase (h : host) (playbook_path : string) : M (option string) :=
  unit_testing ← gets (λ s, Py.truthy (environ s !! "UNIT_TESTING"));
  venv_python ← _venv_python playbook_path;
  '(venv_python, created) ←
    match venv_python with
    | None =>
        venv_python ← ensure_venv h playbook_path unit_testing;
        mret (venv_python, bool_decide (is_Some venv_python))
    | Some _ => mret (venv_python, false)
    end;
  match venv_python with
  | Some p => when created (install_requirements h p)
  | None => mret ()
  end;;
  mret venv_python.

(** The map [activate] writes, from the map it loaded. *)
Definition activation_values (playbook_path : string) (venv_python : option string)
    (loaded : gmap string string) : gmap string string :=
  let env_values := dict_update loaded (build_activation_env playbook_path) in
  match venv_python with
  | Some p => <["VENV_PYTHON" := p]> env_values
  | None => env_values
  end.

(** ** Example data *)

Definition NL : string := String Py.LF EmptyString.

Definition example_env_fs : files :=
  {[ ".env" := File ("# settings" +:+ NL +:+ "A = 1" +:+ NL +:+ "no separator here"
                     +:+ NL +:+ NL +:+ " B=2=3 " +:+ NL) ]}.

Definition example_candidates : list (string * version) :=
  [ ("/usr/bin/python3.11", (3, 11, 5));
    ("/usr/bin/python3.14", (3, 14, 2));
    ("/usr/bin/python3.15", (3, 15, 0));
    ("/opt/py/bin/python3.14", (3, 14, 2));
    ("/usr/bin/python3.12", (3, 12, 0)) ].

(** A host where every program but the one of the empty name is found
    under [/usr/bin]. *)
Definition example_which (name : string) : option string :=
  if Py.nonempty name then Some ("/usr/bin/" +:+ name) else None.

Definition example_state : state := State ∅ ∅ [] [] false.

(** A key generator that writes a key pair numbered by the commands
    spawned so far, in the way of the stub of the unit tests. *)
Definition example_keygen : runner_t := λ args capture env s,
  match last args with
  | Some key_path =>
      let n := pretty (length (trace s)) in
      (Ok (Completed 0 ""),
       set_trace (λ t, t ++ [Event (Command args capture env) (Some 0)])
         (set_fs (λ f, <[key_path +:+ ".pub" := File ("PUBLIC-" +:+ n)]>
                         (<[key_path := File ("PRIVATE-" +:+ n)]> f)) s))
  | None => (Raise (OSError "usage"), s)
  end.


(** A host with every program on the path, where the key generator
    writes a key pair and every command exits with status 0, except the
    playbook run when [playbook_status] is another one. *)
Definition example_spawn (playbook_status : Z) (s : state) (c : command) : spawned :=
  match argv c with
  | "ssh-keygen" :: _ =>
      match last (argv c) with
      | Some key_path =>
          Exited 0 ""
            (<[key_path +:+ ".pub" := File "PUBLIC"]>
               (<[key_path := File "PRIVATE"]> (fs s)))
      | None => Exited 1 "" (fs s)
      end
  | "ansible-playbook" :: _ => Exited playbook_status "" (fs s)
  | _ => Exited 0 "" (fs s)
  end.

Definition example_host : host := Host example_which (example_spawn 0) [].

Definition example_args : Args.t :=
  Args.Make "/p" "/p/.env" None None None false None.
Definition example_skip_args : Args.t :=
  Args.Make "/p" "/p/.env" None None None true None.


(** A settings file that names docker, an existing virtual environment,
    and a command line that asks for podman. *)
Definition docker_state : state :=
  State {[ "/p/.env" := File ("CONTAINER_RUNTIME=docker" +:+ NL);
           "/p/.venv/bin/python" := File "" ]} ∅ [] [] false.

(** A settings file with a key that [activate] does not supply, and an
    existing virtual environment. *)
Definition custom_key_state : state :=
  State {[ "/p/.env" := File ("MY_SETTING=kept" +:+ NL +:+ "CONTAINER_NAME=mine" +:+ NL);
           "/p/.venv/bin/python" := File "" ]} ∅ [] [] false.

(** A host whose only interpreter is Python 3.9. *)
Definition old_python_host : host :=
  Host example_which (example_spawn 0) [("/usr/bin/python3.9", (3, 9, 18))].

(** ** Logging configuration *)

(** The numeric levels of the [logging] module. *)
Definition logging_CRITICAL : Z := 50.
Definition logging_ERROR : Z := 40.
Definition logging_WARNING : Z := 30.
Definition logging_INFO : Z := 20.
Definition logging_DEBUG : Z := 10.

Definition LOG_LEVELS : list Z :=
  [logging_CRITICAL; logging_ERROR; logging_WARNING; logging_INFO; logging_DEBUG].

(** [l[i]] on a Python list: a negative index counts from the end, and
    [None] stands for [IndexError]. *)
Definition list_getitem {A} (l : list A) (i : Z) : option A :=
  if 0 <=? i then l !! Z.to_nat i
  else if 0 <=? Z.of_nat (length l) + i then l !! Z.to_nat (Z.of_nat (length l) + i)
  else None.

Inductive handler :=
| StreamHandler (stream : string)
| FileHandler (filename mode : string).

(** The keyword arguments of [logging.basicConfig] other than the
    format. *)
Record basic_config := BasicConfig {
  config_level : Z;
  config_handlers : list handler
}.

(** [configure_logging], as the configuration it hands to
    [logging.basicConfig]; a [Path] is always true, so [if log_file]
    asks whether a log file was given. *)
Definition configure_logging (verbosity : Z) (log_file : option string)
  : option basic_config :=
  let level_index := Z.min (Z.of_nat (length LOG_LEVELS) - 1) verbosity in
  level ← list_getitem LOG_LEVELS level_index;
  let handlers :=
    [StreamHandler "sys.stderr"]
    ++ match log_file with
       | Some f => [FileHandler f "w"]
       | None => []
       end in
  Some (BasicConfig level handlers).

(** The number of a level of the log records of the model. *)
Definition levelno (l : level) : Z :=
  match l with
  | WARNING => logging_WARNING
  | ERROR => logging_ERROR
  | CRITICAL => logging_CRITICAL
  end.

(** A record passes the root logger when its level is at least the
    configured one. *)
Definition is_enabled_for (c : basic_config) (l : level) : bool :=
  config_level c <=? levelno l.

(** ** Version query of an interpreter *)

(** [s.split(sep)] for a one-character separator: the pieces between
    the occurrences of [sep], at least one piece. *)
Fixpoint str_split (sep : ascii) (s : string) : list string :=
  match s with
  | EmptyString => [EmptyString]
  | String c s' =>
      if Ascii.eqb c sep then EmptyString :: str_split sep s'
      else match str_split sep s' with
           | piece :: pieces => String c piece :: pieces
           | [] => [String c EmptyString]
           end
  end.

(** The conversion of the output of the version query:
    [tuple(int(x) for x in text_version.split(".")[:3])], where [None]
    stands for the [ValueError] that makes [_python_version] return
    [None]. *)
Definition version_of_text (out : string) : option (list Z) :=
  let text_version := Py.strip out in
  mapM Py.int (take 3%nat (str_split "." text_version)).

Definition VERSION_QUERY : string :=
  "import sys; v=sys.version_info; print(f'{v.major}.{v.minor}.{v.micro}')".

Definition is_FileNotFoundError (e : exn) : bool :=
  match e with
  | OSError what => String.eqb what "FileNotFoundError"
  | CalledProcessError _ _ => false
  end.

Definition _python_version (h : host) (path : string) : M (option (list Z)) :=
  completed ←
    try_except
      (completed ← subprocess_run h [path; "-c"; VERSION_QUERY] true true None;
       mret (Some completed))
      (λ e, is_SubprocessError e || is_FileNotFoundError e)
      (λ _, mret None);
  match completed with
  | None => mret None
  | Some completed => mret (version_of_text (stdout completed))
  end.

(** ** Entries and texts of the settings file *)

(** The entry the body of the loop of [load_env_file] assigns for a
    line, if it assigns one. *)
Definition line_entry (raw_line : string) : option (string * string) :=
  let line := Py.strip raw_line in
  if negb (Py.nonempty line) || Py.startswith "#" line then None
  else if negb (Py.str_in "=" line) then None
  else match Py.split_once "=" line with
       | Some (key, value) => Some (Py.strip key, Py.strip value)
       | None => None
       end.

(** The text whose lines are [lines], each ended by [eol]. *)
Definition text_of_lines (eol : string) (lines : list string) : string :=
  foldr (λ l rest, l +:+ eol +:+ rest) EmptyString lines.

Definition CRLF : string := String Py.CR (String Py.LF EmptyString).

(** An entry that [write_env_file] writes as one line that
    [load_env_file] reads as an entry for the same key: the key is
    trimmed, on one line, without ["="] and not the start of a comment,
    and the value is on one line. *)
Definition writable (k v : string) : Prop :=
  Py.strip k = k ∧ Py.str_in "=" k = false ∧ Py.startswith "#" k = false
  ∧ single_line k = true ∧ single_line v = true.
(** ** Commands of the container life cycle *)

(** [m] spawns only commands that satisfy [P]. *)
Definition spawns {A} (P : event → Prop) (m : M A) : Prop :=
  ∀ s r s', m s = (r, s') → ∃ evs, trace s' = trace s ++ evs ∧ Forall P evs.

(** The command line of the image build of [setup_container]. *)
Definition build_args (runtime container_name playbook_path : string) : list string :=
  [runtime; "build"; "--file"; "containerfile"; "--tag"; container_name; playbook_path].

(** An image build, a container stop or a container start is the one
    [setup_container] and the cleanup of [run] issue for this engine,
    volume option, container name and host port. *)
Definition life_cycle_ok (playbook_path runtime volume_opt container_name : string)
    (host_port : Z) (e : event) : Prop :=
  (is_build e = true →
   argv (ev_cmd e) = build_args runtime container_name playbook_path)
  ∧ (is_stop e = true → argv (ev_cmd e) = stop_args runtime container_name)
  ∧ (is_start e = true →
     argv (ev_cmd e)
     = start_args runtime volume_opt playbook_path container_name host_port
         DEFAULT_SSH_PORT DEFAULT_CONTAINER_IMAGE).

(** ** The environment of the commands *)

(** [m] leaves the process environment as it is. *)
Definition env_stable {A} (m : M A) : Prop :=
  ∀ s r s', m s = (r, s') → environ s' = environ s.

(** The variables [run] adds to the environment of the playbook. *)
Definition dispatch_extra_env (playbook_path : string) : gmap string string :=
  dict_of [("ANSIBLE_PRIVATE_KEY_FILE",
            playbook_path </> DEFAULT_SSH_DIR </> DEFAULT_KEY_BASENAME);
           ("ANSIBLE_HOST_KEY_CHECKING", "False");
           ("ANSIBLE_VAULT_PASSWORD_FILE",
            playbook_path </> DEFAULT_VAULT_PASSWORD_FILE)].

(** A dispatch of the playbook runs in the environment [env] updated
    with the variables [run] adds. *)
Definition dispatch_env_ok (playbook_path : string) (env : gmap string string)
    (e : event) : Prop :=
  is_dispatch e = true →
  cmd_env (ev_cmd e) = Some (dict_update env (dispatch_extra_env playbook_path)).

(** Started with the process environment [env], [m] leaves it as it is
    and spawns only commands that satisfy [P]. *)
Definition keeps {A} (env : gmap string string) (P : event → Prop) (m : M A) : Prop :=
  ∀ s r s', environ s = env → m s = (r, s') →
    environ s' = env ∧ ∃ evs, trace s' = trace s ++ evs ∧ Forall P evs.
(** ** More example data *)

(** A host without the interpreter asked for. *)
Definition missing_interpreter_host : host :=
  Host example_which (λ _ _, NotStarted "FileNotFoundError") [].


(** A host where the removal of a package exits with status 1. *)
Definition failing_uninstall_host : host :=
  Host example_which
    (λ s c, match argv c with
            | [_; _; _; "uninstall"; _; _] => Exited 1 "" (fs s)
            | _ => Exited 0 "" (fs s)
            end) [].

(** The project of the unit test on roles: a roles directory with a
    requirements file only, and the role next to the project. *)
Definition sibling_role_state : state :=
  State {[ "/w/ans_dev_sandbox_playbook/roles" := Dir 493;
           "/w/ans_dev_sandbox_playbook/roles/requirements.yml" := File "---";
           "/w/ans_dev_sandbox_role" := Dir 493 ]} ∅ [] [] false.

(** A settings file whose port is not a number. *)
Definition bad_port_state : state :=
  State {[ "/p/.env" := File ("CONTAINER_HOST_PORT=ssh" +:+ NL) ]} ∅ [] [] false.

(** A command line that names the container [box] and the port 2200. *)
Definition box_args : Args.t :=
  Args.Make "/p" "/p/.env" None (Some "box") (Some "2200") false None.

(** A settings file that names another vault password file and a
    variable of its own, and a process environment with a home
    directory. *)
Definition vault_override_state : state :=
  State {[ "/p/.env" := File ("ANSIBLE_VAULT_PASSWORD_FILE=/old" +:+ NL
                              +:+ "MY_SETTING=kept" +:+ NL) ]}
    {[ "HOME" := "/root" ]} [] [] false.

(** A command line that asks for a port no host has. *)
Definition high_port_args : Args.t :=
  Args.Make "/p" "/p/.env" None None (Some "99999") false None.

(** * Properties *)

Local Close Scope Z_scope.

(** ** Strings *)

Section strings.
Import Py.

Lemma str_app_nil b : EmptyString +:+ b = b.
Proof. reflexivity. Qed.

Lemma str_app_cons c a b : String c a +:+ b = String c (a +:+ b).
Proof. reflexivity. Qed.

Lemma str_app_assoc a b c : (a +:+ b) +:+ c = a +:+ (b +:+ c).
Proof.
  induction a as [|x a IH]; [done|]. rewrite !str_app_cons. by rewrite IH.
Qed.

Lemma all_chars_app P a b :
  all_chars P (a +:+ b) = all_chars P a && all_chars P b.
Proof.
  induction a as [|c a IH]; simpl; [done|].
  by rewrite IH, andb_assoc.
Qed.

Lemma all_chars_lstrip P s : all_chars P s = true → all_chars P (lstrip s) = true.
Proof.
  induction s as [|c s IH]; simpl; [done|].
  intros [Hc Hs]%andb_true_iff.
  destruct (isspace c); [auto|]. simpl. by rewrite Hc, Hs.
Qed.

Lemma all_chars_rstrip P s : all_chars P s = true → all_chars P (rstrip s) = true.
Proof.
  induction s as [|c s IH]; simpl; [done|].
  intros [Hc Hs]%andb_true_iff. specialize (IH Hs).
  destruct (rstrip s) as [|d r].
  - destruct (isspace c); simpl; [done|]. by rewrite Hc.
  - simpl in *. by rewrite Hc, IH.
Qed.

Lemma all_chars_strip P s : all_chars P s = true → all_chars P (strip s) = true.
Proof. intros. by apply all_chars_rstrip, all_chars_lstrip. Qed.

Lemma length_lstrip s : String.length (lstrip s) ≤ String.length s.
Proof.
  induction s as [|c s IH]; simpl; [done|].
  destruct (isspace c); simpl; lia.
Qed.

Lemma length_rstrip s : String.length (rstrip s) ≤ String.length s.
Proof.
  induction s as [|c s IH]; simpl; [done|].
  destruct (rstrip s); [destruct (isspace c)|]; simpl in *; lia.
Qed.

Lemma lstrip_fixed s :
  String.length (lstrip s) = String.length s → lstrip s = s.
Proof.
  destruct s as [|c s]; simpl; [done|].
  destruct (isspace c); [|done].
  pose proof (length_lstrip s). lia.
Qed.

Lemma strip_fixed s : strip s = s → lstrip s = s ∧ rstrip s = s.
Proof.
  unfold strip. intros H.
  assert (lstrip s = s) as Hl.
  { apply lstrip_fixed. pose proof (length_lstrip s).
    pose proof (length_rstrip (lstrip s)). rewrite H in *. lia. }
  split; [done|]. by rewrite Hl in H.
Qed.

Lemma lstrip_head s c r : lstrip s = String c r → isspace c = false.
Proof.
  induction s as [|d s IH]; simpl; [done|].
  destruct (isspace d) eqn:Hd; [done|]. by intros [= <- _].
Qed.

Lemma rstrip_cons_nonspace c s :
  isspace c = false → ∃ r, rstrip (String c s) = String c r.
Proof. intros Hc. simpl. rewrite Hc. destruct (rstrip s); eauto. Qed.

Lemma rstrip_idemp s : rstrip (rstrip s) = rstrip s.
Proof.
  induction s as [|c s IH]; simpl; [done|].
  destruct (rstrip s) as [|d r] eqn:E.
  - destruct (isspace c) eqn:Hc; simpl; [done|]. by rewrite Hc.
  - change (rstrip (String c (String d r))) with
      (match rstrip (String d r) with
       | EmptyString => if isspace c then EmptyString else String c EmptyString
       | x => String c x
       end).
    by rewrite IH.
Qed.

(** A stripped string is empty or starts with a character that is not
    white space. *)
Lemma strip_head s c r : strip s = String c r → isspace c = false.
Proof.
  unfold strip. destruct (lstrip s) as [|d y] eqn:E; [done|].
  pose proof (lstrip_head _ _ _ E) as Hd.
  destruct (rstrip_cons_nonspace d y Hd) as [r' ->]. by intros [= <- _].
Qed.

Lemma lstrip_nonspace c s : isspace c = false → lstrip (String c s) = String c s.
Proof. intros H. simpl. by rewrite H. Qed.

Lemma strip_idemp s : strip (strip s) = strip s.
Proof.
  destruct (strip s) as [|c r] eqn:E; [done|].
  pose proof (strip_head _ _ _ E) as Hc.
  unfold strip. rewrite (lstrip_nonspace _ _ Hc).
  rewrite <- E. unfold strip. apply rstrip_idemp.
Qed.

Lemma rstrip_app a b :
  rstrip b ≠ EmptyString → rstrip (a +:+ b) = a +:+ rstrip b.
Proof.
  intros Hb. induction a as [|c a IH]; simpl; [done|].
  rewrite IH. change (String c a +:+ rstrip b) with (String c (a +:+ rstrip b)).
  destruct (a +:+ rstrip b) eqn:E; [|done].
  destruct a; simpl in E; [done|discriminate].
Qed.

Lemma startswith_char a c s :
  startswith (String a EmptyString) (String c s) = bool_decide (a = c).
Proof.
  unfold startswith. cbn [String.prefix].
  destruct (ascii_dec a c); case_bool_decide; try done. by destruct s.
Qed.

(** [sub in s] for a one-character [sub]. *)
Lemma str_in_char a s :
  str_in (String a EmptyString) s = negb (all_chars (λ c, negb (Ascii.eqb c a)) s).
Proof.
  induction s as [|c s IH]; simpl; [done|].
  rewrite IH. destruct (ascii_dec a c) as [->|Hne].
  - rewrite Ascii.eqb_refl. by destruct s.
  - apply Ascii.eqb_neq in Hne. rewrite Ascii.eqb_sym in Hne. by rewrite Hne.
Qed.

Lemma split_once_Some sep s a b :
  split_once sep s = Some (a, b) →
  s = a +:+ String sep b ∧ all_chars (λ c, negb (Ascii.eqb c sep)) a = true.
Proof.
  revert a b. induction s as [|c s IH]; simpl; [done|]. intros a b.
  destruct (Ascii.eqb c sep) eqn:Hc.
  - apply Ascii.eqb_eq in Hc as ->. by intros [= <- <-].
  - destruct (split_once sep s) as [[a' b']|]; [|done].
    intros [= <- <-]. destruct (IH _ _ eq_refl) as [-> Ha].
    simpl. by rewrite Hc, Ha.
Qed.

Lemma split_once_app sep a b :
  all_chars (λ c, negb (Ascii.eqb c sep)) a = true →
  split_once sep (a +:+ String sep b) = Some (a, b).
Proof.
  induction a as [|c a IH]; simpl.
  - by rewrite Ascii.eqb_refl.
  - intros [Hc Ha]%andb_true_iff. apply negb_true_iff in Hc.
    by rewrite Hc, (IH Ha).
Qed.

(** The guard ["=" in line] makes the unpacking of [line.split("=", 1)]
    succeed. *)
Lemma split_once_in sep s :
  str_in (String sep EmptyString) s = true → is_Some (split_once sep s).
Proof.
  rewrite str_in_char. induction s as [|c s IH]; simpl; [done|].
  destruct (Ascii.eqb c sep); simpl; [eauto|].
  intros H. destruct (IH H) as [[a b] ->]. eauto.
Qed.

Lemma splitlines_LF s :
  splitlines (String LF s) = EmptyString :: splitlines s.
Proof. by destruct s. Qed.

Lemma splitlines_line l rest :
  single_line l = true →
  splitlines (l +:+ String LF rest) = l :: splitlines rest.
Proof.
  induction l as [|c l IH]; intros Hl.
  - apply splitlines_LF.
  - simpl in Hl. apply andb_true_iff in Hl as [Hc Hl].
    rewrite str_app_cons. simpl.
    apply negb_true_iff in Hc. rewrite Hc. by rewrite (IH Hl).
Qed.

Lemma universal_newlines_line l rest :
  single_line l = true →
  universal_newlines (l +:+ String LF rest) = l +:+ String LF (universal_newlines rest).
Proof.
  induction l as [|c l IH]; intros Hl; [by rewrite !str_app_nil|].
  simpl in Hl. apply andb_true_iff in Hl as [Hc Hl].
  assert (Ascii.eqb c CR = false) as Hcr.
  { destruct (Ascii.eqb c CR) eqn:E; [|done].
    apply Ascii.eqb_eq in E as ->. done. }
  rewrite !str_app_cons. simpl. rewrite Hcr. by rewrite (IH Hl).
Qed.

Lemma splitlines_single_line s : Forall (λ l, single_line l = true) (splitlines s).
Proof.
  assert (∀ n s, String.length s < n →
            Forall (λ l, single_line l = true) (splitlines s)) as H;
    [|apply (H (S (String.length s))); lia].
  clear s. induction n as [|n IH]; [lia|]. intros [|c s] Hn; simpl in *; [done|].
  destruct (is_linebreak c) eqn:Hc.
  - destruct s as [|c' s]; [by repeat constructor|].
    destruct (_ && _); constructor; try done; apply IH; simpl in *; lia.
  - specialize (IH s ltac:(lia)).
    destruct (splitlines s) as [|l ls]; constructor; unfold single_line in *; simpl.
    + by rewrite Hc.
    + done.
    + inversion IH; subst. by rewrite Hc.
    + by inversion IH.
Qed.

End strings.

(** ** The settings file: [load_env_file] and [write_env_file] *)

Section env.
Import Py.

Lemma load_env_line_no_separator data raw :
  str_in "=" raw = false → load_env_line data raw = data.
Proof.
  intros H. unfold load_env_line.
  assert (str_in "=" (strip raw) = false) as ->.
  { rewrite str_in_char in *. apply negb_false_iff in H. apply negb_false_iff.
    by apply all_chars_strip. }
  simpl. by destruct (_ || _).
Qed.

(** What one line does to the map. *)
Lemma load_env_line_cases data raw :
  load_env_line data raw = data
  ∨ ∃ key value,
      str_in "=" raw = true
      ∧ nonempty (strip raw) = true
      ∧ startswith "#" (strip raw) = false
      ∧ split_once "=" (strip raw) = Some (key, value)
      ∧ load_env_line data raw = <[strip key := strip value]> data.
Proof.
  destruct (str_in "=" raw) eqn:Hraw;
    [|left; by apply load_env_line_no_separator].
  unfold load_env_line.
  destruct (nonempty (strip raw)) eqn:Hne; simpl; [|by left].
  destruct (startswith "#" (strip raw)) eqn:Hc; simpl; [by left|].
  destruct (str_in "=" (strip raw)); simpl; [|by left].
  destruct (split_once "=" (strip raw)) as [[key value]|] eqn:Hs; [|by left].
  right. by exists key, value.
Qed.

Lemma foldl_load_env_filter data lines :
  foldl load_env_line data lines
  = foldl load_env_line data (filter (λ l, str_in "=" l = true) lines).
Proof.
  revert data. induction lines as [|l lines IH]; intros data; [done|].
  rewrite filter_cons. simpl. destruct (decide (str_in "=" l = true)) as [H|H].
  - simpl. apply IH.
  - apply not_true_is_false in H.
    rewrite (load_env_line_no_separator _ _ H). apply IH.
Qed.

Lemma foldl_load_env_dom data lines k :
  k ∈ dom (foldl load_env_line data lines) →
  k ∈ dom data
  ∨ ∃ line key value,
      line ∈ lines ∧ str_in "=" line = true
      ∧ split_once "=" (strip line) = Some (key, value) ∧ k = strip key.
Proof.
  revert data. induction lines as [|l lines IH]; intros data; simpl; [by left|].
  intros [Hk|(line & key & value & Hin & H)]%IH.
  - destruct (load_env_line_cases data l)
      as [Heq|(key & value & H1 & _ & _ & H2 & Heq)]; rewrite Heq in Hk; [by left|].
    apply elem_of_dom in Hk. destruct (decide (strip key = k)) as [<-|Hne].
    + right. exists l, key, value. split; [left|]; done.
    + rewrite lookup_insert_ne in Hk by done. left. by apply elem_of_dom.
  - right. exists line, key, value. split; [by right|done].
Qed.

Lemma storable_key_of_line raw key value :
  single_line raw = true →
  nonempty (strip raw) = true →
  startswith "#" (strip raw) = false →
  split_once "=" (strip raw) = Some (key, value) →
  storable (strip key) (strip value).
Proof.
  intros Hraw Hne Hc Hs.
  apply split_once_Some in Hs as [Hline Hkey].
  assert (single_line (strip raw) = true) as Hsl by by apply all_chars_strip.
  rewrite Hline in Hsl. unfold single_line in Hsl.
  rewrite all_chars_app in Hsl. apply andb_true_iff in Hsl as [Hk Hv].
  simpl in Hv.
  repeat split.
  - apply strip_idemp.
  - apply strip_idemp.
  - rewrite str_in_char. apply negb_false_iff. by apply all_chars_strip.
  - destruct key as [|c key]; [done|].
    rewrite str_app_cons in Hline.
    pose proof (strip_head _ _ _ Hline) as Hsp.
    unfold strip at 1. rewrite (lstrip_nonspace _ _ Hsp).
    destruct (rstrip_cons_nonspace c key Hsp) as [r ->].
    rewrite Hline in Hc. by rewrite startswith_char in *.
  - by apply all_chars_strip.
  - by apply all_chars_strip.
Qed.

Lemma foldl_load_env_storable data lines :
  Forall (λ l, single_line l = true) lines →
  all_storable data → all_storable (foldl load_env_line data lines).
Proof.
  intros Hl. revert data. induction Hl as [|l lines Hl _ IH]; intros data Hd; [done|].
  simpl. apply IH.
  destruct (load_env_line_cases data l) as [->|(key & value & _ & H1 & H2 & H3 & ->)];
    [done|].
  apply map_Forall_insert_2; [|done]. by eapply storable_key_of_line.
Qed.

Lemma load_env_file_storable fs path : all_storable (load_env_file fs path).
Proof.
  unfold load_env_file.
  destruct (fs !! path) as [[text| |]|]; try apply map_Forall_empty.
  apply foldl_load_env_storable; [apply splitlines_single_line|apply map_Forall_empty].
Qed.

(** A stored entry is read back as it was written. *)
Lemma load_env_line_KV data k v :
  storable k v → load_env_line data (KV (k, v)) = <[k := v]> data.
Proof.
  intros (Hk & Hv & Heq & Hc & Hlk & Hlv).
  apply strip_fixed in Hk as [Hk1 Hk2]. apply strip_fixed in Hv as [Hv1 Hv2].
  unfold KV. simpl.
  assert (rstrip (String "=" v) = String "=" v) as Hr.
  { simpl. rewrite Hv2. by destruct v. }
  assert (strip (k +:+ "=" +:+ v) = k +:+ "=" +:+ v) as Hline.
  { unfold strip.
    assert (lstrip (k +:+ "=" +:+ v) = k +:+ "=" +:+ v) as ->.
    { destruct k as [|c k]; [done|]. rewrite str_app_cons.
      apply lstrip_nonspace. eapply lstrip_head. exact Hk1. }
    change ("=" +:+ v) with (String "=" v).
    rewrite rstrip_app; rewrite Hr; done. }
  unfold load_env_line. rewrite Hline.
  assert (nonempty (k +:+ "=" +:+ v) = true) as -> by by destruct k.
  assert (startswith "#" (k +:+ "=" +:+ v) = false) as ->.
  { destruct k as [|c k]; [done|]. rewrite str_app_cons.
    by rewrite startswith_char in *. }
  rewrite str_in_char in Heq. apply negb_false_iff in Heq.
  assert (str_in "=" (k +:+ "=" +:+ v) = true) as ->.
  { rewrite str_in_char. apply negb_true_iff. rewrite all_chars_app.
    apply andb_false_iff. right. done. }
  simpl. change ("=" +:+ v) with (String "=" v).
  rewrite (split_once_app _ _ _ Heq).
  unfold strip. by rewrite Hk1, Hk2, Hv1, Hv2.
Qed.

Lemma foldl_load_env_KV data items :
  Forall (λ kv, storable kv.1 kv.2) items →
  foldl load_env_line data (KV <$> items)
  = foldl (λ m kv, <[kv.1 := kv.2]> m) data items.
Proof.
  intros H. revert data. induction H as [|[k v] items Hkv _ IH]; intros data; [done|].
  simpl. rewrite <- IH. f_equal. by apply load_env_line_KV.
Qed.

Lemma foldl_insert_list_to_map (data : gmap string string) items :
  foldl (λ m kv, <[kv.1 := kv.2]> m) data items
  = list_to_map (reverse items) ∪ data.
Proof.
  revert data. induction items as [|[k v] items IH]; intros data; simpl.
  - by rewrite (left_id_L ∅ (∪)).
  - rewrite IH, reverse_cons, list_to_map_app. simpl.
    rewrite insert_empty, <- (assoc_L (∪)). f_equal.
    by rewrite <- insert_union_singleton_l.
Qed.

(** The text of the file, read back line by line. *)
Lemma splitlines_env_text lines :
  Forall (λ l, single_line l = true) lines →
  splitlines (universal_newlines (join (String LF EmptyString) lines +:+ String LF EmptyString))
  = match lines with [] => [EmptyString] | _ => lines end.
Proof.
  induction 1 as [|l lines Hl Hls IH]; [done|].
  destruct lines as [|l' lines].
  - unfold join. simpl.
    by rewrite (universal_newlines_line _ _ Hl), (splitlines_line _ _ Hl).
  - change (join (String LF EmptyString) (l :: l' :: lines))
      with (l +:+ String LF EmptyString +:+ join (String LF EmptyString) (l' :: lines)).
    rewrite !str_app_assoc, str_app_cons, str_app_nil.
    rewrite (universal_newlines_line _ _ Hl), (splitlines_line _ _ Hl).
    by rewrite IH.
Qed.

Lemma single_line_KV k v : storable k v → single_line (KV (k, v)) = true.
Proof.
  intros (_ & _ & _ & _ & Hk & Hv). unfold KV, single_line in *. simpl.
  rewrite all_chars_app, Hk. simpl. done.
Qed.

Lemma item_le_total : Total item_le.
Proof.
  intros [a1 a2] [b1 b2]. unfold item_le. simpl.
  rewrite (String.compare_antisym b1 a1).
  destruct (String.compare a1 b1) eqn:E; simpl; auto.
  apply String.leb_total.
Qed.

Lemma Sorted_weaken {A} (R1 R2 : relation A) l :
  (∀ a b, R1 a b → R2 a b) → Sorted R1 l → Sorted R2 l.
Proof.
  intros HR. induction 1 as [|x l _ IH Hd]; constructor; [done|].
  destruct Hd; constructor; auto.
Qed.

Lemma sorted_items_perm m : sorted_items m ≡ₚ map_to_list m.
Proof. apply merge_sort_Permutation. Qed.

Lemma sorted_items_ascending m : keys_ascending (sorted_items m).
Proof.
  unfold keys_ascending, sorted_items.
  eapply Sorted_weaken;
    [|apply (@Sorted_merge_sort _ item_le _ item_le_total)].
  intros [a1 a2] [b1 b2]. unfold item_le, String.leb. simpl.
  by destruct (String.compare a1 b1).
Qed.

Lemma load_write_storable fs path m :
  all_storable m → load_env_file (write_env_file fs path m) path = m.
Proof.
  intros Hm. unfold load_env_file, write_env_file. rewrite lookup_insert_eq.
  unfold env_text.
  assert (Forall (λ kv, storable kv.1 kv.2) (sorted_items m)) as Hst.
  { rewrite sorted_items_perm. apply Forall_forall. intros [k v] Hin.
    apply elem_of_map_to_list in Hin. by apply Hm in Hin. }
  rewrite splitlines_env_text.
  2:{ apply Forall_fmap. eapply Forall_impl; [exact Hst|].
      intros [k v] H. by apply single_line_KV. }
  assert (foldl load_env_line ∅ (KV <$> sorted_items m) = m) as Hload.
  { rewrite (foldl_load_env_KV _ _ Hst), foldl_insert_list_to_map.
    rewrite (right_id_L ∅ (∪)).
    rewrite <- (list_to_map_to_list m) at 2.
    apply list_to_map_proper.
    - rewrite reverse_Permutation, sorted_items_perm.
      apply NoDup_fst_map_to_list.
    - by rewrite reverse_Permutation, sorted_items_perm. }
  destruct (KV <$> sorted_items m) as [|l ls] eqn:E; [|done].
  simpl in *. done.
Qed.

End env.

(** ** Claims about the settings file *)

Lemma load_env_file_lines fs path :
  load_env_file fs path = foldl load_env_line ∅ (env_lines fs path).
Proof. unfold load_env_file, env_lines. by destruct (fs !! path) as [[| |]|]. Qed.

(** C10: a line without ["="] leaves the map as it is, whatever else it
    holds, so the file loads as if those lines were not there, and every
    key of the loaded map is the trimmed text before the first ["="] of
    some line that has one.  [load_env_file] is a total function: no
    input makes it fail. *)
Theorem load_env_file_skips_lines_without_separator (fs : files) (path : string) :
  (∀ data raw, Py.str_in "=" raw = false → load_env_line data raw = data)
  ∧ load_env_file fs path
    = foldl load_env_line ∅
        (filter (λ l, Py.str_in "=" l = true) (env_lines fs path))
  ∧ ∀ k, k ∈ dom (load_env_file fs path) →
      ∃ line key value,
        line ∈ env_lines fs path
        ∧ Py.str_in "=" line = true
        ∧ Py.split_once "=" (Py.strip line) = Some (key, value)
        ∧ k = Py.strip key.
Proof.
  split; [apply load_env_line_no_separator|]. split.
  - rewrite load_env_file_lines. apply foldl_load_env_filter.
  - intros k. rewrite load_env_file_lines.
    intros [Hk|H]%foldl_load_env_dom; [|done].
    by rewrite dom_empty_L in Hk.
Qed.

(** C10 on a file with a comment, a line without separator and two
    entries. *)
Lemma load_env_file_skips_lines_without_separator_witness :
  load_env_file example_env_fs ".env"
  = foldl load_env_line ∅
      (filter (λ l, Py.str_in "=" l = true) (env_lines example_env_fs ".env"))
  ∧ load_env_file example_env_fs ".env" = {[ "A" := "1"; "B" := "2=3" ]}.
Proof.
  split.
  - apply (load_env_file_skips_lines_without_separator example_env_fs ".env").
  - by vm_compute.
Defined.

(** C6 as stated fails: a value with a leading blank is written as it
    is and read back trimmed. *)
Lemma load_after_write_not_identity :
  load_env_file (write_env_file ∅ ".env" {[ "KEY" := " padded" ]}) ".env"
  ≠ {[ "KEY" := " padded" ]}.
Proof.
  intros H. apply (f_equal (λ m : gmap string string, m !! "KEY")) in H.
  vm_compute in H. discriminate.
Qed.

(** C6, amended: loading what was written returns the map whenever its
    entries are storable (trimmed, on one line, the key without ["="]
    and not starting with ["#"]); every map that [load_env_file] returns
    is of that kind, so load, write, load returns what the first load
    did; and for every map the file written is the [KEY=VALUE] lines of
    its items, keys ascending, joined by newlines and ended by one. *)
Theorem load_after_write (fs : files) (path : string) (m : gmap string string) :
  (all_storable m → load_env_file (write_env_file fs path m) path = m)
  ∧ all_storable (load_env_file fs path)
  ∧ load_env_file (write_env_file fs path (load_env_file fs path)) path
    = load_env_file fs path
  ∧ ∃ items,
      items ≡ₚ map_to_list m
      ∧ keys_ascending items
      ∧ write_env_file fs path m !! path
        = Some (File (Py.join (String Py.LF EmptyString) (KV <$> items)
                      +:+ String Py.LF EmptyString)).
Proof.
  split; [apply load_write_storable|]. split; [apply load_env_file_storable|].
  split; [apply load_write_storable, load_env_file_storable|].
  exists (sorted_items m). split; [apply sorted_items_perm|].
  split; [apply sorted_items_ascending|].
  unfold write_env_file. by rewrite lookup_insert_eq.
Qed.

(** C6 on the two entries of the example file. *)
Lemma load_after_write_witness :
  all_storable {[ "A" := "1"; "B" := "2=3" ]}
  ∧ load_env_file (write_env_file ∅ ".env" {[ "A" := "1"; "B" := "2=3" ]}) ".env"
    = {[ "A" := "1"; "B" := "2=3" ]}.
Proof.
  assert (all_storable {[ "A" := "1"; "B" := "2=3" ]}) as H.
  { intros k v Hkv. apply lookup_insert_Some in Hkv as [[<- <-]|[_ Hkv]].
    - by vm_compute.
    - apply lookup_singleton_Some in Hkv as [<- <-]. by vm_compute. }
  split; [exact H|].
  exact (proj1 (load_after_write ∅ ".env" {[ "A" := "1"; "B" := "2=3" ]}) H).
Defined.

(** ** Interpreter selection *)

Section select.

Lemma version_ltb_lt a b : version_ltb a b = true ↔ version_lt a b.
Proof.
  destruct a as [[a1 a2] a3], b as [[b1 b2] b3].
  unfold version_ltb, version_lt, version_compare. simpl.
  destruct (Z.compare_spec a1 b1), (Z.compare_spec a2 b2), (Z.compare_spec a3 b3);
    split; intros; try done; try lia.
Qed.

Lemma version_ltb_ge a b : version_ltb a b = false ↔ ¬ version_lt a b.
Proof. rewrite <- version_ltb_lt. by destruct (version_ltb a b). Qed.

Lemma version_lt_irrefl a : ¬ version_lt a a.
Proof. unfold version_lt. lia. Qed.

Lemma version_lt_le_trans a b c :
  ¬ version_lt b a → version_lt b c → version_lt a c.
Proof. unfold version_lt. lia. Qed.

Lemma version_lt_asym a b : version_lt a b → ¬ version_lt b a.
Proof. unfold version_lt. lia. Qed.

Lemma in_range_guards v :
  in_range v = true
  ↔ version_ltb v MIN_VERSION = false ∧ version_geb v MAX_VERSION = false.
Proof.
  unfold in_range. rewrite andb_true_iff, !negb_true_iff. done.
Qed.

Lemma select_step_out st p v :
  in_range v = false → select_step st (p, v) = st.
Proof.
  unfold in_range, select_step. intros H.
  destruct (version_ltb v MIN_VERSION); [done|].
  destruct (version_geb v MAX_VERSION); [done|]. done.
Qed.

Lemma select_step_in st p v :
  in_range v = true →
  select_step st (p, v)
  = match st.1 with
    | None => (Some v, Some p)
    | Some best => if version_gtb v best then (Some v, Some p) else st
    end.
Proof.
  intros [H1 H2]%in_range_guards. unfold select_step. by rewrite H1, H2.
Qed.

Lemma selected_step l st x : selected l st → selected (l ++ [x]) (select_step st x).
Proof.
  destruct x as [p v]. destruct (in_range v) eqn:Hr.
  2:{ rewrite (select_step_out _ _ _ Hr).
      destruct st as [[best|] [bp|]]; simpl; try done.
      - intros (i & Hi & Hin & Hmax & Hfirst). exists i.
        split; [by apply lookup_app_l_Some|]. split; [done|]. split.
        + intros j p' v' [Hj|[_ Hj]]%lookup_app_Some; [by eapply Hmax|].
          apply list_lookup_singleton_Some in Hj as [_ [= <- <-]]. congruence.
        + intros j p' v' Hlt Hj. apply lookup_lt_Some in Hi.
          rewrite lookup_app_l in Hj by lia. by eapply Hfirst.
      - intros Hnone p' v' [Hin|Hin]%elem_of_app; [by eapply Hnone|].
        apply list_elem_of_singleton in Hin as [= -> ->]. done. }
  rewrite (select_step_in _ _ _ Hr).
  destruct st as [[best|] [bp|]]; simpl; try done.
  - intros (i & Hi & Hin & Hmax & Hfirst).
    unfold version_gtb. destruct (version_ltb best v) eqn:Hlt.
    + apply version_ltb_lt in Hlt. exists (length l).
      split; [by rewrite lookup_app_r, Nat.sub_diag by lia|]. split; [done|]. split.
      * intros j p' v' [Hj|[_ Hj]]%lookup_app_Some.
        -- intros Hv. intros Hin'. apply (Hmax _ _ _ Hj Hv).
           unfold version_lt in *. lia.
        -- apply list_lookup_singleton_Some in Hj as [_ [= <- <-]].
           intros _. apply version_lt_irrefl.
      * intros j p' v' Hj Hl Hv. rewrite lookup_app_l in Hl by lia.
        eapply version_lt_le_trans; [|exact Hlt]. by eapply Hmax.
    + apply version_ltb_ge in Hlt. exists i.
      split; [by apply lookup_app_l_Some|]. split; [done|]. split.
      * intros j p' v' [Hj|[_ Hj]]%lookup_app_Some; [by eapply Hmax|].
        by apply list_lookup_singleton_Some in Hj as [_ [= <- <-]].
      * intros j p' v' Hj Hl. apply lookup_lt_Some in Hi.
        rewrite lookup_app_l in Hl by lia. by eapply Hfirst.
  - intros Hnone. exists (length l).
    split; [by rewrite lookup_app_r, Nat.sub_diag by lia|]. split; [done|]. split.
    + intros j p' v' [Hj|[_ Hj]]%lookup_app_Some.
      * intros Hv. apply list_elem_of_lookup_2 in Hj. apply Hnone in Hj. congruence.
      * apply list_lookup_singleton_Some in Hj as [_ [= <- <-]].
        intros _. apply version_lt_irrefl.
    + intros j p' v' Hj Hl Hv. rewrite lookup_app_l in Hl by lia.
      apply list_elem_of_lookup_2 in Hl. apply Hnone in Hl. congruence.
Qed.

Lemma selected_foldl l : selected l (foldl select_step (None, None) l).
Proof.
  induction l as [|x l IH] using rev_ind.
  - simpl. intros p v Hin. by apply elem_of_nil in Hin.
  - rewrite foldl_app. simpl. by apply selected_step.
Qed.

End select.

(** C3: [select_python] returns [None] exactly when no candidate is in
    the range; otherwise the path it returns is listed with a version
    that is in the range (at least 3.10.0, below 3.15.0), that no
    candidate in the range exceeds, and that every candidate in the
    range listed before it is strictly below: among equal maximal
    versions the first listed wins. *)
Theorem select_python_maximum (candidates : list (string * version)) :
  (select_python candidates = None
   ↔ ∀ p v, (p, v) ∈ candidates → in_range v = false)
  ∧ (∀ v, in_range v = true ↔ ¬ version_lt v (3, 10, 0)%Z ∧ version_lt v (3, 15, 0)%Z)
  ∧ ∀ path, select_python candidates = Some path →
      ∃ i v,
        candidates !! i = Some (path, v)
        ∧ in_range v = true
        ∧ (∀ j p' v', candidates !! j = Some (p', v') → in_range v' = true →
             ¬ version_lt v v')
        ∧ (∀ j p' v', j < i → candidates !! j = Some (p', v') →
             in_range v' = true → version_lt v' v).
Proof.
  pose proof (selected_foldl candidates) as H. unfold select_python.
  destruct (foldl select_step (None, None) candidates) as [[best|] [bp|]];
    simpl in *; try done.
  - split; [|split].
    + split; [done|]. intros Hnone. destruct H as (i & Hi & Hin & _).
      apply list_elem_of_lookup_2 in Hi. apply Hnone in Hi. congruence.
    + intros v. rewrite in_range_guards. unfold version_geb.
      rewrite negb_false_iff, version_ltb_ge, version_ltb_lt. done.
    + intros path [= <-]. destruct H as (i & H). by exists i, best.
  - split; [|split].
    + done.
    + intros v. rewrite in_range_guards. unfold version_geb.
      rewrite negb_false_iff, version_ltb_ge, version_ltb_lt. done.
    + done.
Qed.

(** C3 on the candidates of the unit test, with a second 3.14.2 added:
    the first of the two is selected. *)
Lemma select_python_maximum_witness :
  select_python example_candidates = Some "/usr/bin/python3.14"
  ∧ ∃ i v,
      example_candidates !! i = Some ("/usr/bin/python3.14", v)
      ∧ in_range v = true
      ∧ (∀ j p' v', example_candidates !! j = Some (p', v') → in_range v' = true →
           ¬ version_lt v v')
      ∧ (∀ j p' v', j < i → example_candidates !! j = Some (p', v') →
           in_range v' = true → version_lt v' v).
Proof.
  split; [reflexivity|].
  apply (proj2 (proj2 (select_python_maximum example_candidates))).
  reflexivity.
Defined.

(** ** Container runtime detection *)

Section detect.
Context (which : string → option string).

Lemma first_found_Some ordered r :
  first_found which ordered = Some r
  ↔ ∃ i, ordered !! i = Some r ∧ Py.truthy (which r) = true
      ∧ ∀ j c, j < i → ordered !! j = Some c → Py.truthy (which c) = false.
Proof.
  induction ordered as [|c ordered IH]; simpl.
  - split; [done|]. by intros (i & Hi & _).
  - destruct (Py.truthy (which c)) eqn:Hc.
    + split.
      * intros [= <-]. exists 0. split; [done|]. split; [done|]. intros; lia.
      * intros ([|i] & Hi & Hr & Hfirst); [by injection Hi as ->|].
        specialize (Hfirst 0 c ltac:(lia) eq_refl). congruence.
    + rewrite IH. split.
      * intros (i & Hi & Hr & Hfirst). exists (S i). split; [done|]. split; [done|].
        intros [|j] c' Hj Hl; [by injection Hl as <-|].
        simpl in Hl. eapply Hfirst; [|done]. lia.
      * intros ([|i] & Hi & Hr & Hfirst); [injection Hi as ->; congruence|].
        exists i. split; [done|]. split; [done|].
        intros j c' Hj Hl. apply (Hfirst (S j) c'); [lia|done].
Qed.

Lemma first_found_None ordered :
  first_found which ordered = None
  ↔ ∀ c, c ∈ ordered → Py.truthy (which c) = false.
Proof.
  induction ordered as [|c ordered IH]; simpl.
  - split; [|done]. intros _ c Hc. by apply elem_of_nil in Hc.
  - destruct (Py.truthy (which c)) eqn:Hc.
    + split; [done|]. intros H. specialize (H c ltac:(left)). congruence.
    + rewrite IH. split.
      * intros H c' [->|Hin]%elem_of_cons; auto.
      * intros H c' Hin. apply H. by right.
Qed.

Lemma search_order_nonempty preferred :
  Forall (λ r, Py.nonempty r = true) (search_order preferred).
Proof.
  unfold search_order. apply Forall_forall. intros r [Hr|Hr]%elem_of_app.
  - destruct preferred as [[|c p]|]; simpl in Hr;
      try (by apply elem_of_nil in Hr).
    by apply list_elem_of_singleton in Hr as ->.
  - apply list_elem_of_filter in Hr as [_ Hr].
    apply elem_of_cons in Hr as [->|Hr]; [done|].
    by apply list_elem_of_singleton in Hr as ->.
Qed.

(** With [shutil.which("")] finding nothing, probing in the order built
    by the code finds what probing in the documented order finds. *)
Lemma first_found_documented preferred :
  Py.truthy (which "") = false →
  first_found which (search_order preferred)
  = first_found which (documented_order preferred).
Proof.
  intros Hempty. unfold search_order, documented_order.
  destruct preferred as [[|c p]|]; simpl; [by rewrite Hempty| |done].
  destruct (Py.truthy (which (String c p))); [done|].
  f_equal. apply list_filter_iff. intros r.
  by rewrite list_elem_of_singleton.
Qed.

End detect.

(** C9: the engine returned is the first of the documented order
    (preferred when given, then podman, then docker, the preferred one
    not repeated) that [shutil.which] finds, with [":ro,z"] for podman
    and [":ro"] for any other; nothing is returned exactly when none of
    them is found; and without a preference, both engines present, the
    result is podman with [":ro,z"].  [shutil.which] finds no program
    of the empty name. *)
Theorem detect_container_runtime_first_found
    (which : string → option string) (preferred : option string) :
  Py.truthy (which "") = false →
  match detect_container_runtime which preferred with
  | (Some runtime, Some volume_opt) =>
      ∃ i,
        documented_order preferred !! i = Some runtime
        ∧ Py.truthy (which runtime) = true
        ∧ (∀ j c, j < i → documented_order preferred !! j = Some c →
             Py.truthy (which c) = false)
        ∧ volume_opt = (if decide (runtime = "podman") then ":ro,z" else ":ro")
  | (None, None) =>
      ∀ c, c ∈ documented_order preferred → Py.truthy (which c) = false
  | _ => False
  end
  ∧ (preferred = None → Py.truthy (which "podman") = true →
     Py.truthy (which "docker") = true →
     detect_container_runtime which preferred = (Some "podman", Some ":ro,z")).
Proof.
  intros Hempty. split.
  - unfold detect_container_runtime.
    destruct (first_found which (search_order preferred)) as [r|] eqn:E.
    + assert (Py.nonempty r = true) as ->.
      { apply first_found_Some in E as (i & Hi & _).
        pose proof (search_order_nonempty preferred) as H.
        rewrite Forall_forall in H. apply H. by eapply list_elem_of_lookup_2. }
      rewrite first_found_documented in E by done.
      apply first_found_Some in E as (i & Hi & Hr & Hfirst).
      exists i. repeat split; try done.
      unfold volume_option. destruct (String.eqb_spec r "podman"); by case_decide.
    + rewrite first_found_documented in E by done.
      by apply first_found_None.
  - intros -> Hp _. unfold detect_container_runtime. simpl. by rewrite Hp.
Qed.

(** C9 on a host with both engines and no preference. *)
Lemma detect_container_runtime_first_found_witness :
  detect_container_runtime example_which None = (Some "podman", Some ":ro,z").
Proof.
  apply (detect_container_runtime_first_found example_which None);
    reflexivity.
Defined.

(** ** The workflow monad *)

Section monad.

Lemma bind_Ok {A B} (m : M A) (f : A → M B) s a s' :
  m s = (Ok a, s') → (m ≫= f) s = f a s'.
Proof. intros H. unfold mbind, M_bind. by rewrite H. Qed.

Lemma bind_Raise {A B} (m : M A) (f : A → M B) s e s' :
  m s = (Raise e, s') → (m ≫= f) s = (Raise e, s').
Proof. intros H. unfold mbind, M_bind. by rewrite H. Qed.

Lemma bind_inv_Ok {A B} (m : M A) (f : A → M B) s b s' :
  (m ≫= f) s = (Ok b, s') → ∃ a s1, m s = (Ok a, s1) ∧ f a s1 = (Ok b, s').
Proof.
  unfold mbind, M_bind. destruct (m s) as [[a|e] s1]; [eauto|done].
Qed.

Lemma set_fs_id s : set_fs (λ f, f) s = s.
Proof. by destruct s. Qed.

Lemma set_fs_ext f g s : f (fs s) = g (fs s) → set_fs f s = set_fs g s.
Proof. unfold set_fs. by intros ->. Qed.

(** [if p.exists(): p.unlink()], followed by [k]. *)
Lemma unlink_if_exists {A} p (k : M A) s :
  (ex ← gets (λ s, path_exists s p); when ex (unlink p);; k) s
  = match fs s !! p with
    | Some (Dir _) => (Raise (OSError "IsADirectoryError"), s)
    | _ => k (set_fs (delete p) s)
    end.
Proof.
  unfold mbind, M_bind, gets, when, path_exists, unlink.
  destruct (fs s !! p) as [n|] eqn:E.
  - rewrite bool_decide_eq_true_2 by eauto. rewrite E. by destruct n.
  - rewrite bool_decide_eq_false_2 by by intros [? ?].
    unfold mret, M_ret. f_equal. rewrite <- (set_fs_id s) at 1.
    apply set_fs_ext. by rewrite delete_id.
Qed.

(** [mkdir] and [chmod] of the key directory, followed by [k]. *)
Lemma mkdir_chmod {A} p mode (k : M A) s :
  (mkdir p;; chmod p mode;; k) s
  = match fs s !! p with
    | Some (File _) => (Raise (OSError "FileExistsError"), s)
    | Some (Link _) => k s
    | _ => k (set_fs <[p := Dir mode]> s)
    end.
Proof.
  unfold mbind, M_bind, mkdir, chmod.
  destruct (fs s !! p) as [[| |]|] eqn:E; simpl; try done.
  - by rewrite E.
  - by rewrite E.
  - rewrite lookup_insert_eq. f_equal. unfold set_fs. simpl.
    by rewrite insert_insert_eq.
Qed.

End monad.

(** ** Credential provisioning *)

Section ssh.
Context (base_dir key_basename : string) (runner : runner_t).

Lemma setup_ssh_keys_unfold s :
  setup_ssh_keys base_dir key_basename runner s
  = match fs s !! ssh_dir_path base_dir with
    | Some (File _) => (Raise (OSError "FileExistsError"), s)
    | _ =>
        let s1 := match fs s !! ssh_dir_path base_dir with
                  | Some (Link _) => s
                  | _ => set_fs <[ssh_dir_path base_dir := Dir 448]> s
                  end in
        match fs s1 !! key_path_of base_dir key_basename with
        | Some (Dir _) => (Raise (OSError "IsADirectoryError"), s1)
        | _ =>
            let s2 := set_fs (delete (key_path_of base_dir key_basename)) s1 in
            match fs s2 !! pub_path_of base_dir key_basename with
            | Some (Dir _) => (Raise (OSError "IsADirectoryError"), s2)
            | _ => after_keygen base_dir key_basename runner
                     (keygen_state base_dir key_basename s)
            end
        end
    end.
Proof.
  unfold setup_ssh_keys, after_keygen, keygen_state, key_path_of, pub_path_of,
    auth_keys_of, ssh_dir_path.
  set (ssh := base_dir </> DEFAULT_SSH_DIR).
  set (key := ssh </> key_basename). set (pub := ssh </> (key_basename +:+ ".pub")).
  rewrite mkdir_chmod.
  destruct (fs s !! ssh) as [[| |]|] eqn:E; try done.
  all: rewrite unlink_if_exists; cbv zeta.
  all: destruct (fs _ !! key) as [[| |]|] eqn:Ek; try done.
  all: rewrite unlink_if_exists.
  all: destruct (fs _ !! pub) as [[| |]|] eqn:Ep; try done.
  all: unfold set_fs; simpl; rewrite E; done.
Qed.

End ssh.

Section ssh_fresh.
Context (base_dir key_basename : string) (runner : runner_t).

Lemma str_length_app a b :
  String.length (a +:+ b) = String.length a + String.length b.
Proof. induction a as [|c a IH]; [done|]. rewrite str_app_cons. simpl. by rewrite IH. Qed.

Lemma pjoin_relative_ne p q : Py.startswith "/" q = false → p </> q ≠ p.
Proof.
  intros Hq H. unfold pjoin in H. rewrite Hq in H.
  apply (f_equal String.length) in H. rewrite !str_length_app in H.
  simpl in H. lia.
Qed.







Lemma delete_put_file p o f : delete p (put_file p o f) = delete p f.
Proof. destruct o; simpl; [apply delete_insert_eq|apply delete_delete_eq]. Qed.


Lemma setup_ssh_keys_Ok s r s' :
  setup_ssh_keys base_dir key_basename runner s = (Ok r, s') →
  ∃ c s1 b,
    runner (keygen_args (key_path_of base_dir key_basename)) false None
      (keygen_state base_dir key_basename s) = (Ok c, s1)
    ∧ fs s1 !! pub_path_of base_dir key_basename = Some (File b)
    ∧ s' = set_fs <[auth_keys_of base_dir := File b]> s1
    ∧ r = (key_path_of base_dir key_basename, auth_keys_of base_dir).
Proof.
  rewrite setup_ssh_keys_unfold. cbv zeta.
  repeat case_match; try done.
  all: unfold after_keygen; intros (c & s1 & Hrun & Hk1)%bind_inv_Ok.
  all: apply bind_inv_Ok in Hk1 as (b & s2 & Hread & Hk2).
  all: apply bind_inv_Ok in Hk2 as ([] & s3 & Hwrite & [= <- <-]).
  all: unfold read_bytes in Hread; unfold write_bytes in Hwrite.
  all: repeat case_match; simplify_eq.
  all: by exists c, s2, b.
Qed.



End ssh_fresh.



(** ** Commands spawned by a computation *)

Section tame.
Context (P : event → Prop).

Lemma tame_silent {A} (m : M A) :
  (∀ s r s', m s = (r, s') →
     container_started s' = container_started s ∧ trace s' = trace s) →
  tame P m.
Proof.
  intros H s r s' Hm. destruct (H _ _ _ Hm) as [H1 H2]. split; [done|].
  exists []. by rewrite H2, app_nil_r.
Qed.

Lemma tame_ret {A} (a : A) : tame P (mret a).
Proof. apply tame_silent. by intros s r s' [= <- <-]. Qed.

Lemma tame_raise {A} e : tame P (raise (A := A) e).
Proof. apply tame_silent. by intros s r s' [= <- <-]. Qed.

Lemma tame_gets {A} (f : state → A) : tame P (gets f).
Proof. apply tame_silent. by intros s r s' [= <- <-]. Qed.

Lemma tame_bind {A B} (m : M A) (f : A → M B) :
  tame P m → (∀ a, tame P (f a)) → tame P (m ≫= f).
Proof.
  intros Hm Hf s r s'. unfold mbind, M_bind.
  destruct (m s) as [[a|e] s1] eqn:E.
  - intros Hfa. destruct (Hm _ _ _ E) as (Hc1 & evs1 & Ht1 & HP1).
    destruct (Hf _ _ _ _ Hfa) as (Hc2 & evs2 & Ht2 & HP2).
    split; [congruence|]. exists (evs1 ++ evs2).
    rewrite Ht2, Ht1, (assoc_L (++)). split; [done|]. by apply Forall_app.
  - intros [= <- <-]. by apply (Hm _ _ _ E).
Qed.

Lemma tame_when b (m : M unit) : tame P m → tame P (when b m).
Proof. destruct b; [done|]. intros _. apply tame_ret. Qed.

Lemma tame_try_except {A} (body : M A) catches handler :
  tame P body → (∀ e, tame P (handler e)) → tame P (try_except body catches handler).
Proof.
  intros Hb Hh s r s'. unfold try_except.
  destruct (body s) as [[a|e] s1] eqn:E.
  - intros [= <- <-]. by apply (Hb _ _ _ E).
  - destruct (catches e).
    + intros Hhe. destruct (Hb _ _ _ E) as (Hc1 & evs1 & Ht1 & HP1).
      destruct (Hh _ _ _ _ Hhe) as (Hc2 & evs2 & Ht2 & HP2).
      split; [congruence|]. exists (evs1 ++ evs2).
      rewrite Ht2, Ht1, (assoc_L (++)). split; [done|]. by apply Forall_app.
    + intros [= <- <-]. by apply (Hb _ _ _ E).
Qed.

Lemma tame_logging l f a : tame P (logging l f a).
Proof. apply tame_silent. by intros s r s' [= <- <-]. Qed.

Lemma tame_subprocess_run h args check capture env :
  (∀ st, P (Event (Command args capture env) st)) →
  tame P (subprocess_run h args check capture env).
Proof.
  intros HP s r s'. unfold subprocess_run.
  destruct (spawn h s _) as [rc out fs'|what].
  - destruct (check && negb (rc =? 0)%Z); intros [= <- <-]; (split; [done|]);
      eexists [_]; (split; [done|]); by constructor.
  - intros [= <- <-]. split; [done|]. eexists [_]. split; [done|]. by constructor.
Qed.

Lemma tame_mkdir p : tame P (mkdir p).
Proof.
  apply tame_silent. unfold mkdir. intros s r s' H.
  by repeat case_match; simplify_eq.
Qed.

Lemma tame_chmod p m : tame P (chmod p m).
Proof.
  apply tame_silent. unfold chmod. intros s r s' H.
  by repeat case_match; simplify_eq.
Qed.

Lemma tame_unlink p : tame P (unlink p).
Proof.
  apply tame_silent. unfold unlink. intros s r s' H.
  by repeat case_match; simplify_eq.
Qed.

Lemma tame_read_bytes p : tame P (read_bytes p).
Proof.
  apply tame_silent. unfold read_bytes. intros s r s' H.
  by repeat case_match; simplify_eq.
Qed.

Lemma tame_write_bytes p b : tame P (write_bytes p b).
Proof.
  apply tame_silent. unfold write_bytes. intros s r s' H.
  by repeat case_match; simplify_eq.
Qed.

Lemma tame_symlink_to p t : tame P (symlink_to p t).
Proof.
  apply tame_silent. unfold symlink_to. intros s r s' H.
  by repeat case_match; simplify_eq.
Qed.

Lemma tame_read_env_file p : tame P (read_env_file p).
Proof.
  apply tame_silent. unfold read_env_file. intros s r s' H.
  by repeat case_match; simplify_eq.
Qed.

Lemma tame_set_environ f : tame P (modify (set_environ f)).
Proof. apply tame_silent. by intros s r s' [= <- <-]. Qed.

End tame.

Lemma tame_impl {A} (P Q : event → Prop) (m : M A) :
  (∀ e, P e → Q e) → tame P m → tame Q m.
Proof.
  intros HPQ Hm s r s' H. destruct (Hm _ _ _ H) as (Hc & evs & Ht & HP).
  split; [done|]. exists evs. split; [done|]. by eapply Forall_impl.
Qed.

(** Solves [tame] goals by following the structure of the program. *)
Ltac tame_step :=
  first
    [ apply tame_ret | apply tame_raise | apply tame_gets | apply tame_logging
    | apply tame_mkdir | apply tame_chmod | apply tame_unlink
    | apply tame_read_bytes | apply tame_write_bytes | apply tame_symlink_to
    | apply tame_read_env_file | apply tame_set_environ
    | apply tame_when
    | apply tame_bind; [|intros ?]
    | apply tame_try_except; [|intros ?]
    | match goal with |- tame _ (if ?b then _ else _) => destruct b end
    | match goal with |- tame _ (match ?x with _ => _ end) => destruct x end
    | match goal with |- tame _ (let '(_, _) := ?x in _) => destruct x end ].

Ltac tame_auto := repeat tame_step.

(** ** The commands of the run workflow *)

Section run_events.
Context (h : host).

Lemma bind_inv {A B} (m : M A) (f : A → M B) s r s' :
  (m ≫= f) s = (r, s') →
  (∃ a s1, m s = (Ok a, s1) ∧ f a s1 = (r, s'))
  ∨ (∃ e, m s = (Raise e, s') ∧ r = Raise e).
Proof.
  unfold mbind, M_bind. destruct (m s) as [[a|e] s1]; [eauto|].
  intros [= <- <-]. eauto.
Qed.

Lemma bind_ret_inv {A B} (m : M A) (b : B) s r s' :
  (m ≫= λ _, mret b) s = (r, s') →
  match r with
  | Ok x => x = b ∧ ∃ a, m s = (Ok a, s')
  | Raise e => m s = (Raise e, s')
  end.
Proof.
  intros [(a & s1 & H1 & [= <- <-])|(e & H1 & ->)]%bind_inv; eauto.
Qed.

Lemma bind_inv_Ok_modify {B} (f : state → state) (k : M B) s r s' :
  (modify f;; k) s = (r, s') → k (f s) = (r, s').
Proof. done. Qed.

Lemma tame_run_subprocess P args capture env :
  covers P args → tame P (_run_subprocess h args capture env).
Proof. intros H. apply tame_subprocess_run. intros st. apply H. Qed.

(** One spawned command: one event, whose status is 0 exactly when the
    call returns. *)
Lemma run_subprocess_event args capture env s r s' :
  _run_subprocess h args capture env s = (r, s') →
  container_started s' = container_started s
  ∧ log s' = log s
  ∧ ∃ st, trace s' = trace s ++ [Event (Command args capture env) st]
      ∧ match r with
        | Ok _ => st = Some 0%Z
        | Raise e => st ≠ Some 0%Z
                     ∧ (is_SubprocessError e = true → ∃ rc, st = Some rc)
        end.
Proof.
  unfold _run_subprocess, subprocess_run.
  destruct (spawn h s _) as [rc out fs'|what]; simpl.
  - destruct (Z.eqb_spec rc 0) as [->|Hrc]; simpl; intros [= <- <-];
      (split; [done|]); (split; [done|]); eexists; (split; [done|]); [done|].
    split; [congruence|eauto].
  - intros [= <- <-]. split; [done|]. split; [done|]. eexists. split; [done|].
    split; [done|]. done.
Qed.

Lemma setup_ssh_keys_tame P base_dir key_basename :
  covers P (keygen_args (base_dir </> DEFAULT_SSH_DIR </> key_basename)) →
  tame P (setup_ssh_keys base_dir key_basename (_run_subprocess h)).
Proof.
  intros H. unfold setup_ssh_keys. tame_auto. by apply tame_run_subprocess.
Qed.

Lemma setup_vault_tame P playbook_path vault_file :
  tame P (setup_vault playbook_path vault_file).
Proof. unfold setup_vault. tame_auto. Qed.

Lemma setup_roles_tame P playbook_path :
  (∀ requirements roles_dir,
     covers P ["ansible-galaxy"; "install"; "--role-file"; requirements;
               "--roles-path"; roles_dir]) →
  tame P (setup_roles playbook_path (_run_subprocess h)).
Proof.
  intros H. unfold setup_roles. tame_auto. by apply tame_run_subprocess.
Qed.

Lemma setup_collections_tame P :
  covers P ["ansible-galaxy"; "collection"; "list"] →
  (∀ name, covers P ["ansible-galaxy"; "collection"; "install"; name]) →
  tame P (setup_collections (_run_subprocess h)).
Proof.
  intros H1 H2. unfold setup_collections, _has_collection.
  tame_auto; by apply tame_run_subprocess.
Qed.

Lemma run_playbook_tame P inventory playbook extra_env limit :
  covers P (playbook_args inventory playbook limit) →
  tame P (run_playbook inventory playbook extra_env limit (_run_subprocess h)).
Proof.
  intros H. unfold run_playbook. tame_auto. by apply tame_run_subprocess.
Qed.

Lemma warn_override_tame P key cli persisted :
  tame P (warn_override key cli persisted).
Proof. unfold warn_override. tame_auto. Qed.

Lemma resolve_settings_tame P args : tame P (resolve_settings args).
Proof.
  unfold resolve_settings, set_env_vars.
  repeat first [apply warn_override_tame | tame_step].
Qed.

Lemma detect_ansible_tame P : tame P (detect_ansible h).
Proof. unfold detect_ansible. tame_auto. Qed.

Lemma detect_container_runtime_io_tame P preferred :
  tame P (detect_container_runtime_io h preferred).
Proof. unfold detect_container_runtime_io. tame_auto. Qed.

End run_events.

(** ** The container life cycle in [run] *)

Section life_cycle.
Context (h : host) (args : Args.t).
Context (runtime volume_opt container_name : string) (host_port : Z).
Let playbook_path := Args.playbook_path args.
Let start_line :=
  start_args runtime volume_opt playbook_path container_name host_port
    DEFAULT_SSH_PORT DEFAULT_CONTAINER_IMAGE.

(** The stop of a stale container before the start: one event, and
    only a program that cannot be started makes the step fail. *)
Lemma stale_stop_event s r s' :
  try_except
    (_run_subprocess h (stop_args runtime container_name) false None;; mret ())
    is_SubprocessError (λ _, mret ()) s = (r, s') →
  container_started s' = container_started s
  ∧ ∃ st, argv (ev_cmd st) = stop_args runtime container_name
      ∧ trace s' = trace s ++ [st].
Proof.
  unfold try_except.
  match goal with |- context [match ?x with _ => _ end] =>
    destruct x as [[[]|e] s1] eqn:E end;
    apply bind_ret_inv in E; [destruct E as (_ & c & E)|];
    apply run_subprocess_event in E as (Hc & _ & st & Ht & Hst).
  - intros [= <- <-]. split; [done|]. eexists. split; [|exact Ht]. done.
  - destruct (is_SubprocessError e); intros [= <- <-];
      (split; [done|]); eexists; (split; [|exact Ht]); done.
Qed.

Lemma setup_container_events s r s' :
  setup_container runtime volume_opt playbook_path container_name host_port
    DEFAULT_SSH_PORT DEFAULT_CONTAINER_IMAGE (_run_subprocess h) s = (r, s') →
  container_started s' = container_started s
  ∧ ∃ evs, trace s' = trace s ++ evs
      ∧ setup_attempt runtime container_name start_line evs
          (match r with Ok _ => true | Raise _ => false end).
Proof.
  unfold setup_container.
  intros [(c1 & s1 & H1 & H)|(e & H1 & ->)]%bind_inv;
    apply run_subprocess_event in H1 as (Hc1 & _ & st1 & Ht1 & Hst1);
    match type of Ht1 with _ = _ ++ [?b] => set (eb := b) in * end;
    assert (is_build eb = true ∧ is_stop eb = false ∧ started_ok eb = false
            ∧ is_dispatch eb = false) as (Hb1 & Hb2 & Hb3 & Hb4)
      by (unfold eb; repeat split).
  2:{ split; [done|]. eexists. split; [done|]. exists eb.
      repeat split; try done. by left. }
  apply bind_inv in H as [(c2 & s2 & H2 & H)|(e & H2 & ->)];
    apply stale_stop_event in H2 as (Hc2 & st2 & Hst2 & Ht2).
  2:{ split; [congruence|]. eexists.
      split; [by rewrite Ht2, Ht1, <- (assoc_L (++))|]. exists eb.
      repeat split; try done. right. exists st2. split; [done|]. by left. }
  apply bind_ret_inv in H.
  assert (∃ st3 : option Z,
            container_started s' = container_started s2
            ∧ trace s' = trace s2 ++ [Event (Command start_line false None) st3]
            ∧ match r with Ok _ => true | Raise _ => false end
              = bool_decide (st3 = Some 0%Z)) as (st3 & Hc3 & Ht3 & Hst3).
  { destruct r as [[]|e].
    - destruct H as (_ & c3 & H3).
      apply run_subprocess_event in H3 as (Hc3 & _ & st3 & Ht3 & ->).
      by exists (Some 0%Z).
    - apply run_subprocess_event in H as (Hc3 & _ & st3 & Ht3 & Hne & _).
      exists st3. by rewrite bool_decide_eq_false_2. }
  split; [congruence|]. eexists.
  split; [by rewrite Ht3, Ht2, Ht1, <- !(assoc_L (++))|]. exists eb.
  repeat split; try done. right. exists st2. split; [done|]. right.
  eexists. split; [|split; [done|]]; done.
Qed.

End life_cycle.

Section run_shape.
Context (h : host) (args : Args.t).

Lemma try_finally_inv {A} (body : M A) final s r s' :
  try_finally body final s = (r, s') →
  ∃ rb s1 rf, body s = (rb, s1) ∧ final s1 = (rf, s')
    ∧ r = match rf with Ok _ => rb | Raise e => Raise e end.
Proof.
  unfold try_finally. destruct (body s) as [rb s1].
  destruct (final s1) as [[[]|e] s2] eqn:E; intros [= <- <-]; by eexists _, _, _.
Qed.

Lemma benign_galaxy_install requirements roles_dir :
  covers (benign args)
    ["ansible-galaxy"; "install"; "--role-file"; requirements; "--roles-path"; roles_dir].
Proof. intros capture env st. by split. Qed.

Lemma benign_galaxy_list :
  covers (benign args) ["ansible-galaxy"; "collection"; "list"].
Proof. intros capture env st. by split. Qed.

Lemma benign_galaxy_collection name :
  covers (benign args) ["ansible-galaxy"; "collection"; "install"; name].
Proof. intros capture env st. by split. Qed.

Lemma benign_keygen key_path : covers (benign args) (keygen_args key_path).
Proof. intros capture env st. by split. Qed.

Lemma benign_dispatch :
  covers (benign args)
    (playbook_args (Args.playbook_path args </> INVENTORY_FILE)
       (Args.playbook_path args </> PLAYBOOK_FILE) (dispatch_limit args)).
Proof. intros capture env st. by split. Qed.




(** The steps of the [try] block after the container set-up. *)
Lemma after_container_tame key_path vault_path :
  tame (benign args)
    (setup_roles (Args.playbook_path args) (_run_subprocess h);;
     setup_collections (_run_subprocess h);;
     run_playbook (Args.playbook_path args </> INVENTORY_FILE)
       (Args.playbook_path args </> PLAYBOOK_FILE)
       (dict_of [("ANSIBLE_PRIVATE_KEY_FILE", key_path);
                 ("ANSIBLE_HOST_KEY_CHECKING", "False");
                 ("ANSIBLE_VAULT_PASSWORD_FILE", vault_path)])
       (dispatch_limit args) (_run_subprocess h)).
Proof.
  apply tame_bind; [apply setup_roles_tame, benign_galaxy_install|intros _].
  apply tame_bind;
    [apply setup_collections_tame;
       [apply benign_galaxy_list|apply benign_galaxy_collection]|intros _].
  apply run_playbook_tame, benign_dispatch.
Qed.

Lemma run_body_events runtime volume_opt container_name key_path vault_path
    host_port s r s' :
  container_started s = false →
  run_body h args runtime volume_opt container_name key_path vault_path host_port s
  = (r, s') →
  ∃ evs, trace s' = trace s ++ evs
    ∧ ((Args.skip_container args = true ∧ container_started s' = false
        ∧ Forall (benign args) evs)
       ∨ (Args.skip_container args = false
          ∧ ∃ att rest,
              evs = att ++ rest
              ∧ setup_attempt runtime container_name
                  (start_args runtime volume_opt (Args.playbook_path args)
                     container_name host_port DEFAULT_SSH_PORT
                     DEFAULT_CONTAINER_IMAGE)
                  att (container_started s')
              ∧ Forall (benign args) rest
              ∧ (container_started s' = false →
                 rest = [] ∧ ∃ e, r = Raise e))).
Proof.
  intros Hflag. unfold run_body. destruct (Args.skip_container args); simpl.
  - intros [(a & s1 & [= <- <-] & H)|(e & [=] & _)]%bind_inv.
    destruct (after_container_tame _ _ _ _ _ H) as (Hc & evs & Ht & Hev).
    exists evs. split; [done|]. left. split; [done|]. split; [congruence|done].
  - intros [(a & s1 & H1 & H)|(e & H1 & ->)]%bind_inv.
    + apply bind_inv_Ok in H1 as ([] & s0 & H1 & Hm).
      unfold modify in Hm. injection Hm as <- <-.
      apply setup_container_events in H1 as (Hc1 & att & Ht1 & Hatt).
      destruct (after_container_tame _ _ _ _ _ H) as (Hc & rest & Ht & Hrest).
      simpl in Hc, Ht. exists (att ++ rest).
      split; [by rewrite Ht, Ht1, (assoc_L (++))|]. right. split; [done|].
      exists att, rest. rewrite Hc. split; [done|]. split; [done|]. split; [done|].
      done.
    + apply bind_inv in H1 as [(a & s0 & H1 & [=])|(e' & H1 & [= ->])].
      apply setup_container_events in H1 as (Hc1 & att & Ht1 & Hatt).
      exists att. split; [done|]. right. split; [done|].
      exists att, []. rewrite Hc1, Hflag, app_nil_r. eauto 10.
Qed.

Lemma cleanup_events runtime container_name s r s' :
  cleanup h runtime container_name s = (r, s') →
  if container_started s
  then ∃ stop, argv (ev_cmd stop) = stop_args runtime container_name
         ∧ trace s' = trace s ++ [stop]
  else trace s' = trace s ∧ r = Ok ().
Proof.
  unfold cleanup, mbind, M_bind, gets, when, try_except.
  destruct (container_started s); [|by intros [= <- <-]].
  match goal with |- context [_run_subprocess h ?a ?b ?c s] =>
    destruct (_run_subprocess h a b c s) as [rc s1] eqn:E end.
  apply run_subprocess_event in E as (_ & _ & st & Ht & _).
  destruct rc as [c|e]; simpl.
  - intros [= <- <-]. eexists. split; [|exact Ht]. done.
  - destruct (is_SubprocessError e); intros [= <- <-];
      eexists; (split; [|exact Ht]); done.
Qed.

End run_shape.

Section run_trace.
Context (h : host) (args : Args.t).

Lemma tame_nil {A} (m : M A) s r s' :
  tame (λ _, False) m → m s = (r, s') → trace s' = trace s.
Proof.
  intros Hm H. destruct (Hm _ _ _ H) as (_ & evs & Ht & Hev).
  destruct evs as [|e evs]; [by rewrite app_nil_r in Ht|].
  by apply Forall_cons in Hev as [[] _].
Qed.

Lemma run_trace_benign evs : Forall (benign args) evs → run_trace args evs.
Proof. intros H. exists evs, []. rewrite app_nil_r. eauto. Qed.

(** What [run_resolved] leaves in the trace, the status it can return,
    and that container-skip mode spawns nothing of the container life
    cycle. *)
Lemma run_resolved_trace runtime_preference container_name host_port_str s r s' :
  run_resolved h args runtime_preference container_name host_port_str s = (r, s') →
  ∃ evs, trace s' = trace s ++ evs
    ∧ run_trace args evs
    ∧ (∀ c, r = Ok c →
         c = RETURN_SUCCESS
         ∨ ((c = RETURN_MISSING_DEPENDENCY ∨ c = RETURN_NO_RUNTIME) ∧ evs = []))
    ∧ (Args.skip_container args = true → Forall (benign args) evs).
Proof.
  unfold run_resolved.
  assert (∀ s0 : state, trace s0 = trace s →
            ∀ c, c = RETURN_MISSING_DEPENDENCY ∨ c = RETURN_NO_RUNTIME →
            ∃ evs, trace s0 = trace s ++ evs ∧ run_trace args evs
              ∧ (∀ c', @Ok Z c = Ok c' →
                   c' = RETURN_SUCCESS
                   ∨ ((c' = RETURN_MISSING_DEPENDENCY ∨ c' = RETURN_NO_RUNTIME)
                      ∧ evs = []))
              ∧ (Args.skip_container args = true → Forall (benign args) evs))
    as Hearly.
  { intros s0 Ht c Hc. exists []. rewrite app_nil_r.
    split; [done|]. split; [by apply run_trace_benign|].
    split; [intros c' [= <-]; by right|done]. }
  assert (∀ (s0 : state) (e : exn) K, trace s0 = trace s ++ K →
            Forall (benign args) K →
            ∃ evs, trace s0 = trace s ++ evs ∧ run_trace args evs
              ∧ (∀ c', @Raise Z e = Ok c' →
                   c' = RETURN_SUCCESS
                   ∨ ((c' = RETURN_MISSING_DEPENDENCY ∨ c' = RETURN_NO_RUNTIME)
                      ∧ evs = []))
              ∧ (Args.skip_container args = true → Forall (benign args) evs))
    as Hraise.
  { intros s0 e K Ht HK. exists K. split; [done|].
    split; [by apply run_trace_benign|]. split; [done|done]. }
  destruct (Py.int host_port_str) as [host_port|].
  2:{ intros [= <- <-]. apply Hearly; [done|by right]. }
  intros [([runtime volume_opt] & s1 & H1 & H)|(e & H1 & ->)]%bind_inv.
  2:{ apply (Hraise _ _ []); [|done]. rewrite app_nil_r.
      eapply tame_nil; [apply detect_container_runtime_io_tame|done]. }
  apply (tame_nil _ _ _ _ (detect_container_runtime_io_tame _ _ _)) in H1 as Ht1.
  destruct runtime as [runtime|].
  2:{ injection H as <- <-. apply Hearly; [done|by right]. }
  apply bind_inv in H as [(ansible & s2 & H2 & H)|(e & H2 & ->)].
  2:{ apply (Hraise _ _ []); [|done]. rewrite app_nil_r, <- Ht1.
      eapply tame_nil; [apply detect_ansible_tame|done]. }
  apply (tame_nil _ _ _ _ (detect_ansible_tame _ _)) in H2 as Ht2.
  destruct ansible; simpl in H.
  2:{ injection H as <- <-. apply Hearly; [congruence|by left]. }
  apply bind_inv in H as [([key_path auth_keys] & s3 & H3 & H)|(e & H3 & ->)];
    destruct (setup_ssh_keys_tame h (benign args) _ _ (benign_keygen _ _) _ _ _ H3)
      as (_ & K & Ht3 & HK).
  2:{ apply (Hraise _ _ K); [congruence|done]. }
  apply bind_inv in H as [(vault_path & s4 & H4 & H)|(e & H4 & ->)].
  2:{ apply (Hraise _ _ K); [|done].
      rewrite (tame_nil _ _ _ _ (setup_vault_tame _ _ _) H4). congruence. }
  apply (tame_nil _ _ _ _ (setup_vault_tame _ _ _)) in H4 as Ht4.
  apply bind_inv_Ok_modify in H.
  assert (∃ rt s5, try_finally
            (run_body h args runtime (Py.or_else volume_opt ":ro") container_name
               key_path vault_path host_port)
            (cleanup h runtime container_name)
            (set_container_started false s4) = (rt, s5)
          ∧ s' = s5
          ∧ r = match rt with Ok _ => Ok RETURN_SUCCESS | Raise e => Raise e end)
    as (rt & s5 & Htry & -> & ->).
  { apply bind_inv in H as [([] & s5 & H5 & [= <- <-])|(e & H5 & ->)];
      by eexists _, _. }
  clear H. apply try_finally_inv in Htry as (rb & s6 & rf & Hbody & Hclean & ->).
  apply run_body_events in Hbody as (B & Htb & Hshape); [|done].
  apply cleanup_events in Hclean.
  simpl in Htb.
  assert (trace s4 = trace s ++ K) as HtK by congruence.
  destruct Hshape as [(Hskip & Hflag & HB)|(Hskip & att & rest & -> & Hatt & Hrest & Hfail)].
  - rewrite Hflag in Hclean. destruct Hclean as [Hts ->].
    exists (K ++ B). split; [by rewrite Hts, Htb, HtK, (assoc_L (++))|].
    assert (Forall (benign args) (K ++ B)) by by apply Forall_app.
    split; [by apply run_trace_benign|]. split; [|done].
    intros c Hc. left. by destruct rb; simplify_eq.
  - destruct (container_started s6) eqn:Hflag.
    + destruct Hclean as (stop & Hstop & Hts).
      exists (K ++ att ++ rest ++ [stop]).
      split; [by rewrite Hts, Htb, HtK, <- !(assoc_L (++))|].
      split; [|split; [|congruence]].
      * exists K, (att ++ rest ++ [stop]). split; [done|]. split; [done|].
        right. split; [done|]. eexists _, _, _, _. right. by eexists _, _, _.
      * intros c Hc. left. destruct rf as [[]|]; destruct rb; by simplify_eq.
    + destruct Hclean as [Hts ->]. destruct (Hfail eq_refl) as (-> & e & ->).
      exists (K ++ att). rewrite app_nil_r in *.
      split; [by rewrite Hts, Htb, HtK, <- !(assoc_L (++))|].
      split; [|split; [done|congruence]].
      exists K, att. split; [done|]. split; [done|].
      right. split; [done|]. eexists _, _, _, _. by left.
Qed.

(** The same for [run]: resolving the settings spawns nothing. *)
Lemma run_has_trace s r s' :
  run h args s = (r, s') →
  ∃ evs, trace s' = trace s ++ evs
    ∧ run_trace args evs
    ∧ (∀ c, r = Ok c →
         c = RETURN_SUCCESS
         ∨ ((c = RETURN_MISSING_DEPENDENCY ∨ c = RETURN_NO_RUNTIME) ∧ evs = []))
    ∧ (Args.skip_container args = true → Forall (benign args) evs).
Proof.
  unfold run.
  intros [([[rp name] port] & s1 & H1 & H)|(e & H1 & ->)]%bind_inv.
  - apply (tame_nil _ _ _ _ (resolve_settings_tame _ _)) in H1 as Ht1.
    rewrite <- Ht1. by eapply run_resolved_trace.
  - apply (tame_nil _ _ _ _ (resolve_settings_tame _ _)) in H1 as Ht1.
    exists []. rewrite app_nil_r. split; [done|].
    split; [by apply run_trace_benign|]. done.
Qed.

End run_trace.

(** ** Cleanup of the container *)

Section cleanup.




Lemma start_line e runtime volume_opt playbook_path container_name host_port
    ssh_port image :
  argv (ev_cmd e)
  = start_args runtime volume_opt playbook_path container_name host_port
      ssh_port image →
  is_stop e = false ∧ is_start e = true.
Proof. intros H. unfold is_stop, is_start. by rewrite H. Qed.

End cleanup.




(** ** The limit of the dispatch *)

Section limit.
Context (h : host) (args : Args.t).

Lemma run_trace_dispatch evs :
  run_trace args evs → Forall (dispatch_ok args) evs.
Proof.
  assert (∀ e rt name, argv (ev_cmd e) = stop_args rt name → dispatch_ok args e)
    as Hstop.
  { intros e rt name He. unfold dispatch_ok, is_dispatch. by rewrite He. }
  assert (∀ e rt vol pb name hp sp img,
            argv (ev_cmd e) = start_args rt vol pb name hp sp img →
            dispatch_ok args e) as Hstart.
  { intros e rt vol pb name hp sp img He. unfold dispatch_ok, is_dispatch.
    by rewrite He. }
  assert (∀ rt name line X ok,
            setup_attempt rt name line X ok →
            (∃ vol pb hp sp img, line = start_args rt vol pb name hp sp img) →
            Forall (dispatch_ok args) X) as Hatt.
  { intros rt name line X ok (b & _ & _ & _ & Hb & HX) (vol & pb & hp & sp & img & ->).
    assert (dispatch_ok args b) by (unfold dispatch_ok; congruence).
    destruct HX as [[-> _]|(st & Hst & [[-> _]|(run & Hrun & -> & _)])];
      repeat constructor; eauto. }
  intros (K & X & -> & HK & HX). apply Forall_app. split.
  { eapply Forall_impl; [exact HK|]. by intros e [_ ?]. }
  destruct HX as [->|(_ & rt & vol & name & hp & HX)]; [done|]. cbv zeta in HX.
  destruct HX as [HX|(att & rest & stop & -> & HX & Hrest & Hstop')].
  - eapply Hatt; [exact HX|]. by eexists _, _, _, _, _.
  - apply Forall_app. split; [eapply Hatt; [exact HX|]; by eexists _, _, _, _, _|].
    apply Forall_app. split.
    + eapply Forall_impl; [exact Hrest|]. by intros e [_ ?].
    + repeat constructor. eauto.
Qed.

End limit.

(** C8 as stated fails for an empty limit: in container-skip mode the
    supplied [""] is replaced by ["localhost"]. *)
Lemma run_skip_container_empty_limit :
  dispatch_limit (Args.Make "/p" "/p/.env" None None None true (Some ""))
  = Some "localhost"
  ∧ argv (ev_cmd (default (Event (Command [] false None) None)
            (last (trace (run example_host
                            (Args.Make "/p" "/p/.env" None None None true (Some ""))
                            example_state).2))))
    = ["ansible-playbook"; "--inventory"; "/p/inventory/main.yml";
       "/p/playbooks/sample_playbook.yml"; "-l"; "localhost"].
Proof. split; by vm_compute. Qed.

(** C8, amended: every playbook dispatch [run] spawns has the command
    line of [run_playbook] for the limit [dispatch_limit]; in
    container-skip mode without a limit, or with an empty one, that limit
    is ["localhost"]; a non-empty limit the caller supplies is passed
    unchanged, as [-l] and the limit at the end of the command line; and
    outside container-skip mode the limit is passed as it came, an
    absent or empty one adding nothing to the command line. *)
Theorem run_dispatch_limit (h : host) (args : Args.t) (s : state) :
  let inventory := Args.playbook_path args </> INVENTORY_FILE in
  let playbook := Args.playbook_path args </> PLAYBOOK_FILE in
  (∀ r s',
     run h args s = (r, s') →
     ∃ evs, trace s' = trace s ++ evs
       ∧ ∀ e, e ∈ evs → is_dispatch e = true →
           argv (ev_cmd e) = playbook_args inventory playbook (dispatch_limit args))
  ∧ (Args.skip_container args = true →
     Args.limit args = None ∨ Args.limit args = Some "" →
     dispatch_limit args = Some "localhost"
     ∧ playbook_args inventory playbook (dispatch_limit args)
       = ["ansible-playbook"; "--inventory"; inventory; playbook; "-l"; "localhost"])
  ∧ (∀ l, Args.limit args = Some l → l ≠ "" →
     dispatch_limit args = Some l
     ∧ playbook_args inventory playbook (dispatch_limit args)
       = ["ansible-playbook"; "--inventory"; inventory; playbook; "-l"; l])
  ∧ (Args.skip_container args = false →
     dispatch_limit args = Args.limit args
     ∧ (Args.limit args = None ∨ Args.limit args = Some "" →
        playbook_args inventory playbook (dispatch_limit args)
        = ["ansible-playbook"; "--inventory"; inventory; playbook])).
Proof.
  cbv zeta. split; [|split; [|split]].
  - intros r s' H. destruct (run_has_trace _ _ _ _ _ H) as (evs & Ht & Hshape & _).
    exists evs. split; [done|]. intros e He.
    apply run_trace_dispatch in Hshape. rewrite Forall_forall in Hshape.
    by apply Hshape.
  - intros Hskip Hl. unfold dispatch_limit. rewrite Hskip.
    by destruct Hl as [-> | ->].
  - intros l Hl Hne. unfold dispatch_limit, playbook_args. rewrite Hl.
    destruct l; [done|]. simpl. by rewrite andb_false_r.
  - intros Hskip. unfold dispatch_limit. rewrite Hskip. simpl.
    split; [done|]. by intros [-> | ->].
Qed.

(** C8 on the arguments of the unit test: container-skip mode and no
    limit. *)
Lemma run_dispatch_limit_witness :
  dispatch_limit example_skip_args = Some "localhost"
  ∧ ∃ e, e ∈ trace (run example_host example_skip_args example_state).2
      ∧ argv (ev_cmd e)
        = ["ansible-playbook"; "--inventory"; "/p/inventory/main.yml";
           "/p/playbooks/sample_playbook.yml"; "-l"; "localhost"].
Proof.
  destruct (run_dispatch_limit example_host example_skip_args example_state)
    as (_ & Hskip & _).
  destruct (Hskip eq_refl (or_introl eq_refl)) as [Hl Hargv].
  split; [done|].
  exists (default (Event (Command [] false None) None)
            (trace (run example_host example_skip_args example_state).2 !! 5)).
  split; [|by vm_compute].
  apply (list_elem_of_lookup_2 _ 5). by vm_compute.
Defined.

(** ** Resolution of the settings *)

Section resolution.



Lemma resolve_settings_unfold args s :
  resolve_settings args s
  = match fs s !! Args.env_file args with
    | Some (Dir _) | Some (Link _) => (Raise (OSError "IsADirectoryError"), s)
    | _ =>
        let settings := load_env_file (fs s) (Args.env_file args) in
        (Ok (resolve (Args.container_runtime args) (settings !! "CONTAINER_RUNTIME")
               DEFAULT_CONTAINER_RUNTIME,
             resolve (Args.container_name args) (settings !! "CONTAINER_NAME")
               DEFAULT_CONTAINER_NAME,
             resolve (Args.container_host_port args) (settings !! "CONTAINER_HOST_PORT")
               (pretty DEFAULT_HOST_PORT)),
         set_log (λ rs, rs ++ override_warnings args settings)
           (set_environ (λ e, dict_update e settings) s))
    end.
Proof.
  unfold resolve_settings, set_env_vars, read_env_file, mbind, M_bind.
  destruct (fs s !! Args.env_file args) as [[| |]|] eqn:E; try done.
  all: simpl; rewrite E.
  all: unfold warn_override, override_warnings, when, logging, modify, mret, M_ret.
  all: destruct (overrides (Args.container_runtime args) _),
         (overrides (Args.container_name args) _),
         (overrides (Args.container_host_port args) _); simpl.
  all: f_equal; unfold set_log, set_environ; simpl; f_equal.
  all: by rewrite <- ?(assoc_L (++)), ?app_nil_r.
Qed.

End resolution.




(** ** The activation workflow *)

Section activation.
Context (h : host) (args : Args.t).

Lemma activate_unfold s :
  activate h args s
  = match venv_phase h (Args.playbook_path args) s with
    | (Raise e, s1) => (Raise e, s1)
    | (Ok venv_python, s1) =>
        match fs s1 !! Args.env_file args with
        | Some (Dir _) | Some (Link _) => (Raise (OSError "IsADirectoryError"), s1)
        | _ =>
            (Ok RETURN_SUCCESS,
             set_fs <[Args.env_file args :=
                        File (env_text
                                (activation_values (Args.playbook_path args) venv_python
                                   (load_env_file (fs s1) (Args.env_file args))))]> s1)
        end
    end.
Proof.
  unfold activate, venv_phase, mbind, M_bind, gets.
  destruct (_venv_python _ s) as [[[p|]|e] s1]; simpl; [| |done].
  - unfold mret, M_ret, read_env_file, write_bytes, modify, activation_values.
    destruct (fs s1 !! Args.env_file args) as [[| |]|] eqn:E; simpl; rewrite ?E; done.
  - destruct (ensure_venv _ _ _ s1) as [[[p|]|e] s2]; simpl; [| |done].
    + destruct (install_requirements h p s2) as [[[]|e] s3]; simpl; [|done].
      unfold mret, M_ret, read_env_file, write_bytes, modify, activation_values.
      destruct (fs s3 !! Args.env_file args) as [[| |]|] eqn:E; simpl; rewrite ?E; done.
    + unfold mret, M_ret, read_env_file, write_bytes, modify, activation_values.
      destruct (fs s2 !! Args.env_file args) as [[| |]|] eqn:E; simpl; rewrite ?E; done.
Qed.

(** Without a virtual environment, outside unit testing and with no
    interpreter selected, the first part of [activate] only logs. *)
Lemma venv_phase_no_python s :
  fs s !! (Args.playbook_path args </> ".venv" </> "bin" </> "python") = None →
  Py.truthy (environ s !! "UNIT_TESTING") = false →
  select_python (find_python_candidates h) = None →
  ∃ records,
    venv_phase h (Args.playbook_path args) s
    = (Ok None, set_log (λ rs, rs ++ records) s)
    ∧ Forall (λ r, lvl r = WARNING ∨ lvl r = ERROR) records.
Proof.
  intros Hvenv Hut Hsel.
  unfold venv_phase, _venv_python, ensure_venv, mbind, M_bind, gets, path_exists.
  rewrite Hut.
  assert (bool_decide (is_Some (fs s !! (Args.playbook_path args </> ".venv"
                                         </> "bin" </> "python"))) = false) as Hb.
  { rewrite Hvenv. apply bool_decide_eq_false_2. by intros [? ?]. }
  rewrite Hb. unfold mret, M_ret. rewrite Hb.
  destruct (find_python_candidates h) as [|c cs] eqn:Hc.
  - eexists [_]. split; [done|]. constructor; [by right|constructor].
  - unfold select_python_io. rewrite Hsel. simpl.
    eexists [_; _]. split.
    + unfold logging, modify, mbind, M_bind, set_log. simpl.
      by rewrite <- (assoc_L (++)).
    + constructor; [by left|]. constructor; [by right|constructor].
Qed.

Lemma activation_values_unsupplied venv_python loaded k :
  build_activation_env (Args.playbook_path args) !! k = None →
  k ≠ "VENV_PYTHON" →
  activation_values (Args.playbook_path args) venv_python loaded !! k = loaded !! k.
Proof.
  intros Hk Hv. unfold activation_values, dict_update.
  destruct venv_python; rewrite ?lookup_insert_ne by done;
    by rewrite lookup_union_r.
Qed.

Lemma activation_values_supplied venv_python loaded k v :
  build_activation_env (Args.playbook_path args) !! k = Some v →
  activation_values (Args.playbook_path args) venv_python loaded !! k = Some v.
Proof.
  intros Hk. unfold activation_values, dict_update.
  assert (k ≠ "VENV_PYTHON") as Hne.
  { intros ->. by vm_compute in Hk. }
  destruct venv_python; rewrite ?lookup_insert_ne by done;
    by rewrite (lookup_union_Some_l _ _ _ _ Hk).
Qed.

End activation.

(** C4 as stated fails for the activation workflow: it replaces a
    persisted [CONTAINER_RUNTIME=docker] by [podman] and logs nothing. *)
Lemma activate_overwrites_without_warning :
  load_env_file (fs docker_state) "/p/.env" !! "CONTAINER_RUNTIME" = Some "docker"
  ∧ (activate example_host example_args docker_state).1 = Ok 0%Z
  ∧ load_env_file (fs (activate example_host example_args docker_state).2) "/p/.env"
      !! "CONTAINER_RUNTIME" = Some "podman"
  ∧ log (activate example_host example_args docker_state).2 = [].
Proof. repeat split; by vm_compute. Qed.

(** C4, amended: when [activate] completes, the file it wrote is the
    text of a map that agrees with the map it loaded on every key it
    does not supply, that is every key outside [build_activation_env]
    other than [VENV_PYTHON], and holds its own value for every key it
    supplies; the write-back logs nothing.  The override resolution of
    [run] writes no file at all, and what it logs are the override
    warnings. *)
Theorem settings_rewrite_keeps_unsupplied_keys (h : host) (args : Args.t)
    (s : state) :
  (∀ c s',
     activate h args s = (Ok c, s') →
     ∃ venv_python s1,
       venv_phase h (Args.playbook_path args) s = (Ok venv_python, s1)
       ∧ let loaded := load_env_file (fs s1) (Args.env_file args) in
         let written :=
           activation_values (Args.playbook_path args) venv_python loaded in
         fs s' = write_env_file (fs s1) (Args.env_file args) written
         ∧ log s' = log s1
         ∧ (∀ k, build_activation_env (Args.playbook_path args) !! k = None →
              k ≠ "VENV_PYTHON" → written !! k = loaded !! k)
         ∧ (∀ k v, build_activation_env (Args.playbook_path args) !! k = Some v →
              written !! k = Some v)
         ∧ (∀ p, venv_python = Some p → written !! "VENV_PYTHON" = Some p))
  ∧ (∀ r s',
       resolve_settings args s = (r, s') →
       fs s' = fs s
       ∧ ∀ v, r = Ok v →
           log s'
           = log s ++ override_warnings args (load_env_file (fs s) (Args.env_file args))).
Proof.
  split.
  - intros c s' H. rewrite activate_unfold in H.
    destruct (venv_phase h (Args.playbook_path args) s) as [[venv|e] s1]; [|done].
    exists venv, s1. split; [done|]. cbv zeta.
    assert (s' = set_fs
              <[Args.env_file args :=
                  File (env_text
                          (activation_values (Args.playbook_path args) venv
                             (load_env_file (fs s1) (Args.env_file args))))]> s1)
      as -> by (by repeat case_match; simplify_eq).
    split; [done|]. split; [done|].
    split; [intros; by apply activation_values_unsupplied|].
    split; [intros; by eapply activation_values_supplied|].
    intros p ->. unfold activation_values. apply lookup_insert_eq.
  - intros r s'. rewrite resolve_settings_unfold.
    destruct (fs s !! Args.env_file args) as [[| |]|]; intros [= <- <-];
      (split; [done|]); intros v [=]; done.
Qed.

(** C4 on a settings file with a key of its own: it is still there
    after activation. *)
Lemma settings_rewrite_keeps_unsupplied_keys_witness :
  load_env_file (fs (activate example_host example_args custom_key_state).2) "/p/.env"
    !! "MY_SETTING"
  = Some "kept"
  ∧ ∃ venv_python s1,
      venv_phase example_host "/p" custom_key_state = (Ok venv_python, s1)
      ∧ activation_values "/p" venv_python (load_env_file (fs s1) "/p/.env")
          !! "MY_SETTING"
        = load_env_file (fs s1) "/p/.env" !! "MY_SETTING".
Proof.
  split; [by vm_compute|].
  destruct (proj1 (settings_rewrite_keeps_unsupplied_keys example_host example_args
                     custom_key_state) _ _ (surjective_pairing _))
    as (venv & s1 & Hphase & _ & _ & Hkeep & _).
  exists venv, s1. split; [done|]. apply Hkeep; by vm_compute.
Defined.

(** C5: with no virtual environment, outside unit testing, and no
    candidate in the accepted range, [activate] logs the failure and
    goes on to write the settings file and return 0; neither [activate]
    nor [main] returns the status 3 reserved for this case. *)
Theorem activate_without_python_returns_success (h : host) (args : Args.t)
    (s : state) :
  fs s !! (Args.playbook_path args </> ".venv" </> "bin" </> "python") = None →
  Py.truthy (environ s !! "UNIT_TESTING") = false →
  select_python (find_python_candidates h) = None →
  readable s (Args.env_file args) →
  ∃ s',
    activate h args s = (Ok RETURN_SUCCESS, s')
    ∧ main (activate h) args s = (Ok RETURN_SUCCESS, s')
    ∧ RETURN_SUCCESS ≠ RETURN_NO_PYTHON
    ∧ trace s' = trace s.
Proof.
  intros Hvenv Hut Hsel Hread.
  destruct (venv_phase_no_python h args s Hvenv Hut Hsel) as (records & Hphase & _).
  unfold main. rewrite activate_unfold, Hphase. simpl.
  unfold readable in Hread.
  destruct (fs s !! Args.env_file args) as [[| |]|]; try done;
    eexists; repeat split; done.
Qed.

(** C5 on a host whose only interpreter is Python 3.9. *)
Lemma activate_without_python_returns_success_witness :
  select_python (find_python_candidates old_python_host) = None
  ∧ (main (activate old_python_host) example_args example_state).1 = Ok 0%Z.
Proof.
  split; [reflexivity|].
  destruct (activate_without_python_returns_success old_python_host example_args
              example_state) as (s' & _ & -> & _); by vm_compute.
Defined.

(** ** Logging configuration *)

(** X1: for a verbosity count that is not negative, [configure_logging]
    configures the level of index [min(verbosity, 4)] of [LOG_LEVELS], so
    that every count from 4 on gives DEBUG; records of level CRITICAL
    always pass, those of level ERROR from one [-v] on, and those of level
    WARNING, the override warnings of [run] among them, from two on.  The
    handlers are the one for the standard error stream and, when a log
    file is given, one that opens it in mode [w].  The index is not
    bounded from below: a count from -5 to -1 selects a level from the
    end of the list, and one below -5 is an [IndexError]. *)
Theorem configure_logging_threshold (verbosity : Z) (log_file : option string) :
  ((0 ≤ verbosity)%Z →
   ∃ c, configure_logging verbosity log_file = Some c
     ∧ config_level c = (50 - 10 * Z.min 4 verbosity)%Z
     ∧ ((4 ≤ verbosity)%Z → config_level c = logging_DEBUG)
     ∧ is_enabled_for c CRITICAL = true
     ∧ (is_enabled_for c ERROR = true ↔ (1 ≤ verbosity)%Z)
     ∧ (is_enabled_for c WARNING = true ↔ (2 ≤ verbosity)%Z)
     ∧ config_handlers c
       = StreamHandler "sys.stderr"
         :: match log_file with Some f => [FileHandler f "w"] | None => [] end)
  ∧ ((-5 ≤ verbosity < 0)%Z →
     ∃ c, configure_logging verbosity log_file = Some c
       ∧ config_level c = (-10 * verbosity)%Z)
  ∧ ((verbosity < -5)%Z → configure_logging verbosity log_file = None).
Proof.
  unfold configure_logging. split; [|split].
  - intros Hv.
    assert (verbosity = 0 ∨ verbosity = 1 ∨ verbosity = 2 ∨ verbosity = 3
            ∨ 4 ≤ verbosity)%Z as [->|[->|[->|[->|H4]]]] by lia.
    1-4: eexists; split; [reflexivity|]; unfold is_enabled_for; simpl;
         repeat split; try done; try lia.
    assert (Z.min (Z.of_nat (length LOG_LEVELS) - 1) verbosity = 4%Z) as ->
      by (simpl; lia).
    eexists. split; [reflexivity|]. unfold is_enabled_for. simpl.
    rewrite Z.min_l by lia. repeat split; try done; lia.
  - intros Hv.
    assert (verbosity = -1 ∨ verbosity = -2 ∨ verbosity = -3 ∨ verbosity = -4
            ∨ verbosity = -5)%Z as [->|[->|[->|[->| ->]]]] by lia;
      eexists; split; reflexivity.
  - intros Hv.
    assert (Z.min (Z.of_nat (length LOG_LEVELS) - 1) verbosity = verbosity) as ->
      by (simpl; lia).
    unfold list_getitem.
    destruct (Z.leb_spec 0 verbosity); [lia|].
    destruct (Z.leb_spec 0 (Z.of_nat (length LOG_LEVELS) + verbosity)); [|done].
    simpl in *. lia.
Qed.

(** X1 without [-v]: only CRITICAL records pass, so the warnings of an
    override are not shown. *)
Lemma configure_logging_threshold_witness :
  ∃ c, configure_logging 0 (Some "run.log") = Some c
    ∧ config_level c = logging_CRITICAL
    ∧ is_enabled_for c WARNING = false
    ∧ config_handlers c = [StreamHandler "sys.stderr"; FileHandler "run.log" "w"].
Proof.
  destruct (proj1 (configure_logging_threshold 0 (Some "run.log")))
    as (c & Hc & Hl & _ & _ & _ & Hw & Hh); [done|].
  exists c. split; [done|]. split; [done|]. split; [|done].
  apply not_true_is_false. intros E. apply Hw in E. lia.
Defined.
(** ** The settings file, line by line *)

Section entries.
Import Py.

Lemma load_env_line_entry data raw :
  load_env_line data raw
  = match line_entry raw with
    | Some (k, v) => <[k := v]> data
    | None => data
    end.
Proof.
  unfold load_env_line, line_entry.
  destruct (negb (nonempty (strip raw)) || startswith "#" (strip raw)); [done|].
  destruct (negb (str_in "=" (strip raw))); [done|].
  by destruct (split_once "=" (strip raw)) as [[key value]|].
Qed.

Lemma foldl_load_env_lookup data lines k :
  foldl load_env_line data lines !! k
  = match last (filter (λ kv, kv.1 = k) (omap line_entry lines)) with
    | Some kv => Some kv.2
    | None => data !! k
    end.
Proof.
  induction lines as [|raw lines IH] using rev_ind; [done|].
  rewrite foldl_app, omap_app, filter_app. simpl.
  rewrite load_env_line_entry.
  destruct (line_entry raw) as [[k' v]|]; simpl.
  - rewrite filter_cons, filter_nil. simpl.
    destruct (decide (k' = k)) as [->|Hne].
    + by rewrite last_snoc, lookup_insert_eq.
    + by rewrite app_nil_r, lookup_insert_ne.
  - by rewrite filter_nil, app_nil_r.
Qed.

Lemma universal_newlines_crlf l rest :
  single_line l = true →
  universal_newlines (l +:+ CRLF +:+ rest)
  = l +:+ String LF (universal_newlines rest).
Proof.
  induction l as [|c l IH]; intros Hl; [done|].
  simpl in Hl. apply andb_true_iff in Hl as [Hc Hl].
  assert (Ascii.eqb c CR = false) as Hcr.
  { destruct (Ascii.eqb c CR) eqn:E; [|done].
    apply Ascii.eqb_eq in E as ->. done. }
  rewrite !str_app_cons. simpl. rewrite Hcr. by rewrite (IH Hl).
Qed.

Lemma splitlines_text_of_lines lines :
  Forall (λ l, single_line l = true) lines →
  splitlines (universal_newlines (text_of_lines CRLF lines)) = lines
  ∧ splitlines (universal_newlines (text_of_lines (String LF EmptyString) lines))
    = lines.
Proof.
  induction 1 as [|l lines Hl _ [IH1 IH2]]; [done|]. simpl. split.
  - rewrite (universal_newlines_crlf _ _ Hl), (splitlines_line _ _ Hl).
    by rewrite IH1.
  - change (String LF EmptyString +:+ ?r) with (String LF r).
    rewrite (universal_newlines_line _ _ Hl), (splitlines_line _ _ Hl).
    by rewrite IH2.
Qed.

End entries.

(** X2: the value [load_env_file] returns for a key is the value of the
    last line of the file that holds an entry for that key, and the key
    is absent when no line does: a later assignment replaces an earlier
    one.  A line holds an entry when, trimmed, it is not empty, does not
    start with ["#"] and has an ["="]; the entry is the trimmed text
    before the first ["="] and the trimmed text after it. *)
Theorem load_env_file_last_assignment (fs : files) (path k : string) :
  load_env_file fs path !! k
  = snd <$> last (filter (λ kv, kv.1 = k) (omap line_entry (env_lines fs path))).
Proof.
  rewrite load_env_file_lines, foldl_load_env_lookup.
  by destruct (last _).
Qed.

(** X2 on a file that assigns [A] twice, the first time in a comment
    too. *)
Lemma load_env_file_last_assignment_witness :
  load_env_file
    {[ ".env" := File ("#A=0" +:+ NL +:+ "A=1" +:+ NL +:+ "B=x" +:+ NL
                       +:+ "A = 2 # two" +:+ NL) ]} ".env" !! "A"
  = Some "2 # two".
Proof.
  rewrite (load_env_file_last_assignment _ ".env" "A"). by vm_compute.
Defined.

(** X3: a settings file whose lines end in CR LF loads as the file with
    the same lines ended by LF does, and both load as the loop of
    [load_env_file] run over those lines. *)
Theorem load_env_file_line_ends (fs : files) (path : string) (lines : list string) :
  Forall (λ l, single_line l = true) lines →
  load_env_file (<[path := File (text_of_lines CRLF lines)]> fs) path
  = load_env_file
      (<[path := File (text_of_lines (String Py.LF EmptyString) lines)]> fs) path
  ∧ load_env_file (<[path := File (text_of_lines CRLF lines)]> fs) path
    = foldl load_env_line ∅ lines.
Proof.
  intros Hl. destruct (splitlines_text_of_lines lines Hl) as [H1 H2].
  unfold load_env_file. rewrite !lookup_insert_eq. by rewrite H1, H2.
Qed.

(** X3 on two lines. *)
Lemma load_env_file_line_ends_witness :
  load_env_file
    {[ ".env" := File (text_of_lines CRLF ["CONTAINER_NAME=box"; "PORT = 22"]) ]}
    ".env"
  = {[ "CONTAINER_NAME" := "box"; "PORT" := "22" ]}.
Proof.
  pose proof (load_env_file_line_ends ∅ ".env" ["CONTAINER_NAME=box"; "PORT = 22"])
    as H.
  rewrite insert_empty in H. rewrite (proj2 (H ltac:(by repeat constructor))).
  by vm_compute.
Defined.


(** ** Version query of an interpreter *)

Section version_text.
Import Py.

Lemma is_digit_not_space c : is_digit c = true → isspace c = false.
Proof.
  destruct c as [[] [] [] [] [] [] [] []]; try discriminate; reflexivity.
Qed.

Lemma is_digit_not_dot c : is_digit c = true → Ascii.eqb c "." = false.
Proof.
  destruct c as [[] [] [] [] [] [] [] []]; try discriminate; reflexivity.
Qed.

(** A string of digits is not trimmed by [strip]. *)
Lemma rstrip_digits d : all_chars is_digit d = true → rstrip d = d.
Proof.
  induction d as [|c d IH]; [done|]. simpl.
  intros [Hc Hd]%andb_true_iff. rewrite (IH Hd).
  destruct d; [|done]. by rewrite (is_digit_not_space _ Hc).
Qed.

Lemma strip_digits d : all_chars is_digit d = true → strip d = d.
Proof.
  intros Hd. unfold strip. destruct d as [|c d]; [done|].
  pose proof Hd as [Hc _]%andb_true_iff.
  rewrite (lstrip_nonspace _ _ (is_digit_not_space _ Hc)).
  by apply rstrip_digits.
Qed.

Lemma int_digits_app acc prev d rest :
  all_chars is_digit d = true → d ≠ EmptyString →
  int_digits acc prev (d +:+ rest)
  = int_digits (fold_left (λ a c, 10 * a + digit_val c)%Z (list_ascii_of_string d) acc)
      true rest.
Proof.
  revert acc prev. induction d as [|c d IH]; intros acc prev Hd Hne; [done|].
  apply andb_true_iff in Hd as [Hc Hd]. rewrite str_app_cons. simpl.
  rewrite Hc. destruct d as [|c' d]; [done|]. by apply IH.
Qed.

(** The digits [pretty] writes for a positive number, and their value. *)
Lemma pretty_N_go_digits x :
  (0 < x)%N →
  ∃ d, (∀ s, pretty_N_go x s = d +:+ s)
    ∧ all_chars is_digit d = true ∧ d ≠ EmptyString
    ∧ ∀ acc, fold_left (λ a c, 10 * a + digit_val c)%Z (list_ascii_of_string d) acc
             = (acc * 10 ^ Z.of_nat (String.length d) + Z.of_N x)%Z.
Proof.
  induction (N.lt_wf_0 x) as [x _ IH]. intros Hx.
  assert (∃ c, pretty_N_char (x `mod` 10) = c ∧ is_digit c = true
               ∧ digit_val c = Z.of_N (x `mod` 10)) as (c & Hc & Hcd & Hcv).
  { assert (x `mod` 10 < 10)%N as Hm by (apply N.mod_lt; lia).
    generalize dependent (x `mod` 10)%N. intros m Hm.
    assert (m = 0 ∨ m = 1 ∨ m = 2 ∨ m = 3 ∨ m = 4 ∨ m = 5 ∨ m = 6 ∨ m = 7
            ∨ m = 8 ∨ m = 9)%N as Hd by lia.
    eexists. split; [done|].
    destruct Hd as [->|[->|[->|[->|[->|[->|[->|[->|[->| ->]]]]]]]]]; by split. }
  destruct (decide (x `div` 10 = 0)%N) as [H0|H0].
  - exists (String c EmptyString). split; [|split; [|split; [done|]]].
    + intros s. by rewrite (pretty_N_go_step _ _ Hx), H0, pretty_N_go_0, Hc.
    + simpl. by rewrite Hcd.
    + intros acc. simpl. rewrite Hcv.
      pose proof (N.div_mod x 10 ltac:(done)) as Hdm.
      rewrite H0, N.mul_0_r, N.add_0_l in Hdm. rewrite <- Hdm.
      change (Z.of_nat 1) with 1%Z. rewrite Z.pow_1_r. ring.
  - destruct (IH (x `div` 10)%N) as (d & Hgo & Hd & Hne & Hval).
    { apply N.div_lt; lia. }
    { by apply N.neq_0_lt_0. }
    exists (d +:+ String c EmptyString). split; [|split; [|split]].
    + intros s. rewrite (pretty_N_go_step _ _ Hx), Hgo, Hc.
      by rewrite str_app_assoc.
    + rewrite all_chars_app, Hd. simpl. by rewrite Hcd.
    + by destruct d.
    + intros acc.
      assert (list_ascii_of_string (d +:+ String c EmptyString)
              = list_ascii_of_string d ++ [c]) as ->.
      { clear. induction d as [|a d IH]; [done|]. rewrite str_app_cons. simpl.
        by rewrite IH. }
      rewrite fold_left_app, Hval. simpl. rewrite Hcv.
      rewrite str_length_app. simpl.
      rewrite Nat2Z.inj_add, Z.pow_add_r by lia.
      change (Z.of_nat 1) with 1%Z. rewrite Z.pow_1_r.
      pose proof (N.div_mod x 10 ltac:(done)) as Hdm.
      apply (f_equal Z.of_N) in Hdm.
      rewrite N2Z.inj_add, N2Z.inj_mul in Hdm.
      generalize dependent (Z.of_N (x `div` 10)). intros q.
      generalize dependent (Z.of_N (x `mod` 10)). intros m.
      generalize dependent (10 ^ Z.of_nat (String.length d))%Z. intros e.
      intros. rewrite Hdm. change (Z.of_N 10) with 10%Z. ring.
Qed.

(** The text [pretty] writes for a number that is not negative is a
    string of digits that [int] reads back. *)
Lemma pretty_digits (n : Z) :
  (0 ≤ n)%Z →
  all_chars is_digit (pretty n) = true ∧ pretty n ≠ EmptyString
  ∧ int (pretty n) = Some n.
Proof.
  intros Hn. destruct n as [|p|p]; [done| |lia].
  destruct (pretty_N_go_digits (N.pos p) ltac:(lia)) as (d & Hgo & Hd & Hne & Hval).
  assert (pretty (Z.pos p) = d) as ->.
  { unfold pretty, pretty_Z, pretty, pretty_positive, pretty, pretty_N.
    rewrite decide_False by done. rewrite Hgo.
    clear. induction d as [|c d IH]; [done|]. rewrite str_app_cons. by rewrite IH. }
  split; [done|]. split; [done|].
  unfold int. rewrite (strip_digits _ Hd).
  assert (int_digits 0 false d = Some (Z.pos p)) as Hint.
  { assert (d = d +:+ EmptyString) as ->.
    { clear. induction d as [|c d IH]; [done|]. rewrite str_app_cons. by rewrite <- IH. }
    rewrite (int_digits_app _ _ _ _ Hd Hne), Hval. simpl. f_equal; lia. }
  destruct d as [|c d]; [done|].
  apply andb_true_iff in Hd as [Hc _].
  destruct c as [[] [] [] [] [] [] [] []]; try discriminate; exact Hint.
Qed.

Lemma str_split_no_sep sep a :
  all_chars (λ c, negb (Ascii.eqb c sep)) a = true → str_split sep a = [a].
Proof.
  induction a as [|c a IH]; [done|]. simpl.
  intros [Hc Ha]%andb_true_iff. apply negb_true_iff in Hc.
  by rewrite Hc, (IH Ha).
Qed.

Lemma str_split_app sep a b :
  all_chars (λ c, negb (Ascii.eqb c sep)) a = true →
  str_split sep (a +:+ String sep b) = a :: str_split sep b.
Proof.
  induction a as [|c a IH]; simpl.
  - by rewrite Ascii.eqb_refl.
  - intros [Hc Ha]%andb_true_iff. apply negb_true_iff in Hc.
    rewrite Hc. change (String.app a (String sep b)) with (a +:+ String sep b).
    by rewrite (IH Ha).
Qed.

Lemma str_split_length sep s : 1 ≤ length (str_split sep s).
Proof.
  induction s as [|c s IH]; simpl; [done|].
  destruct (Ascii.eqb c sep); simpl; [lia|].
  destruct (str_split sep s); simpl in *; lia.
Qed.

Lemma digits_no_dot d :
  all_chars is_digit d = true →
  all_chars (λ c, negb (Ascii.eqb c ".")) d = true.
Proof.
  induction d as [|c d IH]; [done|]. simpl.
  intros [Hc Hd]%andb_true_iff. by rewrite (is_digit_not_dot _ Hc), (IH Hd).
Qed.

End version_text.
Section version_query.
Import Py.

Lemma rstrip_digits_newline d :
  all_chars is_digit d = true → rstrip (d +:+ NL) = d.
Proof.
  induction d as [|c d IH]; [done|]. rewrite str_app_cons. simpl.
  intros [Hc Hd]%andb_true_iff. rewrite (IH Hd).
  destruct d; [|done]. by rewrite (is_digit_not_space _ Hc).
Qed.

Lemma no_dot_chars a :
  str_in "." a = false → all_chars (λ c, negb (Ascii.eqb c ".")) a = true.
Proof. rewrite str_in_char. by intros ?%negb_false_iff. Qed.

Lemma str_split_three a b c :
  str_in "." a = false → str_in "." b = false → str_in "." c = false →
  str_split "." (a +:+ "." +:+ b +:+ "." +:+ c) = [a; b; c].
Proof.
  intros Ha%no_dot_chars Hb%no_dot_chars Hc%no_dot_chars.
  rewrite !str_app_cons, !str_app_nil.
  rewrite (str_split_app _ _ _ Ha), (str_split_app _ _ _ Hb).
  by rewrite (str_split_no_sep _ _ Hc).
Qed.

Lemma str_split_three_more a b c rest :
  str_in "." a = false → str_in "." b = false → str_in "." c = false →
  take 3 (str_split "." (a +:+ "." +:+ b +:+ "." +:+ c +:+ "." +:+ rest))
  = [a; b; c].
Proof.
  intros Ha%no_dot_chars Hb%no_dot_chars Hc%no_dot_chars.
  rewrite !str_app_cons, !str_app_nil.
  by rewrite (str_split_app _ _ _ Ha), (str_split_app _ _ _ Hb),
    (str_split_app _ _ _ Hc).
Qed.

Lemma digits_not_in d : all_chars is_digit d = true → str_in "." d = false.
Proof.
  intros Hd. rewrite str_in_char. apply negb_false_iff. by apply digits_no_dot.
Qed.

End version_query.

(** X5: the text the version query prints for an interpreter, the three
    numbers of its version joined by dots and ended by a newline, is
    converted back to those three numbers. *)
Theorem version_of_text_round_trip (major minor micro : Z) :
  (0 ≤ major)%Z → (0 ≤ minor)%Z → (0 ≤ micro)%Z →
  version_of_text
    (pretty major +:+ "." +:+ pretty minor +:+ "." +:+ pretty micro +:+ NL)
  = Some [major; minor; micro].
Proof.
  intros (Ha & Hane & Hai)%pretty_digits (Hb & Hbne & Hbi)%pretty_digits
    (Hc & Hcne & Hci)%pretty_digits.
  set (a := pretty major) in *. set (b := pretty minor) in *.
  set (c := pretty micro) in *.
  unfold version_of_text.
  assert (Py.strip (a +:+ "." +:+ b +:+ "." +:+ c +:+ NL)
          = a +:+ "." +:+ b +:+ "." +:+ c) as ->.
  { unfold Py.strip.
    assert (Py.lstrip (a +:+ "." +:+ b +:+ "." +:+ c +:+ NL)
            = a +:+ "." +:+ b +:+ "." +:+ c +:+ NL) as ->.
    { destruct a as [|x a]; [done|]. rewrite str_app_cons.
      apply lstrip_nonspace, is_digit_not_space.
      by apply andb_true_iff in Ha as [? _]. }
    assert (Py.rstrip ("." +:+ c +:+ NL) = "." +:+ c) as H1.
    { rewrite rstrip_app; rewrite rstrip_digits_newline; done. }
    assert (Py.rstrip (b +:+ "." +:+ c +:+ NL) = b +:+ "." +:+ c) as H2.
    { rewrite rstrip_app; rewrite H1; done. }
    assert (Py.rstrip ("." +:+ b +:+ "." +:+ c +:+ NL) = "." +:+ b +:+ "." +:+ c)
      as H3.
    { rewrite rstrip_app; rewrite H2; [done|]. by destruct b. }
    rewrite rstrip_app; rewrite H3; done. }
  rewrite str_split_three by by apply digits_not_in.
  simpl. by rewrite Hai, Hbi, Hci.
Qed.

(** X5 on the version 3.14.2. *)
Lemma version_of_text_round_trip_witness :
  version_of_text ("3.14.2" +:+ NL) = Some [3; 14; 2]%Z.
Proof. apply (version_of_text_round_trip 3 14 2); done. Defined.

Lemma version_of_text_length (out : string) (v : list Z) :
  version_of_text out = Some v →
  1 ≤ length v ≤ 3 ∧ length v = min 3 (length (str_split "." (Py.strip out))).
Proof.
  unfold version_of_text. intros Hv%length_mapM. rewrite length_take in Hv.
  pose proof (str_split_length "." (Py.strip out)). lia.
Qed.

(** X6: the tuple of a version has one, two or three numbers, as many
    as the trimmed text has pieces between dots, up to three; a text
    with fewer than two dots gives a shorter tuple than the three
    numbers [select_python] compares with; and what follows a third dot
    is not looked at. *)
Theorem version_of_text_shape (out : string) :
  (∀ v, version_of_text out = Some v →
     1 ≤ length v ≤ 3
     ∧ length v = min 3 (length (str_split "." (Py.strip out))))
  ∧ (∀ a b, Py.str_in "." a = false → Py.str_in "." b = false →
       Py.strip out = a +:+ "." +:+ b →
       version_of_text out = mapM Py.int [a; b])
  ∧ (∀ a b c rest,
       Py.str_in "." a = false → Py.str_in "." b = false →
       Py.str_in "." c = false →
       Py.strip out = a +:+ "." +:+ b +:+ "." +:+ c +:+ "." +:+ rest →
       version_of_text out = mapM Py.int [a; b; c]).
Proof.
  split; [by apply version_of_text_length|]. unfold version_of_text. split.
  - intros a b Ha%no_dot_chars Hb%no_dot_chars ->.
    rewrite str_app_cons, str_app_nil.
    by rewrite (str_split_app _ _ _ Ha), (str_split_no_sep _ _ Hb).
  - intros a b c rest Ha Hb Hc ->. by rewrite str_split_three_more.
Qed.

(** X6 on a release candidate and on a text of two numbers. *)
Lemma version_of_text_shape_witness :
  version_of_text ("3.13.0.rc1" +:+ NL) = Some [3; 13; 0]%Z
  ∧ version_of_text "3.11" = Some [3; 11]%Z
  ∧ version_of_text "3.13.0rc1" = None.
Proof.
  split; [|split; [|done]].
  - by rewrite (proj2 (proj2 (version_of_text_shape ("3.13.0.rc1" +:+ NL)))
                  "3" "13" "0" "rc1").
  - by rewrite (proj1 (proj2 (version_of_text_shape "3.11")) "3" "11").
Defined.

(** X7: [_python_version] spawns the version query once, capturing its
    output, and logs nothing of level WARNING or above.  An interpreter
    that exits with another status than 0, or that is not found, gives
    [None] and no exception; the only exception that leaves the function
    is that of a program that could not be started for another reason.
    A version is returned only when the query exited with status 0 and
    its output converts, and it has at most three numbers. *)
Theorem python_version_outcome (h : host) (path : string) (s : state)
    (r : result (option (list Z))) (s' : state) :
  _python_version h path s = (r, s') →
  let query := Command [path; "-c"; VERSION_QUERY] true None in
  (∃ st, trace s' = trace s ++ [Event query st])
  ∧ log s' = log s
  ∧ (∀ e, r = Raise e →
       is_SubprocessError e = false
       ∧ ∃ what, what ≠ "FileNotFoundError"
           ∧ spawn h s query = NotStarted what ∧ e = OSError what)
  ∧ (∀ v, r = Ok (Some v) →
       ∃ out fs', spawn h s query = Exited 0 out fs'
         ∧ version_of_text out = Some v ∧ 1 ≤ length v ≤ 3)
  ∧ (∀ rc out fs', spawn h s query = Exited rc out fs' → rc ≠ 0%Z → r = Ok None)
  ∧ (spawn h s query = NotStarted "FileNotFoundError" → r = Ok None).
Proof.
  cbv zeta. unfold _python_version, try_except, subprocess_run, mbind, M_bind.
  destruct (spawn h s _) as [rc out fs'|what] eqn:E; simpl.
  - destruct (Z.eqb_spec rc 0) as [->|Hrc]; simpl; intros [= <- <-].
    + split; [by eexists|]. split; [done|]. split; [done|].
      split; [|split; [|done]].
      * intros v [= Hv]. exists out, fs'. split; [done|]. split; [done|].
        apply version_of_text_length in Hv. lia.
      * intros rc out' fs'' [= <- _ _] Hne. done.
    + split; [by eexists|]. split; [done|]. split; [done|].
      split; [done|]. split; [done|done].
  - destruct (String.eqb_spec what "FileNotFoundError") as [->|Hne];
      simpl; intros [= <- <-].
    + split; [by eexists|]. repeat split; done.
    + split; [by eexists|]. split; [done|]. split; [|split; [done|]].
      * intros e [= <-]. split; [done|]. by exists what.
      * split; [done|]. intros [= ->]. done.
Qed.

(** X7 on a host where the interpreter is missing. *)
Lemma python_version_outcome_witness :
  (_python_version missing_interpreter_host "/usr/bin/python3.11" example_state).1
  = Ok None.
Proof.
  destruct (python_version_outcome missing_interpreter_host "/usr/bin/python3.11"
              example_state _ _ (surjective_pairing _))
    as (_ & _ & _ & _ & _ & H).
  by apply H.
Defined.
(** ** The virtual environment *)



(** X9: [install_requirements] spawns the upgrade of pip, the
    installation of the requirements and the removal of pytest-ansible,
    in this order, each only after the one before exited with status 0.
    A failure of one of the first two raises and ends the installation;
    the exit status of the removal is not looked at, so that the
    installation completes whenever the removal could be started. *)
Theorem install_requirements_steps (h : host) (venv_python : string) (s : state)
    (r : result unit) (s' : state) :
  install_requirements h venv_python s = (r, s') →
  let pip := λ args, Command ([venv_python; "-m"; "pip"] ++ args) false None in
  let upgrade := pip ["install"; "--upgrade"; "pip"] in
  let install := pip ["install"; "-r"; "requirements.txt"] in
  let uninstall := pip ["uninstall"; "-y"; "pytest-ansible"] in
  (∃ st, trace s' = trace s ++ [Event upgrade st]
     ∧ st ≠ Some 0%Z ∧ ∃ e, r = Raise e)
  ∨ (∃ st, trace s' = trace s ++ [Event upgrade (Some 0%Z); Event install st]
       ∧ st ≠ Some 0%Z ∧ ∃ e, r = Raise e)
  ∨ (∃ st, trace s' = trace s ++ [Event upgrade (Some 0%Z); Event install (Some 0%Z);
                                  Event uninstall st]
       ∧ match st with
         | Some _ => r = Ok ()
         | None => ∃ what, r = Raise (OSError what)
         end).
Proof.
  cbv zeta. unfold install_requirements, subprocess_run, mbind, M_bind. simpl.
  destruct (spawn h s _) as [rc1 out1 fs1|what1]; simpl.
  2:{ intros [= <- <-]. left. eexists. split; [done|]. split; [done|]. eauto. }
  destruct (Z.eqb_spec rc1 0) as [->|Hrc1]; simpl.
  2:{ intros [= <- <-]. left. eexists. split; [done|].
      split; [congruence|]. eauto. }
  destruct (spawn h _ _) as [rc2 out2 fs2|what2]; simpl.
  2:{ intros [= <- <-]. right. left. eexists.
      split; [simpl; by rewrite <- (assoc_L (++))|]. split; [done|]. eauto. }
  destruct (Z.eqb_spec rc2 0) as [->|Hrc2]; simpl.
  2:{ intros [= <- <-]. right. left. eexists.
      split; [simpl; by rewrite <- (assoc_L (++))|]. split; [congruence|]. eauto. }
  destruct (spawn h _ _) as [rc3 out3 fs3|what3]; simpl;
    intros [= <- <-]; right; right; eexists;
    (split; [simpl; by rewrite <- !(assoc_L (++))|]); simpl; eauto.
Qed.

(** X9 on a host where the removal of pytest-ansible exits with
    status 1: the installation completes. *)
Lemma install_requirements_steps_witness :
  (install_requirements failing_uninstall_host "/p/.venv/bin/python"
     example_state).1 = Ok ().
Proof.
  destruct (install_requirements_steps failing_uninstall_host
              "/p/.venv/bin/python" example_state _ _ (surjective_pairing _))
    as [(st & Ht & _)|[(st & Ht & _)|(st & Ht & Hr)]].
  - vm_compute in Ht. discriminate.
  - vm_compute in Ht. discriminate.
  - by vm_compute.
Defined.
(** ** Activation, repeated and followed by a run *)

Section activation_file.
Import Py.

Lemma strip_app_suffix a b :
  strip a = a → strip b = b → b ≠ EmptyString → strip (a +:+ b) = a +:+ b.
Proof.
  intros [Hal Har]%strip_fixed [Hbl Hbr]%strip_fixed Hb. unfold strip.
  assert (lstrip (a +:+ b) = a +:+ b) as ->.
  { destruct a as [|c a]; [done|]. rewrite str_app_cons.
    apply lstrip_nonspace. by eapply lstrip_head. }
  rewrite rstrip_app; rewrite Hbr; done.
Qed.

Lemma single_line_app a b :
  single_line a = true → single_line b = true → single_line (a +:+ b) = true.
Proof. unfold single_line. rewrite all_chars_app. by intros -> ->. Qed.

(** A path under a project root that is trimmed and on one line is
    trimmed and on one line. *)
Lemma pjoin_plain p q :
  strip p = p → single_line p = true →
  startswith "/" q = false → strip q = q → single_line q = true →
  q ≠ EmptyString →
  strip (p </> q) = p </> q ∧ single_line (p </> q) = true.
Proof.
  intros Hp Hpl Hq Hqs Hql Hne. unfold pjoin. rewrite Hq. split.
  - apply strip_app_suffix; [done| |done].
    change ("/" +:+ q) with (String "/" q).
    apply strip_fixed in Hqs as [_ Hqr]. unfold strip.
    rewrite lstrip_nonspace by done. simpl. rewrite Hqr. by destruct q.
  - apply single_line_app; [done|]. by apply single_line_app.
Qed.

Lemma dict_of_Forall (P : string → string → Prop) items :
  Forall (λ kv, P kv.1 kv.2) items → map_Forall P (dict_of items).
Proof.
  unfold dict_of.
  assert (∀ m : gmap string string, map_Forall P m →
            Forall (λ kv, P kv.1 kv.2) items →
            map_Forall P (foldl (λ m kv, <[kv.1 := kv.2]> m) m items)) as H.
  { intros m Hm Hi. revert m Hm.
    induction Hi as [|kv items Hkv _ IH]; intros m Hm; [done|].
    simpl. apply IH. by apply map_Forall_insert_2. }
  apply H, map_Forall_empty.
Qed.

Lemma build_activation_env_storable playbook_path :
  strip playbook_path = playbook_path → single_line playbook_path = true →
  all_storable (build_activation_env playbook_path).
Proof.
  intros Hs Hl. apply dict_of_Forall.
  destruct (pjoin_plain playbook_path DEFAULT_VAULT_PASSWORD_FILE) as [Hv1 Hv2];
    try done.
  repeat apply Forall_cons_2; try apply Forall_nil_2;
    repeat split; try done; by vm_compute.
Qed.

Lemma venv_python_plain playbook_path :
  strip playbook_path = playbook_path → single_line playbook_path = true →
  storable "VENV_PYTHON" (playbook_path </> ".venv" </> "bin" </> "python").
Proof.
  intros Hs Hl.
  destruct (pjoin_plain playbook_path ".venv") as [H1 H1']; try done.
  destruct (pjoin_plain (playbook_path </> ".venv") "bin") as [H2 H2']; try done.
  destruct (pjoin_plain (playbook_path </> ".venv" </> "bin") "python")
    as [H3 H3']; try done.
Qed.

End activation_file.

Section activation_again.
Context (h : host) (args : Args.t).
Let playbook_path := Args.playbook_path args.
Let env_file := Args.env_file args.
Let venv_python := playbook_path </> ".venv" </> "bin" </> "python".

(** The interpreter [venv_phase] returns is that of the virtual
    environment of the project. *)
Lemma venv_phase_path s p s0 :
  venv_phase h playbook_path s = (Ok (Some p), s0) → p = venv_python.
Proof.
  unfold venv_phase.
  intros (ut & s1 & [= <- <-] & H)%bind_inv_Ok.
  apply bind_inv_Ok in H as (found & s2 & Hfound & H).
  unfold _venv_python, mbind, M_bind, gets, mret, M_ret in Hfound.
  injection Hfound as <- <-.
  apply bind_inv_Ok in H as ([venv created] & s3 & Hvenv & H).
  apply bind_inv_Ok in H as ([] & s4 & _ & [= -> _]).
  destruct (path_exists s _).
  - by injection Hvenv as <- _ _.
  - apply bind_inv_Ok in Hvenv as (v & s5 & He & [= -> _ _]).
    revert He. unfold ensure_venv, mbind, M_bind, gets, select_python_io,
      try_except, subprocess_run, when, logging, modify, mret, M_ret.
    intros He. repeat case_match; simplify_eq/=; done.
Qed.

(** With the virtual environment in place, the first part of [activate]
    returns its interpreter and changes nothing. *)
Lemma venv_phase_existing s :
  path_exists s venv_python = true →
  venv_phase h playbook_path s = (Ok (Some venv_python), s).
Proof.
  intros Hex. unfold venv_phase, _venv_python, mbind, M_bind, gets, mret, M_ret.
  fold venv_python. by rewrite Hex.
Qed.


Lemma activation_values_storable venv loaded :
  Py.strip playbook_path = playbook_path → single_line playbook_path = true →
  (∀ p, venv = Some p → p = venv_python) →
  all_storable loaded →
  all_storable (activation_values playbook_path venv loaded).
Proof.
  intros Hs Hl Hvenv Hloaded. unfold activation_values, dict_update.
  assert (all_storable (build_activation_env playbook_path ∪ loaded)) as Hu.
  { apply map_Forall_union_2; [by apply build_activation_env_storable|done]. }
  destruct venv as [p|]; [|done].
  apply map_Forall_insert_2; [|done].
  rewrite (Hvenv p eq_refl). by apply venv_python_plain.
Qed.

Lemma activation_values_idemp venv loaded :
  activation_values playbook_path venv (activation_values playbook_path venv loaded)
  = activation_values playbook_path venv loaded.
Proof.
  unfold activation_values, dict_update.
  set (B := build_activation_env playbook_path).
  assert (B !! "VENV_PYTHON" = None) as HB by by vm_compute.
  destruct venv as [p|].
  - rewrite <- insert_union_r by done.
    by rewrite insert_insert_eq, (assoc_L (∪)), (idemp_L (∪)).
  - by rewrite (assoc_L (∪)), (idemp_L (∪)).
Qed.

End activation_again.

(** X10: when the virtual environment is in place and the project path
    is trimmed and on one line, a completed [activate] leaves a state
    that a second [activate] does not change: the settings file it wrote
    loads back as the map it was written from, and activation adds
    nothing new to that map. *)
Theorem activate_idempotent (h : host) (args : Args.t) (s : state)
    (c : Z) (s1 : state) :
  Py.strip (Args.playbook_path args) = Args.playbook_path args →
  single_line (Args.playbook_path args) = true →
  path_exists s (Args.playbook_path args </> ".venv" </> "bin" </> "python") = true →
  activate h args s = (Ok c, s1) →
  activate h args s1 = (Ok c, s1).
Proof.
  intros Hs Hl Hex H. rewrite activate_unfold in H.
  rewrite (venv_phase_existing h args s Hex) in H.
  set (venv_python := Args.playbook_path args </> ".venv" </> "bin" </> "python") in *.
  set (W := activation_values (Args.playbook_path args) (Some venv_python)
              (load_env_file (fs s) (Args.env_file args))) in *.
  assert (c = RETURN_SUCCESS
          ∧ s1 = set_fs <[Args.env_file args := File (env_text W)]> s) as [-> ->]
    by (by repeat case_match; simplify_eq).
  clear H.
  assert (path_exists (set_fs <[Args.env_file args := File (env_text W)]> s)
            venv_python = true) as Hex1.
  { unfold path_exists in *. simpl. apply bool_decide_eq_true.
    apply bool_decide_eq_true in Hex.
    destruct (decide (Args.env_file args = venv_python)) as [->|Hne].
    - rewrite lookup_insert_eq. eauto.
    - by rewrite lookup_insert_ne. }
  rewrite activate_unfold, (venv_phase_existing h args _ Hex1). simpl.
  rewrite lookup_insert_eq.
  assert (load_env_file (<[Args.env_file args := File (env_text W)]> (fs s))
            (Args.env_file args) = W) as ->.
  { apply (load_write_storable (fs s) (Args.env_file args) W).
    apply activation_values_storable; try done.
    - by intros p [= <-].
    - apply load_env_file_storable. }
  assert (activation_values (Args.playbook_path args) (Some venv_python) W = W)
    as HWW by (unfold W; apply activation_values_idemp).
  unfold activation_values, venv_python in HWW. rewrite HWW.
  f_equal. unfold set_fs. simpl. by rewrite insert_insert_eq.
Qed.

(** X10 on the example project with an environment in place. *)
Lemma activate_idempotent_witness :
  activate example_host example_args
    (activate example_host example_args custom_key_state).2
  = (Ok 0%Z, (activate example_host example_args custom_key_state).2).
Proof.
  apply (activate_idempotent example_host example_args custom_key_state);
    by vm_compute.
Defined.

(** X11: the settings file a completed [activate] wrote loads back as
    the map it was written from, when the project path is trimmed and on
    one line; so it holds the default engine, container name and port
    whatever it held before, and a run that follows resolves each of the
    three to its command-line value when that is not empty and to the
    default otherwise; the port it then converts is a number. *)
Theorem activate_resets_container_settings (h : host) (args : Args.t) (s : state)
    (c : Z) (s1 : state) :
  Py.strip (Args.playbook_path args) = Args.playbook_path args →
  single_line (Args.playbook_path args) = true →
  activate h args s = (Ok c, s1) →
  let settings := load_env_file (fs s1) (Args.env_file args) in
  (∃ venv s0,
     venv_phase h (Args.playbook_path args) s = (Ok venv, s0)
     ∧ settings
       = activation_values (Args.playbook_path args) venv
           (load_env_file (fs s0) (Args.env_file args)))
  ∧ settings !! "CONTAINER_RUNTIME" = Some "podman"
  ∧ settings !! "CONTAINER_NAME" = Some "ansible_target"
  ∧ settings !! "CONTAINER_HOST_PORT" = Some "2222"
  ∧ settings !! "PLAYBOOK_PATH" = Some (Args.playbook_path args)
  ∧ (∀ args' resolved s2,
       Args.env_file args' = Args.env_file args →
       resolve_settings args' s1 = (Ok resolved, s2) →
       resolved
       = (Py.or_else (Args.container_runtime args') "podman",
          Py.or_else (Args.container_name args') "ansible_target",
          Py.or_else (Args.container_host_port args') "2222"))
  ∧ Py.int "2222" = Some DEFAULT_HOST_PORT.
Proof.
  intros Hs Hl H. cbv zeta. rewrite activate_unfold in H.
  destruct (venv_phase h (Args.playbook_path args) s) as [[venv|e] s0] eqn:Hphase;
    [|done].
  set (W := activation_values (Args.playbook_path args) venv
              (load_env_file (fs s0) (Args.env_file args))) in *.
  assert (s1 = set_fs <[Args.env_file args := File (env_text W)]> s0) as ->
    by (by repeat case_match; simplify_eq).
  clear H. simpl.
  assert (load_env_file (<[Args.env_file args := File (env_text W)]> (fs s0))
            (Args.env_file args) = W) as HW.
  { apply (load_write_storable (fs s0) (Args.env_file args) W).
    apply activation_values_storable; try done.
    - intros p ->. by eapply venv_phase_path.
    - apply load_env_file_storable. }
  rewrite HW.
  assert (W !! "CONTAINER_RUNTIME" = Some "podman") as H1
    by (by apply activation_values_supplied; vm_compute).
  assert (W !! "CONTAINER_NAME" = Some "ansible_target") as H2
    by (by apply activation_values_supplied; vm_compute).
  assert (W !! "CONTAINER_HOST_PORT" = Some "2222") as H3
    by (by apply activation_values_supplied; vm_compute).
  split; [by exists venv, s0|]. split; [done|]. split; [done|]. split; [done|].
  split; [by apply activation_values_supplied; vm_compute|]. split; [|done].
  intros args' resolved s2 Henv. rewrite resolve_settings_unfold. simpl.
  rewrite Henv, lookup_insert_eq. cbv zeta. simpl. rewrite HW, H1, H2, H3.
  intros [= <- _]. unfold resolve, Py.por, Py.or_else.
  by destruct (Args.container_runtime args') as [[|? ?]|],
    (Args.container_name args') as [[|? ?]|],
    (Args.container_host_port args') as [[|? ?]|].
Qed.

(** X11 on a settings file that named docker before activation. *)
Lemma activate_resets_container_settings_witness :
  load_env_file (fs docker_state) "/p/.env" !! "CONTAINER_RUNTIME" = Some "docker"
  ∧ (resolve_settings example_args
       (activate example_host example_args docker_state).2).1
    = Ok ("podman", "ansible_target", "2222").
Proof.
  split; [by vm_compute|].
  destruct (activate_resets_container_settings example_host example_args
              docker_state _ _ eq_refl eq_refl (surjective_pairing _))
    as (_ & _ & _ & _ & _ & H & _).
  destruct (resolve_settings example_args
              (activate example_host example_args docker_state).2)
    as [[resolved|e] s2] eqn:E; [|by vm_compute in E].
  simpl. f_equal. exact (H example_args resolved s2 eq_refl E).
Defined.


(** ** The vault password file and the roles *)

(** X13: when [setup_vault] completes for the default file name, the
    path it returns is the one [activate] persists as
    [ANSIBLE_VAULT_PASSWORD_FILE] for the same project, and something
    exists there; a regular file that was there is left as it was, a
    missing one is created with the demonstration password and a
    newline, nothing else changes, and a second call changes nothing. *)
Theorem setup_vault_creates_once (playbook_path : string) (s : state)
    (target : string) (s' : state) :
  setup_vault playbook_path DEFAULT_VAULT_PASSWORD_FILE s = (Ok target, s') →
  build_activation_env playbook_path !! "ANSIBLE_VAULT_PASSWORD_FILE" = Some target
  ∧ path_exists s' target = true
  ∧ (∀ content, fs s !! target = Some (File content) → s' = s)
  ∧ (fs s !! target = None →
     s' = set_fs <[target := File ("password" +:+ NL)]> s)
  ∧ setup_vault playbook_path DEFAULT_VAULT_PASSWORD_FILE s' = (Ok target, s').
Proof.
  unfold setup_vault, mbind, M_bind, gets, when, write_bytes, path_exists.
  set (t := playbook_path </> DEFAULT_VAULT_PASSWORD_FILE).
  assert (build_activation_env playbook_path !! "ANSIBLE_VAULT_PASSWORD_FILE"
          = Some t) as Hb by by vm_compute.
  destruct (fs s !! t) as [n|] eqn:E.
  - rewrite bool_decide_eq_true_2 by eauto. simpl. intros [= <- <-].
    split; [done|]. rewrite E.
    split; [by rewrite bool_decide_eq_true_2 by eauto|].
    split; [done|]. split; [done|].
    by rewrite bool_decide_eq_true_2 by eauto.
  - rewrite bool_decide_eq_false_2 by (by intros [? ?]). simpl. rewrite E.
    intros [= <- <-]. split; [done|]. simpl. rewrite lookup_insert_eq.
    split; [by rewrite bool_decide_eq_true_2 by eauto|].
    split; [intros; congruence|]. split; [done|].
    by rewrite bool_decide_eq_true_2 by eauto.
Qed.

(** X13 on a project without a vault password file. *)
Lemma setup_vault_creates_once_witness :
  fs (setup_vault "/p" DEFAULT_VAULT_PASSWORD_FILE example_state).2
    !! "/p/vault-pw.txt"
  = Some (File ("password" +:+ NL))
  ∧ build_activation_env "/p" !! "ANSIBLE_VAULT_PASSWORD_FILE"
    = Some "/p/vault-pw.txt".
Proof.
  destruct (setup_vault_creates_once "/p" example_state "/p/vault-pw.txt" _
              (surjective_pairing _)) as (Hb & _ & _ & Hnew & _).
  split; [|done]. rewrite Hnew by done. by vm_compute.
Defined.

Section roles.
Context (playbook_path : string).
Let roles_dir := playbook_path </> "roles".
Let link_path := roles_dir </> "ans_dev_sandbox_role".

Lemma strip_prefix_app p rest : strip_prefix p (p +:+ rest) = Some rest.
Proof.
  induction p as [|c p IH]; [by destruct rest|].
  rewrite str_app_cons. simpl. by rewrite Ascii.eqb_refl.
Qed.

Lemma link_path_is_child : is_child roles_dir link_path = true.
Proof.
  unfold is_child, link_path, pjoin at 1. simpl.
  by rewrite <- str_app_assoc, strip_prefix_app.
Qed.

Lemma link_path_ne : link_path ≠ roles_dir.
Proof. by apply pjoin_relative_ne. Qed.

(** A directory or link among the entries of the roles directory makes
    [role_entries] not empty. *)
Lemma role_entries_elem s p n :
  fs s !! p = Some n → is_child roles_dir p = true → is_dir_or_symlink n = true →
  role_entries s roles_dir ≠ [].
Proof.
  intros Hp Hc Hn Hnil. unfold role_entries in Hnil.
  apply fmap_nil_inv in Hnil.
  assert ((p, n) ∈ filter (λ pn, is_child roles_dir pn.1 && is_dir_or_symlink pn.2
                                  = true) (map_to_list (fs s))) as Hin.
  { apply list_elem_of_filter. split; [simpl; by rewrite Hc, Hn|].
    by apply elem_of_map_to_list. }
  rewrite Hnil in Hin. by apply elem_of_nil in Hin.
Qed.

End roles.

(** X14: with a roles directory that holds a requirements file but no
    role, and a sibling role next to the project, [setup_roles] spawns
    nothing, whatever runner it is given: all it changes is that the
    entry [ans_dev_sandbox_role] of the roles directory becomes a link
    to [../../ans_dev_sandbox_role]; and a second call finds that role
    and changes nothing. *)
Theorem setup_roles_links_sibling (playbook_path : string) (runner : runner_t)
    (s : state) (mode : Z) :
  let roles_dir := playbook_path </> "roles" in
  let link_path := roles_dir </> "ans_dev_sandbox_role" in
  fs s !! roles_dir = Some (Dir mode) →
  role_entries s roles_dir = [] →
  path_exists s (roles_dir </> "requirements.yml") = true →
  path_exists s (parent playbook_path </> "ans_dev_sandbox_role") = true →
  ∃ s',
    setup_roles playbook_path runner s = (Ok (), s')
    ∧ s' = set_fs <[link_path := Link "../../ans_dev_sandbox_role"]> s
    ∧ trace s' = trace s
    ∧ setup_roles playbook_path runner s' = (Ok (), s').
Proof.
  cbv zeta. intros Hdir Hnone Hreq Hsib.
  set (roles_dir := playbook_path </> "roles") in *.
  set (link_path := roles_dir </> "ans_dev_sandbox_role").
  assert (∀ m, fs s !! link_path ≠ Some (Dir m)) as Hnd.
  { intros m Hl. eapply (role_entries_elem playbook_path s link_path); try done.
    apply link_path_is_child. }
  exists (set_fs <[link_path := Link "../../ans_dev_sandbox_role"]> s).
  split; [|split; [done|split; [done|]]].
  - unfold setup_roles, mbind, M_bind, gets, when. fold roles_dir.
    assert (path_exists s roles_dir = true) as ->
      by (unfold path_exists; rewrite Hdir; by apply bool_decide_eq_true_2).
    cbn [negb]. cbv beta iota. rewrite Hdir. cbv beta iota.
    unfold mret, M_ret. cbv beta iota. rewrite Hnone. cbv beta iota. rewrite Hreq.
    cbn [negb]. cbv beta iota. rewrite Hsib. cbv beta iota. fold link_path.
    change ("../.." </> "ans_dev_sandbox_role") with "../../ans_dev_sandbox_role".
    assert (∀ s0 : state, fs s0 !! link_path = None →
              symlink_to link_path "../../ans_dev_sandbox_role" s0
              = (Ok (), set_fs <[link_path := Link "../../ans_dev_sandbox_role"]> s0))
      as Hlink.
    { intros s0 H0. unfold symlink_to, path_exists. rewrite H0.
      by rewrite bool_decide_eq_false_2 by (by intros [? ?]). }
    assert (∀ n, fs s !! link_path = Some n →
              set_fs <[link_path := Link "../../ans_dev_sandbox_role"]>
                (set_fs (delete link_path) s)
              = set_fs <[link_path := Link "../../ans_dev_sandbox_role"]> s) as Hsame.
    { intros n _. unfold set_fs. simpl. by rewrite insert_delete_eq. }
    unfold path_exists, unlink.
    destruct (fs s !! link_path) as [[c|m|t]|] eqn:El.
    + rewrite bool_decide_eq_true_2 by eauto. cbv beta iota.
      rewrite El. cbv beta iota.
      rewrite Hlink by (simpl; apply lookup_delete_eq). by erewrite Hsame.
    + by edestruct Hnd.
    + rewrite bool_decide_eq_true_2 by eauto. cbv beta iota.
      rewrite El. cbv beta iota.
      rewrite Hlink by (simpl; apply lookup_delete_eq). by erewrite Hsame.
    + rewrite bool_decide_eq_false_2 by (by intros [? ?]). cbv beta iota.
      by rewrite Hlink.
  - unfold setup_roles, mbind, M_bind, gets, when. fold roles_dir.
    assert (fs (set_fs <[link_path := Link "../../ans_dev_sandbox_role"]> s)
              !! roles_dir = Some (Dir mode)) as Hdir'.
    { simpl. rewrite lookup_insert_ne; [done|]. apply link_path_ne. }
    assert (path_exists (set_fs <[link_path := Link "../../ans_dev_sandbox_role"]> s)
              roles_dir = true) as ->
      by (unfold path_exists; rewrite Hdir'; by apply bool_decide_eq_true_2).
    cbn [negb]. cbv beta iota. rewrite Hdir'. cbv beta iota.
    unfold mret, M_ret. cbv beta iota.
    destruct (role_entries
                (set_fs <[link_path := Link "../../ans_dev_sandbox_role"]> s)
                roles_dir) as [|e es] eqn:Hent; [|done].
    exfalso.
    apply (role_entries_elem playbook_path
             (set_fs <[link_path := Link "../../ans_dev_sandbox_role"]> s)
             link_path (Link "../../ans_dev_sandbox_role"));
      [simpl; apply lookup_insert_eq|apply link_path_is_child|done|exact Hent].
Qed.

(** X14 on the project of the unit test. *)
Lemma setup_roles_links_sibling_witness :
  ∃ s',
    setup_roles "/w/ans_dev_sandbox_playbook" example_keygen sibling_role_state
    = (Ok (), s')
    ∧ fs s' !! "/w/ans_dev_sandbox_playbook/roles/ans_dev_sandbox_role"
      = Some (Link "../../ans_dev_sandbox_role")
    ∧ trace s' = [].
Proof.
  destruct (setup_roles_links_sibling "/w/ans_dev_sandbox_playbook" example_keygen
              sibling_role_state 493)
    as (s' & H & Hs' & Ht & _);
    [by vm_compute|by vm_compute|by vm_compute|by vm_compute|].
  exists s'. split; [exact H|]. split; [|exact Ht].
  rewrite Hs'. by vm_compute.
Defined.
(** X15: [setup_roles] changes nothing and spawns nothing when the
    project has no roles directory, when that directory holds a role (a
    directory or a link), or when it holds no requirements file.  The
    only command it ever spawns is the installation of the roles of the
    requirements file into the roles directory, and it spawns it only
    when there is no role, a requirements file and no sibling role; the
    call then completes exactly when the installation exited with
    status 0. *)
Theorem setup_roles_installs_as_last_resort (h : host) (playbook_path : string)
    (s : state) (r : result unit) (s' : state) :
  setup_roles playbook_path (_run_subprocess h) s = (r, s') →
  let roles_dir := playbook_path </> "roles" in
  let requirements := roles_dir </> "requirements.yml" in
  let sibling_role := parent playbook_path </> "ans_dev_sandbox_role" in
  (path_exists s roles_dir = false → r = Ok () ∧ s' = s)
  ∧ (role_entries s roles_dir ≠ [] → s' = s)
  ∧ (path_exists s requirements = false → s' = s)
  ∧ (trace s' = trace s
     ∨ ∃ st,
         trace s' = trace s
                    ++ [Event (Command ["ansible-galaxy"; "install"; "--role-file";
                                        requirements; "--roles-path"; roles_dir]
                                 false None) st]
         ∧ role_entries s roles_dir = []
         ∧ path_exists s requirements = true
         ∧ path_exists s sibling_role = false
         ∧ (r = Ok () ↔ st = Some 0%Z)).
Proof.
  cbv zeta.
  assert (∀ link target (s0 : state) r0 s0',
            (let (r, s') :=
               (if path_exists s0 link then unlink link
                else λ s1 : state, (Ok (), s1)) s0 in
             match r with
             | Ok _ => symlink_to link target s'
             | Raise e => (Raise e, s')
             end) = (r0, s0') → trace s0' = trace s0) as Hlink.
  { intros link target s0 r0 s0'. unfold path_exists, unlink, symlink_to, path_exists.
    destruct (fs s0 !! link) as [[c|m|t]|] eqn:El;
      rewrite ?bool_decide_eq_true_2 by eauto;
      rewrite ?bool_decide_eq_false_2 by (by intros [? ?]);
      cbv beta iota; rewrite ?El; cbv beta iota; simpl fs;
      rewrite ?lookup_delete_eq, ?El;
      rewrite ?bool_decide_eq_false_2 by (by intros [? ?]);
      by intros [= <- <-]. }
  unfold setup_roles, mbind, M_bind, gets, when.
  destruct (path_exists s (playbook_path </> "roles")) eqn:Hex;
    cbn [negb]; cbv beta iota.
  2:{ intros [= <- <-]. repeat split; try done. by left. }
  destruct (fs s !! (playbook_path </> "roles")) as [[c|m|t]|] eqn:Hdir;
    cbv beta iota; unfold raise, mret, M_ret; cbv beta iota.
  1:{ intros [= <- <-]. repeat split; try done. by left. }
  all: destruct (role_entries s (playbook_path </> "roles")) as [|e es] eqn:Hent;
    cbv beta iota.
  all: try (intros [= <- <-]; repeat split; try done; by left).
  all: destruct (path_exists s (playbook_path </> "roles" </> "requirements.yml"))
    eqn:Hreq; cbn [negb]; cbv beta iota.
  all: try (intros [= <- <-]; repeat split; try done; by left).
  all: destruct (path_exists s (parent playbook_path </> "ans_dev_sandbox_role"))
    eqn:Hsib; cbv beta iota.
  all: try (intros H%Hlink; split; [done|]; split; [done|]; split; [done|];
            by left).
  all: destruct (_run_subprocess h _ false None s) as [r1 s1] eqn:Hrun;
    apply run_subprocess_event in Hrun as (_ & _ & st & Ht & Hst).
  all: destruct r1 as [[]|e1]; intros [= <- <-];
    (split; [done|]); (split; [done|]); (split; [done|]); right; exists st;
    (split; [done|]); (split; [done|]); (split; [done|]); (split; [done|]);
    [done|destruct Hst as [Hst _]; split; intros; congruence].
Qed.

(** X15 on a project whose roles directory holds a role: nothing is
    spawned and nothing changes. *)
Lemma setup_roles_installs_as_last_resort_witness :
  setup_roles "/p" (_run_subprocess example_host)
    (State {[ "/p/roles" := Dir 493; "/p/roles/web" := Dir 493;
              "/p/roles/requirements.yml" := File "---" ]} ∅ [] [] false)
  = (Ok (), State {[ "/p/roles" := Dir 493; "/p/roles/web" := Dir 493;
                     "/p/roles/requirements.yml" := File "---" ]} ∅ [] [] false).
Proof.
  destruct (setup_roles "/p" (_run_subprocess example_host)
              (State {[ "/p/roles" := Dir 493; "/p/roles/web" := Dir 493;
                        "/p/roles/requirements.yml" := File "---" ]} ∅ [] [] false))
    as [r s'] eqn:E.
  destruct (setup_roles_installs_as_last_resort _ _ _ _ _ E) as (_ & H & _).
  rewrite H in * by (by vm_compute). clear H.
  vm_compute in E. by injection E as <-.
Defined.
(** ** Collections and the playbook *)

Section collections.
Context (h : host) (rc : Z) (out : string).
Let listing := Command ["ansible-galaxy"; "collection"; "list"] true None.
Let install := λ name : string,
  Command ["ansible-galaxy"; "collection"; "install"; name] false None.
Let missing := λ name : string, negb ((rc =? 0)%Z && Py.str_in name out).
Context (Hlisting : ∀ s0, spawn h s0 listing = Exited rc out (fs s0)).

(** The check of one collection: one listing, and the collection counts
    as installed when the listing exited with status 0 and names it. *)
Lemma has_collection_listing name s :
  _has_collection (_run_subprocess h) name s
  = (Ok (negb (missing name)),
     set_trace (λ t, t ++ [Event listing (Some rc)]) s).
Proof.
  unfold _has_collection, try_except, _run_subprocess, subprocess_run, mbind, M_bind.
  fold listing. rewrite Hlisting. unfold missing. cbn [andb].
  assert (set_fs (λ _, fs s) s = s) as -> by by destruct s.
  destruct (rc =? 0)%Z; cbn [negb andb]; cbv beta iota; [|done].
  by rewrite negb_involutive.
Qed.

(** The installation of one collection when it is missing. *)
Lemma install_when_missing name s r s' :
  when (missing name)
    (_run_subprocess h ["ansible-galaxy"; "collection"; "install"; name] false None;;
     mret ()) s = (r, s') →
  ∃ evs, trace s' = trace s ++ evs
    ∧ match r with
      | Ok _ =>
          evs = (if missing name then [Event (install name) (Some 0%Z)] else [])
      | Raise _ =>
          ∃ st, evs = [Event (install name) st] ∧ st ≠ Some 0%Z
                ∧ missing name = true
      end.
Proof.
  unfold when. destruct (missing name).
  - intros H. apply bind_ret_inv in H. destruct r as [[]|e].
    + destruct H as (_ & c & H).
      apply run_subprocess_event in H as (_ & _ & st & Ht & ->). by eexists.
    + apply run_subprocess_event in H as (_ & _ & st & Ht & Hst & _).
      eexists. split; [done|]. by exists st.
  - intros [= <- <-]. exists []. by rewrite app_nil_r.
Qed.

End collections.

(** X16: on a host where the listing of the collections always exits
    with the same status and output and changes no file,
    [setup_collections] lists once for each of the two collections and
    installs exactly those that are missing, ansible.posix before
    community.general; a collection counts as missing when the listing
    failed or its output does not contain the name.  The call raises
    only when an installation it attempted did not exit with status 0,
    and then spawns nothing more. *)
Theorem setup_collections_installs_missing (h : host) (rc : Z) (out : string)
    (s : state) (r : result unit) (s' : state) :
  let listing := Command ["ansible-galaxy"; "collection"; "list"] true None in
  let install := λ name : string,
    Command ["ansible-galaxy"; "collection"; "install"; name] false None in
  let missing := λ name : string, negb ((rc =? 0)%Z && Py.str_in name out) in
  (∀ s0, spawn h s0 listing = Exited rc out (fs s0)) →
  setup_collections (_run_subprocess h) s = (r, s') →
  ∃ evs, trace s' = trace s ++ evs
    ∧ (r = Ok () →
       evs
       = [Event listing (Some rc)]
         ++ (if missing "ansible.posix"
             then [Event (install "ansible.posix") (Some 0%Z)] else [])
         ++ [Event listing (Some rc)]
         ++ (if missing "community.general"
             then [Event (install "community.general") (Some 0%Z)] else []))
    ∧ (∀ e, r = Raise e →
       ∃ pre name st,
         evs = pre ++ [Event (install name) st]
         ∧ st ≠ Some 0%Z ∧ missing name = true).
Proof.
  cbv zeta. intros Hlisting. unfold setup_collections.
  intros [(has1 & s1 & H1 & H)|(e & H1 & ->)]%bind_inv;
    rewrite (has_collection_listing h rc out Hlisting) in H1; [|done].
  injection H1 as <- <-. rewrite negb_involutive in H.
  apply bind_inv in H as [([] & s2 & H2 & H)|(e & H2 & ->)];
    apply (install_when_missing h rc out) in H2 as (evs2 & Ht2 & Hev2).
  2:{ destruct Hev2 as (st & -> & Hst & Hm). eexists.
      split; [rewrite Ht2; simpl; by rewrite <- (assoc_L (++))|].
      split; [done|]. intros e' _.
      by eexists [Event _ (Some rc)], "ansible.posix", st. }
  apply bind_inv in H as [(has2 & s3 & H3 & H)|(e & H3 & ->)];
    rewrite (has_collection_listing h rc out Hlisting) in H3; [|done].
  injection H3 as <- <-. rewrite negb_involutive in H.
  apply (install_when_missing h rc out) in H as (evs4 & Ht4 & Hev4).
  simpl in Ht4. rewrite Ht2 in Ht4. simpl in Ht4.
  eexists. split; [rewrite Ht4; by rewrite <- !(assoc_L (++))|].
  destruct r as [[]|e].
  - split; [|done]. intros _. by rewrite Hev2, Hev4.
  - split; [done|]. intros e' _. destruct Hev4 as (st & -> & Hst & Hm).
    eexists _, "community.general", st. split; [|done].
    by rewrite !(assoc_L (++)).
Qed.

(** X16 on the runner of the unit test: an empty listing, so both
    collections are installed. *)
Lemma setup_collections_installs_missing_witness :
  (argv ∘ ev_cmd)
  <$> trace (setup_collections (_run_subprocess example_host) example_state).2
  = [ ["ansible-galaxy"; "collection"; "list"];
      ["ansible-galaxy"; "collection"; "install"; "ansible.posix"];
      ["ansible-galaxy"; "collection"; "list"];
      ["ansible-galaxy"; "collection"; "install"; "community.general"] ].
Proof.
  destruct (setup_collections_installs_missing example_host 0 "" example_state
              _ _ (λ _, eq_refl) (surjective_pairing _)) as (evs & Ht & Hok & _).
  rewrite Ht, Hok; by vm_compute.
Defined.

(** X17: [run_playbook] spawns one command, [ansible-playbook] with the
    inventory and the playbook, and [-l] with the limit when the limit
    is not empty.  The environment of that command holds every extra
    variable with its extra value, and every other variable of the
    process environment with the value it has there; the process
    environment itself is left as it was.  The call completes exactly
    when the command exited with status 0. *)
Theorem run_playbook_environment (h : host) (inventory playbook : string)
    (extra_env : gmap string string) (limit : option string) (s : state)
    (r : result unit) (s' : state) :
  run_playbook inventory playbook extra_env limit (_run_subprocess h) s = (r, s') →
  ∃ env st,
    trace s' = trace s
               ++ [Event (Command (playbook_args inventory playbook limit) false
                            (Some env)) st]
    ∧ (∀ k v, extra_env !! k = Some v → env !! k = Some v)
    ∧ (∀ k, extra_env !! k = None → env !! k = environ s !! k)
    ∧ environ s' = environ s
    ∧ (r = Ok () ↔ st = Some 0%Z)
    ∧ (limit = None ∨ limit = Some "" →
       playbook_args inventory playbook limit
       = ["ansible-playbook"; "--inventory"; inventory; playbook]).
Proof.
  unfold run_playbook, mbind, M_bind, gets. intros H.
  exists (dict_update (environ s) extra_env).
  destruct (_run_subprocess h _ false _ s) as [r1 s1] eqn:Hrun.
  assert (environ s1 = environ s) as Henv.
  { revert Hrun. unfold _run_subprocess, subprocess_run.
    repeat case_match; by intros [= <- <-]. }
  apply run_subprocess_event in Hrun as (_ & _ & st & Ht & Hst).
  exists st. unfold dict_update.
  assert (s' = s1 ∧ (r = Ok () ↔ st = Some 0%Z)) as [-> Hr].
  { destruct r1 as [c|e]; injection H as <- <-; (split; [done|]); [done|].
    destruct Hst as [Hst _]. split; intros; congruence. }
  split; [done|]. split; [intros k v Hk; by apply lookup_union_Some_l|].
  split; [intros k Hk; by apply lookup_union_r|]. split; [done|]. split; [done|].
  by intros [-> | ->].
Qed.

(** X17 on a process environment that holds another vault password
    file: the extra variable wins. *)
Lemma run_playbook_environment_witness :
  ∃ env st,
    trace (run_playbook "/p/inventory/main.yml" "/p/playbooks/sample_playbook.yml"
             {[ "ANSIBLE_VAULT_PASSWORD_FILE" := "/p/vault-pw.txt" ]} None
             (_run_subprocess example_host)
             (State ∅ {[ "ANSIBLE_VAULT_PASSWORD_FILE" := "/old"; "HOME" := "/root" ]}
                [] [] false)).2
    = [Event (Command ["ansible-playbook"; "--inventory"; "/p/inventory/main.yml";
                       "/p/playbooks/sample_playbook.yml"] false (Some env)) st]
    ∧ env !! "ANSIBLE_VAULT_PASSWORD_FILE" = Some "/p/vault-pw.txt"
    ∧ env !! "HOME" = Some "/root".
Proof.
  destruct (run_playbook_environment example_host "/p/inventory/main.yml"
              "/p/playbooks/sample_playbook.yml"
              {[ "ANSIBLE_VAULT_PASSWORD_FILE" := "/p/vault-pw.txt" ]} None
              (State ∅ {[ "ANSIBLE_VAULT_PASSWORD_FILE" := "/old"; "HOME" := "/root" ]}
                 [] [] false) _ _ (surjective_pairing _))
    as (env & st & Ht & Hin & Hout & _).
  exists env, st. split; [exact Ht|]. split.
  - apply Hin. by vm_compute.
  - rewrite Hout; by vm_compute.
Defined.
(** ** The checks of [run] before it spawns anything *)

Section prechecks.
Context (h : host) (args : Args.t).

(** [run] after the resolution of the settings of a readable file. *)
Lemma run_resolution s :
  readable s (Args.env_file args) →
  let settings := load_env_file (fs s) (Args.env_file args) in
  run h args s
  = run_resolved h args
      (resolve (Args.container_runtime args) (settings !! "CONTAINER_RUNTIME")
         DEFAULT_CONTAINER_RUNTIME)
      (resolve (Args.container_name args) (settings !! "CONTAINER_NAME")
         DEFAULT_CONTAINER_NAME)
      (resolve (Args.container_host_port args) (settings !! "CONTAINER_HOST_PORT")
         (pretty DEFAULT_HOST_PORT))
      (set_log (λ rs, rs ++ override_warnings args settings)
         (set_environ (λ e, dict_update e settings) s)).
Proof.
  intros Hread. cbv zeta. unfold run, mbind, M_bind.
  rewrite resolve_settings_unfold. unfold readable in Hread.
  destruct (fs s !! Args.env_file args) as [[| |]|]; done.
Qed.

(** When the port is a number, an engine is found and ansible is on the
    path, [run] returns 0 if it returns. *)
Lemma run_resolved_past_checks preference container_name port_str s c s' :
  is_Some (Py.int port_str) →
  is_Some (detect_container_runtime (which h) (Some preference)).1 →
  Py.truthy (which h "ansible") = true →
  run_resolved h args preference container_name port_str s = (Ok c, s') →
  c = RETURN_SUCCESS.
Proof.
  intros [port Hport] [runtime Hrt] Hans. unfold run_resolved. rewrite Hport.
  intros ([rt vol] & s1 & Hd & H)%bind_inv_Ok.
  unfold detect_container_runtime_io in Hd.
  apply bind_inv_Ok in Hd as ([] & s0 & _ & [= Hd _]).
  rewrite Hd in Hrt. simpl in Hrt. subst rt.
  apply bind_inv_Ok in H as (ansible & s2 & Ha & H).
  unfold detect_ansible in Ha. rewrite Hans in Ha. injection Ha as <- <-.
  cbn [negb] in H. cbv iota in H.
  apply bind_inv_Ok in H as (x1 & s3 & _ & H). destruct x1 as [key_path auth_keys].
  apply bind_inv_Ok in H as (vault_path & s4 & _ & H).
  apply bind_inv_Ok in H as ([] & s5 & _ & H).
  by apply bind_inv_Ok in H as ([] & s6 & _ & [= <- _]).
Qed.

End prechecks.

(** X18: once the settings are resolved, [run] checks the resolved
    port, then the container engine, then ansible, and each failed
    check ends the run before anything is spawned and with the file
    system as it was: a port that [int] does not convert gives status 4
    and one error record with the value; no engine found for the
    resolved preference gives status 4 as well, with a warning and an
    error record; ansible missing from the path gives status 2.  When
    all three checks pass, the only status [run] returns is 0. *)
Theorem run_prechecks (h : host) (args : Args.t) (s : state)
    (preference container_name port_str : string) (s0 : state) :
  resolve_settings args s = (Ok (preference, container_name, port_str), s0) →
  let found := (detect_container_runtime (which h) (Some preference)).1 in
  let ends_with := λ (status : Z) (records : list log_record),
    ∃ s', run h args s = (Ok status, s')
      ∧ fs s' = fs s0 ∧ trace s' = trace s0 ∧ log s' = log s0 ++ records in
  (Py.int port_str = None →
   ends_with RETURN_NO_RUNTIME
     [LogRecord ERROR "Invalid CONTAINER_HOST_PORT value: %s" [LStr port_str]])
  ∧ (is_Some (Py.int port_str) → found = None →
     ends_with RETURN_NO_RUNTIME
       [LogRecord WARNING "No container runtime found" [];
        LogRecord ERROR "Neither podman nor docker found; cannot continue" []])
  ∧ (is_Some (Py.int port_str) → is_Some found →
     Py.truthy (which h "ansible") = false →
     ends_with RETURN_MISSING_DEPENDENCY
       [LogRecord ERROR "'ansible' was not found in PATH" []])
  ∧ (is_Some (Py.int port_str) → is_Some found →
     Py.truthy (which h "ansible") = true →
     ∀ c s', run h args s = (Ok c, s') → c = RETURN_SUCCESS).
Proof.
  intros Hres. cbv zeta.
  assert (run h args s = run_resolved h args preference container_name port_str s0)
    as -> by (unfold run, mbind, M_bind; by rewrite Hres).
  split; [|split; [|split]].
  - intros Hport. unfold run_resolved. rewrite Hport.
    eexists. split; [reflexivity|]. done.
  - intros [port Hport] Hfound. unfold run_resolved. rewrite Hport.
    unfold detect_container_runtime_io, mbind, M_bind.
    destruct (detect_container_runtime (which h) (Some preference)) as [rt vol].
    simpl in Hfound. subst rt. simpl.
    eexists. split; [reflexivity|]. simpl. by rewrite <- !(assoc_L (++)).
  - intros [port Hport] [runtime Hfound] Hans. unfold run_resolved. rewrite Hport.
    unfold detect_container_runtime_io, detect_ansible, mbind, M_bind.
    destruct (detect_container_runtime (which h) (Some preference)) as [rt vol].
    simpl in Hfound. subst rt. rewrite Hans. simpl.
    eexists. split; [reflexivity|]. done.
  - intros Hport Hfound Hans c s'. by apply run_resolved_past_checks.
Qed.

(** X18 on a settings file whose port is not a number. *)
Lemma run_prechecks_witness :
  ∃ s', run example_host example_args bad_port_state = (Ok 4%Z, s')
    ∧ trace s' = []
    ∧ log s' = [LogRecord ERROR "Invalid CONTAINER_HOST_PORT value: %s" [LStr "ssh"]].
Proof.
  destruct (proj1 (run_prechecks example_host example_args bad_port_state
                     "podman" "ansible_target" "ssh"
                     (resolve_settings example_args bad_port_state).2
                     ltac:(by vm_compute)))
    as (s' & H & _ & Ht & Hl); [by vm_compute|].
  exists s'. split; [exact H|]. split; [rewrite Ht; by vm_compute|].
  rewrite Hl. by vm_compute.
Defined.


(** ** The settings in the commands of the container *)

Section spawns.
Context (P : event → Prop).

Lemma tame_spawns {A} (m : M A) : tame P m → spawns P m.
Proof. intros Hm s r s' H. by destruct (Hm _ _ _ H) as [_ ?]. Qed.

Lemma spawns_bind {A B} (m : M A) (f : A → M B) :
  spawns P m → (∀ a, spawns P (f a)) → spawns P (m ≫= f).
Proof.
  intros Hm Hf s r s'. unfold mbind, M_bind.
  destruct (m s) as [[a|e] s1] eqn:E.
  - intros Hfa. destruct (Hm _ _ _ E) as (evs1 & Ht1 & HP1).
    destruct (Hf _ _ _ _ Hfa) as (evs2 & Ht2 & HP2).
    exists (evs1 ++ evs2). rewrite Ht2, Ht1, (assoc_L (++)).
    split; [done|]. by apply Forall_app.
  - intros [= <- <-]. by apply (Hm _ _ _ E).
Qed.

Lemma spawns_flag b : spawns P (modify (set_container_started b)).
Proof. intros s r s' [= <- <-]. exists []. by rewrite app_nil_r. Qed.

Lemma spawns_try_finally {A} (body : M A) final :
  spawns P body → spawns P final → spawns P (try_finally body final).
Proof.
  intros Hb Hf s r s' (rb & s1 & rf & H1 & H2 & _)%try_finally_inv.
  destruct (Hb _ _ _ H1) as (evs1 & Ht1 & HP1).
  destruct (Hf _ _ _ H2) as (evs2 & Ht2 & HP2).
  exists (evs1 ++ evs2). rewrite Ht2, Ht1, (assoc_L (++)).
  split; [done|]. by apply Forall_app.
Qed.

End spawns.

Section life_cycle_settings.
Context (h : host) (args : Args.t).
Context (runtime volume_opt container_name : string) (host_port : Z).
Let playbook_path := Args.playbook_path args.
Let P := life_cycle_ok playbook_path runtime volume_opt container_name host_port.

Lemma life_cycle_keygen key_path : covers P (keygen_args key_path).
Proof. intros capture env st. by repeat split. Qed.

Lemma life_cycle_galaxy_install requirements roles_dir :
  covers P ["ansible-galaxy"; "install"; "--role-file"; requirements;
            "--roles-path"; roles_dir].
Proof. intros capture env st. by repeat split. Qed.

Lemma life_cycle_galaxy_list : covers P ["ansible-galaxy"; "collection"; "list"].
Proof. intros capture env st. by repeat split. Qed.

Lemma life_cycle_galaxy_collection name :
  covers P ["ansible-galaxy"; "collection"; "install"; name].
Proof. intros capture env st. by repeat split. Qed.

Lemma life_cycle_dispatch inventory playbook limit :
  covers P (playbook_args inventory playbook limit).
Proof. intros capture env st. by repeat split. Qed.

Lemma life_cycle_build :
  covers P (build_args runtime container_name playbook_path).
Proof. intros capture env st. by repeat split. Qed.

Lemma life_cycle_stop : covers P (stop_args runtime container_name).
Proof. intros capture env st. by repeat split. Qed.

Lemma life_cycle_start :
  covers P (start_args runtime volume_opt playbook_path container_name host_port
              DEFAULT_SSH_PORT DEFAULT_CONTAINER_IMAGE).
Proof. intros capture env st. by repeat split. Qed.

Lemma setup_container_tame :
  tame P (setup_container runtime volume_opt playbook_path container_name host_port
            DEFAULT_SSH_PORT DEFAULT_CONTAINER_IMAGE (_run_subprocess h)).
Proof.
  unfold setup_container. tame_auto; apply tame_run_subprocess.
  - apply life_cycle_build.
  - apply life_cycle_stop.
  - apply life_cycle_start.
Qed.

Lemma cleanup_tame : tame P (cleanup h runtime container_name).
Proof.
  unfold cleanup. tame_auto. apply tame_run_subprocess, life_cycle_stop.
Qed.

Lemma run_body_spawns key_path vault_path :
  spawns P (run_body h args runtime volume_opt container_name key_path vault_path
              host_port).
Proof.
  unfold run_body. apply spawns_bind; [|intros _].
  { destruct (negb (Args.skip_container args)); [|apply tame_spawns, tame_ret].
    apply spawns_bind; [apply tame_spawns, setup_container_tame|intros _].
    apply spawns_flag. }
  apply spawns_bind;
    [apply tame_spawns, setup_roles_tame, life_cycle_galaxy_install|intros _].
  apply spawns_bind;
    [apply tame_spawns, setup_collections_tame;
       [apply life_cycle_galaxy_list|apply life_cycle_galaxy_collection]|intros _].
  apply tame_spawns, run_playbook_tame, life_cycle_dispatch.
Qed.

(** The steps of [run] after the checks. *)
Lemma run_steps_spawns :
  spawns P
    ('(key_path, auth_keys) ←
       setup_ssh_keys playbook_path DEFAULT_KEY_BASENAME (_run_subprocess h);
     vault_path ← setup_vault playbook_path DEFAULT_VAULT_PASSWORD_FILE;
     modify (set_container_started false);;
     try_finally
       (run_body h args runtime volume_opt container_name key_path vault_path
          host_port)
       (cleanup h runtime container_name);;
     mret RETURN_SUCCESS).
Proof.
  apply spawns_bind;
    [apply tame_spawns, setup_ssh_keys_tame, life_cycle_keygen|intros [k a]].
  apply spawns_bind; [apply tame_spawns, setup_vault_tame|intros v].
  apply spawns_bind; [apply spawns_flag|intros _].
  apply spawns_bind; [|intros _; apply tame_spawns, tame_ret].
  apply spawns_try_finally; [apply run_body_spawns|apply tame_spawns, cleanup_tame].
Qed.

End life_cycle_settings.

Section run_settings.
Context (h : host) (args : Args.t).

Lemma detect_container_runtime_volume which preferred rt vol :
  detect_container_runtime which preferred = (Some rt, vol) →
  vol = Some (volume_option rt) ∧ Py.or_else vol ":ro" = volume_option rt.
Proof.
  unfold detect_container_runtime.
  destruct (first_found which (search_order preferred)) as [r0|]; [|done].
  destruct (Py.nonempty r0); [|done]. intros [= <- <-]. split; [done|].
  unfold volume_option. by destruct (String.eqb r0 "podman").
Qed.

Lemma run_resolved_spawns preference container_name port_str s r s' :
  run_resolved h args preference container_name port_str s = (r, s') →
  ∃ evs, trace s' = trace s ++ evs
    ∧ (evs = []
       ∨ ∃ runtime host_port,
           detect_container_runtime (which h) (Some preference)
           = (Some runtime, Some (volume_option runtime))
           ∧ Py.int port_str = Some host_port
           ∧ Forall (life_cycle_ok (Args.playbook_path args) runtime
                       (volume_option runtime) container_name host_port) evs).
Proof.
  unfold run_resolved.
  destruct (Py.int port_str) as [host_port|].
  2:{ intros [= <- <-]. exists []. rewrite app_nil_r. split; [done|by left]. }
  intros [([rt vol] & s1 & H1 & H)|(e & H1 & ->)]%bind_inv.
  2:{ exists []. rewrite app_nil_r. split; [|by left].
      eapply tame_nil; [apply detect_container_runtime_io_tame|done]. }
  apply (tame_nil _ _ _ _ (detect_container_runtime_io_tame _ _ _)) in H1 as Ht1.
  assert (detect_container_runtime (which h) (Some preference) = (rt, vol)) as Hd.
  { unfold detect_container_runtime_io in H1.
    by apply bind_inv_Ok in H1 as ([] & s0 & _ & [= -> _]). }
  destruct rt as [runtime|].
  2:{ injection H as <- <-. exists []. rewrite app_nil_r. split; [done|by left]. }
  destruct (detect_container_runtime_volume _ _ _ _ Hd) as [-> Hvol].
  rewrite Hvol in H.
  apply bind_inv in H as [(ansible & s2 & H2 & H)|(e & H2 & ->)].
  2:{ exists []. rewrite app_nil_r, <- Ht1. split; [|by left].
      eapply tame_nil; [apply detect_ansible_tame|done]. }
  apply (tame_nil _ _ _ _ (detect_ansible_tame _ _)) in H2 as Ht2.
  destruct ansible; cbn [negb] in H; cbv iota in H.
  2:{ injection H as <- <-. exists []. rewrite app_nil_r.
      split; [congruence|by left]. }
  apply (run_steps_spawns h args runtime (volume_option runtime) container_name
           host_port) in H as (evs & Ht & Hall).
  exists evs. split; [congruence|]. right. by exists runtime, host_port.
Qed.

End run_settings.

(** X20: every image build, container stop and container start that
    [run] spawns is issued for the resolved settings: the engine is the
    one [detect_container_runtime] finds for the resolved preference,
    with its volume option; the container name is the resolved one, in
    the tag of the build, in the stop and as host name and name of the
    start; the published port is the number the resolved port converts
    to; and the image started is always [ansible_target:latest], whatever
    the container name the image was tagged with. *)
Theorem run_container_commands (h : host) (args : Args.t) (s : state)
    (r : result Z) (s' : state) :
  run h args s = (r, s') →
  let settings := load_env_file (fs s) (Args.env_file args) in
  let preference :=
    resolve (Args.container_runtime args) (settings !! "CONTAINER_RUNTIME")
      DEFAULT_CONTAINER_RUNTIME in
  let container_name :=
    resolve (Args.container_name args) (settings !! "CONTAINER_NAME")
      DEFAULT_CONTAINER_NAME in
  let port_str :=
    resolve (Args.container_host_port args) (settings !! "CONTAINER_HOST_PORT")
      (pretty DEFAULT_HOST_PORT) in
  ∃ evs, trace s' = trace s ++ evs
    ∧ (evs = []
       ∨ ∃ runtime host_port,
           detect_container_runtime (which h) (Some preference)
           = (Some runtime, Some (volume_option runtime))
           ∧ Py.int port_str = Some host_port
           ∧ ∀ e, e ∈ evs →
               (is_build e = true →
                argv (ev_cmd e)
                = [runtime; "build"; "--file"; "containerfile"; "--tag";
                   container_name; Args.playbook_path args])
               ∧ (is_stop e = true →
                  argv (ev_cmd e) = [runtime; "container"; "stop"; container_name])
               ∧ (is_start e = true →
                  argv (ev_cmd e)
                  = [runtime; "run"; "--detach"; "--hostname"; container_name;
                     "--name"; container_name; "--publish";
                     pretty host_port +:+ ":" +:+ pretty DEFAULT_SSH_PORT;
                     "--rm"; "--volume";
                     (Args.playbook_path args </> DEFAULT_SSH_DIR) +:+ ":/root/.ssh"
                     +:+ volume_option runtime;
                     "ansible_target:latest"])).
Proof.
  cbv zeta. unfold run.
  intros [([[rp name] port] & s1 & H1 & H)|(e & H1 & ->)]%bind_inv.
  2:{ exists []. rewrite app_nil_r. split; [|by left].
      eapply tame_nil; [apply resolve_settings_tame|done]. }
  apply (tame_nil _ _ _ _ (resolve_settings_tame _ _)) in H1 as Ht1.
  rewrite resolve_settings_unfold in H1.
  assert (rp = resolve (Args.container_runtime args)
                 (load_env_file (fs s) (Args.env_file args) !! "CONTAINER_RUNTIME")
                 DEFAULT_CONTAINER_RUNTIME
          ∧ name = resolve (Args.container_name args)
                     (load_env_file (fs s) (Args.env_file args) !! "CONTAINER_NAME")
                     DEFAULT_CONTAINER_NAME
          ∧ port = resolve (Args.container_host_port args)
                     (load_env_file (fs s) (Args.env_file args)
                        !! "CONTAINER_HOST_PORT")
                     (pretty DEFAULT_HOST_PORT)) as (-> & -> & ->).
  { destruct (fs s !! Args.env_file args) as [[| |]|]; by simplify_eq/=. }
  apply run_resolved_spawns in H as (evs & Ht & Hevs).
  exists evs. split; [congruence|].
  destruct Hevs as [->|(runtime & host_port & Hd & Hp & Hall)]; [by left|].
  right. exists runtime, host_port. split; [done|]. split; [done|].
  intros e He. rewrite Forall_forall in Hall. exact (Hall e He).
Qed.

(** X20 on a run for the container [box] on port 2200: the image is
    tagged [box] and the image started is [ansible_target:latest]. *)
Lemma run_container_commands_witness :
  Forall (λ e,
    (is_build e = true →
     argv (ev_cmd e)
     = ["podman"; "build"; "--file"; "containerfile"; "--tag"; "box"; "/p"])
    ∧ (is_start e = true →
       argv (ev_cmd e)
       = ["podman"; "run"; "--detach"; "--hostname"; "box"; "--name"; "box";
          "--publish"; "2200:22"; "--rm"; "--volume"; "/p/ssh_keys:/root/.ssh:ro,z";
          "ansible_target:latest"]))
    (trace (run example_host box_args example_state).2)
  ∧ existsb is_build (trace (run example_host box_args example_state).2) = true
  ∧ existsb is_start (trace (run example_host box_args example_state).2) = true.
Proof.
  split; [|by vm_compute].
  destruct (run_container_commands example_host box_args example_state _ _
              (surjective_pairing _))
    as (evs & Ht & [->|(runtime & host_port & Hd & Hp & Hall)]).
  - by vm_compute in Ht.
  - simpl in Ht. rewrite Ht.
    vm_compute in Hd. injection Hd as <-.
    vm_compute in Hp. injection Hp as <-.
    apply Forall_forall.
    intros e He. destruct (Hall e He) as (Hb & _ & Hs). split.
    + intros Hbuild. by rewrite (Hb Hbuild).
    + intros Hstart. rewrite (Hs Hstart). by vm_compute.
Defined.
(** ** Set-up and cleanup of the container *)

Lemma run_subprocess_outcome h args capture env s r s' :
  _run_subprocess h args capture env s = (r, s') →
  ∃ st, trace s' = trace s ++ [Event (Command args capture env) st]
    ∧ match st with
      | Some rc =>
          if (rc =? 0)%Z then ∃ c, r = Ok c
          else r = Raise (CalledProcessError rc args)
      | None => ∃ what, r = Raise (OSError what)
      end.
Proof.
  unfold _run_subprocess, subprocess_run.
  destruct (spawn h s _) as [rc out fs'|what]; simpl.
  - destruct (Z.eqb_spec rc 0) as [->|Hrc]; simpl; intros [= <- <-];
      eexists; (split; [done|]); simpl; [eauto|].
    by destruct (Z.eqb_spec rc 0).
  - intros [= <- <-]. eexists. split; [done|]. simpl. eauto.
Qed.

(** X21: [setup_container] spawns the image build, then the stop of a
    container of the same name, then the start, each with the default
    runner.  A build that does not exit with status 0 ends the set-up.
    The exit status of the stop is ignored: only a stop that could not
    be started at all ends the set-up.  After that the start is always
    attempted, and the set-up completes exactly when the start exited
    with status 0. *)
Theorem setup_container_steps (h : host)
    (runtime volume_opt playbook_path container_name : string)
    (host_port ssh_port : Z) (image : string) (s : state)
    (r : result unit) (s' : state) :
  setup_container runtime volume_opt playbook_path container_name host_port
    ssh_port image (_run_subprocess h) s = (r, s') →
  let build := Command (build_args runtime container_name playbook_path) false None in
  let stop := Command (stop_args runtime container_name) false None in
  let start :=
    Command (start_args runtime volume_opt playbook_path container_name host_port
               ssh_port image) false None in
  (∃ st, trace s' = trace s ++ [Event build st]
     ∧ st ≠ Some 0%Z ∧ ∃ e, r = Raise e)
  ∨ (trace s' = trace s ++ [Event build (Some 0%Z); Event stop None]
     ∧ ∃ what, r = Raise (OSError what))
  ∨ (∃ rc st,
       trace s' = trace s ++ [Event build (Some 0%Z); Event stop (Some rc);
                              Event start st]
       ∧ (r = Ok () ↔ st = Some 0%Z)).
Proof.
  cbv zeta. unfold setup_container. fold (build_args runtime container_name
                                            playbook_path).
  intros [(c1 & s1 & H1 & H)|(e & H1 & ->)]%bind_inv;
    apply run_subprocess_outcome in H1 as (st1 & Ht1 & Hst1).
  2:{ left. exists st1. split; [done|]. split; [|eauto].
      intros ->. simpl in Hst1. by destruct Hst1. }
  assert (st1 = Some 0%Z) as ->.
  { destruct st1 as [rc1|]; [|by destruct Hst1].
    destruct (Z.eqb_spec rc1 0) as [->|]; done. }
  clear Hst1. right.
  apply bind_inv in H as [([] & s2 & H2 & H)|(e & H2 & ->)].
  - assert (∃ rc, trace s2 = trace s1
                    ++ [Event (Command (stop_args runtime container_name) false None)
                          (Some rc)]) as (rc & Ht2).
    { unfold try_except in H2.
      destruct ((_run_subprocess h (stop_args runtime container_name) false None;;
                 mret ()) s1) as [[[]|e] s2'] eqn:E;
        apply bind_ret_inv in E; [destruct E as (_ & c & E)|];
        apply run_subprocess_outcome in E as (st2 & Ht2 & Hst2).
      - injection H2 as <-. destruct st2 as [rc|]; [by exists rc|].
        by destruct Hst2.
      - destruct (is_SubprocessError e) eqn:He; [|done]. injection H2 as <-.
        destruct st2 as [rc|]; [by exists rc|].
        by destruct Hst2 as [what [= ->]]. }
    right. apply bind_ret_inv in H.
    assert (∃ st, trace s' = trace s2
                    ++ [Event (Command (start_args runtime volume_opt playbook_path
                                          container_name host_port ssh_port image)
                                 false None) st]
                  ∧ (r = Ok () ↔ st = Some 0%Z)) as (st & Ht3 & Hr).
    { destruct r as [[]|e].
      - destruct H as (_ & c & H).
        apply run_subprocess_outcome in H as (st3 & Ht3 & Hst3).
        exists st3. split; [done|]. split; [|done]. intros _.
        destruct st3 as [rc3|]; [|by destruct Hst3].
        destruct (Z.eqb_spec rc3 0) as [->|]; done.
      - apply run_subprocess_outcome in H as (st3 & Ht3 & Hst3).
        exists st3. split; [done|]. split; [done|]. intros ->.
        simpl in Hst3. by destruct Hst3. }
    exists rc, st. split; [|done].
    rewrite Ht3, Ht2, Ht1. by rewrite <- !(assoc_L (++)).
  - left. unfold try_except in H2.
    destruct ((_run_subprocess h (stop_args runtime container_name) false None;;
               mret ()) s1) as [[[]|e'] s2'] eqn:E; [done|].
    apply bind_ret_inv in E.
    apply run_subprocess_outcome in E as (st2 & Ht2 & Hst2).
    destruct (is_SubprocessError e') eqn:He; [done|]. injection H2 as <- <-.
    destruct st2 as [rc|].
    + destruct (rc =? 0)%Z; [by destruct Hst2|]. by injection Hst2 as ->.
    + destruct Hst2 as [what [= ->]]. split; [|eauto].
      rewrite Ht2, Ht1. by rewrite <- (assoc_L (++)).
Qed.

(** X21 on a host where no container of the name is running, so that
    the stop exits with status 125: the container is started. *)
Lemma setup_container_steps_witness :
  (setup_container "podman" ":ro,z" "/p" "ansible_target" 2222 22
     "ansible_target:latest"
     (_run_subprocess
        (Host example_which
           (λ s c, match argv c with
                   | [_; "container"; "stop"; _] => Exited 125 "" (fs s)
                   | _ => Exited 0 "" (fs s)
                   end) []))
     example_state).1 = Ok ().
Proof.
  destruct (setup_container_steps
              (Host example_which
                 (λ s c, match argv c with
                         | [_; "container"; "stop"; _] => Exited 125 "" (fs s)
                         | _ => Exited 0 "" (fs s)
                         end) [])
              "podman" ":ro,z" "/p" "ansible_target" 2222 22 "ansible_target:latest"
              example_state _ _ (surjective_pairing _))
    as [(st & Ht & _)|[(Ht & _)|(rc & st & Ht & Hr)]].
  - vm_compute in Ht. discriminate.
  - vm_compute in Ht. discriminate.
  - by vm_compute.
Defined.

(** X22: the cleanup of [run] leaves the outcome of the steps it
    follows as it was.  When the container was not started it does
    nothing.  When it was, it spawns one stop of the container; a stop
    that exits with another status than 0 is logged as a warning and
    changes nothing of the outcome, and only a stop that could not be
    started at all replaces the outcome by its exception. *)
Theorem cleanup_keeps_outcome {A : Type} (h : host) (runtime container_name : string)
    (body : M A) (s : state) (rb : result A) (s1 : state) (r : result A)
    (s' : state) :
  body s = (rb, s1) →
  try_finally body (cleanup h runtime container_name) s = (r, s') →
  if container_started s1
  then ∃ st,
         trace s' = trace s1
                    ++ [Event (Command (stop_args runtime container_name) false None)
                          st]
         ∧ match st with
           | Some rc =>
               r = rb
               ∧ log s' = log s1
                          ++ (if (rc =? 0)%Z then []
                              else [LogRecord WARNING
                                      "Failed to stop container %s during cleanup"
                                      [LStr container_name]])
           | None => (∃ what, r = Raise (OSError what)) ∧ log s' = log s1
           end
  else r = rb ∧ s' = s1.
Proof.
  intros Hbody. unfold try_finally. rewrite Hbody.
  unfold cleanup, mbind, M_bind, gets, when, try_except, _run_subprocess,
    subprocess_run.
  destruct (container_started s1); [|by intros [= <- <-]].
  destruct (spawn h s1 _) as [rc out fs'|what]; simpl.
  - destruct (Z.eqb_spec rc 0) as [->|Hrc]; simpl; intros [= <- <-];
      eexists; (split; [done|]); simpl.
    + by rewrite app_nil_r.
    + destruct (Z.eqb_spec rc 0); done.
  - intros [= <- <-]. eexists. split; [done|]. simpl. eauto.
Qed.

(** X22 on a playbook that succeeded and a stop that exits with
    status 1: the outcome stays, and a warning is logged. *)
Lemma cleanup_keeps_outcome_witness :
  try_finally (mret 7%Z)
    (cleanup (Host example_which (λ s c, Exited 1 "" (fs s)) []) "podman" "box")
    (State ∅ ∅ [] [] true)
  = (Ok 7%Z,
     State ∅ ∅ [Event (Command ["podman"; "container"; "stop"; "box"] false None)
                  (Some 1%Z)]
       [LogRecord WARNING "Failed to stop container %s during cleanup" [LStr "box"]]
       true).
Proof.
  pose proof (cleanup_keeps_outcome
                (Host example_which (λ s c, Exited 1 "" (fs s)) []) "podman" "box"
                (mret 7%Z) (State ∅ ∅ [] [] true) _ _ _ _ eq_refl
                (surjective_pairing _)) as H.
  simpl in H. destruct H as (st & Ht & Hst). by vm_compute.
Defined.
(** ** The environment of the playbook *)

Section env_stable.

Lemma env_stable_ret {A} (a : A) : env_stable (mret a).
Proof. by intros s r s' [= <- <-]. Qed.

Lemma env_stable_raise {A} e : env_stable (raise (A := A) e).
Proof. by intros s r s' [= <- <-]. Qed.

Lemma env_stable_gets {A} (f : state → A) : env_stable (gets f).
Proof. by intros s r s' [= <- <-]. Qed.

Lemma env_stable_bind {A B} (m : M A) (f : A → M B) :
  env_stable m → (∀ a, env_stable (f a)) → env_stable (m ≫= f).
Proof.
  intros Hm Hf s r s'. unfold mbind, M_bind.
  destruct (m s) as [[a|e] s1] eqn:E.
  - intros Hfa. rewrite (Hf _ _ _ _ Hfa). by eapply Hm.
  - intros [= <- <-]. by eapply Hm.
Qed.

Lemma env_stable_when b (m : M unit) : env_stable m → env_stable (when b m).
Proof. destruct b; [done|]. intros _. apply env_stable_ret. Qed.

Lemma env_stable_try_except {A} (body : M A) catches handler :
  env_stable body → (∀ e, env_stable (handler e)) →
  env_stable (try_except body catches handler).
Proof.
  intros Hb Hh s r s'. unfold try_except.
  destruct (body s) as [[a|e] s1] eqn:E.
  - intros [= <- <-]. by eapply Hb.
  - destruct (catches e).
    + intros Hhe. rewrite (Hh _ _ _ _ Hhe). by eapply Hb.
    + intros [= <- <-]. by eapply Hb.
Qed.

Lemma env_stable_try_finally {A} (body : M A) final :
  env_stable body → env_stable final → env_stable (try_finally body final).
Proof.
  intros Hb Hf s r s' (rb & s1 & rf & H1 & H2 & _)%try_finally_inv.
  rewrite (Hf _ _ _ H2). by eapply Hb.
Qed.

Lemma env_stable_logging l f a : env_stable (logging l f a).
Proof. by intros s r s' [= <- <-]. Qed.

Lemma env_stable_flag b : env_stable (modify (set_container_started b)).
Proof. by intros s r s' [= <- <-]. Qed.

Lemma env_stable_subprocess_run h args check capture env :
  env_stable (subprocess_run h args check capture env).
Proof.
  intros s r s'. unfold subprocess_run.
  repeat case_match; by intros [= <- <-].
Qed.

Lemma env_stable_run_subprocess h args capture env :
  env_stable (_run_subprocess h args capture env).
Proof. apply env_stable_subprocess_run. Qed.

Lemma env_stable_mkdir p : env_stable (mkdir p).
Proof. intros s r s'. unfold mkdir. repeat case_match; by intros [= <- <-]. Qed.

Lemma env_stable_chmod p m : env_stable (chmod p m).
Proof. intros s r s'. unfold chmod. repeat case_match; by intros [= <- <-]. Qed.

Lemma env_stable_unlink p : env_stable (unlink p).
Proof. intros s r s'. unfold unlink. repeat case_match; by intros [= <- <-]. Qed.

Lemma env_stable_read_bytes p : env_stable (read_bytes p).
Proof. intros s r s'. unfold read_bytes. repeat case_match; by intros [= <- <-]. Qed.

Lemma env_stable_write_bytes p b : env_stable (write_bytes p b).
Proof. intros s r s'. unfold write_bytes. repeat case_match; by intros [= <- <-]. Qed.

Lemma env_stable_symlink_to p t : env_stable (symlink_to p t).
Proof. intros s r s'. unfold symlink_to. repeat case_match; by intros [= <- <-]. Qed.

End env_stable.

(** Solves [env_stable] goals by following the structure of the
    program. *)
Ltac env_stable_step :=
  first
    [ apply env_stable_ret | apply env_stable_raise | apply env_stable_gets
    | apply env_stable_logging | apply env_stable_flag
    | apply env_stable_mkdir | apply env_stable_chmod | apply env_stable_unlink
    | apply env_stable_read_bytes | apply env_stable_write_bytes
    | apply env_stable_symlink_to | apply env_stable_run_subprocess
    | apply env_stable_subprocess_run
    | apply env_stable_when
    | apply env_stable_bind; [|intros ?]
    | apply env_stable_try_except; [|intros ?]
    | apply env_stable_try_finally
    | match goal with |- env_stable (if ?b then _ else _) => destruct b end
    | match goal with |- env_stable (match ?x with _ => _ end) => destruct x end
    | match goal with |- env_stable (let '(_, _) := ?x in _) => destruct x end ].

Ltac env_stable_auto := repeat env_stable_step.

Section dispatch_env.
Context (h : host) (args : Args.t).
Let playbook_path := Args.playbook_path args.

Lemma setup_ssh_keys_env_stable base_dir key_basename :
  env_stable (setup_ssh_keys base_dir key_basename (_run_subprocess h)).
Proof. unfold setup_ssh_keys. env_stable_auto. Qed.

Lemma setup_vault_env_stable vault_file :
  env_stable (setup_vault playbook_path vault_file).
Proof. unfold setup_vault. env_stable_auto. Qed.

Lemma setup_roles_env_stable : env_stable (setup_roles playbook_path (_run_subprocess h)).
Proof. unfold setup_roles. env_stable_auto. Qed.

Lemma setup_collections_env_stable : env_stable (setup_collections (_run_subprocess h)).
Proof. unfold setup_collections, _has_collection. env_stable_auto. Qed.

Lemma setup_container_env_stable runtime volume_opt container_name host_port
    ssh_port image :
  env_stable (setup_container runtime volume_opt playbook_path container_name
                host_port ssh_port image (_run_subprocess h)).
Proof. unfold setup_container. env_stable_auto. Qed.

Lemma cleanup_env_stable runtime container_name :
  env_stable (cleanup h runtime container_name).
Proof. unfold cleanup. env_stable_auto. Qed.

Lemma detect_env_stable preferred :
  env_stable (detect_container_runtime_io h preferred)
  ∧ env_stable (detect_ansible h).
Proof.
  split; [unfold detect_container_runtime_io|unfold detect_ansible];
    env_stable_auto.
Qed.

(** A command outside the dispatch satisfies [dispatch_env_ok]. *)
Lemma dispatch_env_other env line :
  (∀ capture e st, is_dispatch (Event (Command line capture e) st) = false) →
  covers (dispatch_env_ok playbook_path env) line.
Proof. intros H capture e st Hd. by rewrite H in Hd. Qed.

Lemma keeps_of {A} env P (m : M A) : env_stable m → spawns P m → keeps env P m.
Proof.
  intros He Hs s r s' Henv H. split; [by rewrite (He _ _ _ H)|]. by eapply Hs.
Qed.

Lemma keeps_bind {A B} env P (m : M A) (f : A → M B) :
  keeps env P m → (∀ a, keeps env P (f a)) → keeps env P (m ≫= f).
Proof.
  intros Hm Hf s r s' Henv. unfold mbind, M_bind.
  destruct (m s) as [[a|e] s1] eqn:E.
  - intros Hfa. destruct (Hm _ _ _ Henv E) as (He1 & evs1 & Ht1 & HP1).
    destruct (Hf _ _ _ _ He1 Hfa) as (He2 & evs2 & Ht2 & HP2).
    split; [done|]. exists (evs1 ++ evs2). rewrite Ht2, Ht1, (assoc_L (++)).
    split; [done|]. by apply Forall_app.
  - intros [= <- <-]. by apply (Hm _ _ _ Henv E).
Qed.

Lemma keeps_try_finally {A} env P (body : M A) final :
  keeps env P body → keeps env P final → keeps env P (try_finally body final).
Proof.
  intros Hb Hf s r s' Henv (rb & s1 & rf & H1 & H2 & _)%try_finally_inv.
  destruct (Hb _ _ _ Henv H1) as (He1 & evs1 & Ht1 & HP1).
  destruct (Hf _ _ _ He1 H2) as (He2 & evs2 & Ht2 & HP2).
  split; [done|]. exists (evs1 ++ evs2). rewrite Ht2, Ht1, (assoc_L (++)).
  split; [done|]. by apply Forall_app.
Qed.

Lemma run_playbook_keeps env limit :
  keeps env (dispatch_env_ok playbook_path env)
    (run_playbook (playbook_path </> INVENTORY_FILE) (playbook_path </> PLAYBOOK_FILE)
       (dispatch_extra_env playbook_path) limit (_run_subprocess h)).
Proof.
  intros s r s' Henv. unfold run_playbook, mbind, M_bind, gets.
  destruct (_run_subprocess h _ false _ s) as [r1 s1] eqn:Hrun.
  pose proof (env_stable_run_subprocess _ _ _ _ _ _ _ Hrun) as He.
  apply run_subprocess_event in Hrun as (_ & _ & st & Ht & _).
  intros H. assert (s' = s1) as -> by (destruct r1; by injection H).
  split; [congruence|]. eexists. split; [exact Ht|].
  constructor; [|done]. intros _. simpl. by rewrite Henv.
Qed.

Lemma run_body_keeps env runtime volume_opt container_name host_port :
  keeps env (dispatch_env_ok playbook_path env)
    (run_body h args runtime volume_opt container_name
       (playbook_path </> DEFAULT_SSH_DIR </> DEFAULT_KEY_BASENAME)
       (playbook_path </> DEFAULT_VAULT_PASSWORD_FILE) host_port).
Proof.
  unfold run_body. fold playbook_path. fold (dispatch_extra_env playbook_path).
  apply keeps_bind; [|intros _].
  { apply keeps_of.
    - destruct (negb (Args.skip_container args)); [|apply env_stable_ret].
      apply env_stable_bind; [apply setup_container_env_stable|intros _].
      apply env_stable_flag.
    - destruct (negb (Args.skip_container args)); [|apply tame_spawns, tame_ret].
      apply spawns_bind; [|intros _; apply spawns_flag].
      apply tame_spawns. unfold setup_container.
      tame_auto; apply tame_run_subprocess; by apply dispatch_env_other. }
  apply keeps_bind; [|intros _].
  { apply keeps_of; [apply setup_roles_env_stable|].
    apply tame_spawns, setup_roles_tame. intros ? ?. by apply dispatch_env_other. }
  apply keeps_bind; [|intros _].
  { apply keeps_of; [apply setup_collections_env_stable|].
    apply tame_spawns, setup_collections_tame; [|intros ?];
      by apply dispatch_env_other. }
  apply run_playbook_keeps.
Qed.

(** The steps of [run] after the checks. *)
Lemma run_steps_keeps env runtime volume_opt container_name host_port s r s' :
  environ s = env →
  ('(key_path, auth_keys) ←
     setup_ssh_keys playbook_path DEFAULT_KEY_BASENAME (_run_subprocess h);
   vault_path ← setup_vault playbook_path DEFAULT_VAULT_PASSWORD_FILE;
   modify (set_container_started false);;
   try_finally
     (run_body h args runtime volume_opt container_name key_path vault_path
        host_port)
     (cleanup h runtime container_name);;
   mret RETURN_SUCCESS) s = (r, s') →
  ∃ evs, trace s' = trace s ++ evs
    ∧ Forall (dispatch_env_ok playbook_path env) evs.
Proof.
  intros Henv. set (P := dispatch_env_ok playbook_path env).
  assert (tame P (setup_ssh_keys playbook_path DEFAULT_KEY_BASENAME
                    (_run_subprocess h))) as Hkeys
    by (by apply setup_ssh_keys_tame, dispatch_env_other).
  intros [([key_path auth_keys] & s1 & H1 & H)|(e & H1 & ->)]%bind_inv.
  2:{ by destruct (Hkeys _ _ _ H1) as [_ ?]. }
  destruct (Hkeys _ _ _ H1) as (_ & evs1 & Ht1 & HP1).
  pose proof (setup_ssh_keys_env_stable _ _ _ _ _ H1) as He1.
  apply setup_ssh_keys_Ok in H1 as (_ & _ & _ & _ & _ & _ & [= -> _]).
  apply bind_inv in H as [(vault_path & s2 & H2 & H)|(e & H2 & ->)].
  2:{ rewrite (tame_nil _ _ _ _ (setup_vault_tame _ _ _) H2). eauto. }
  pose proof (tame_nil _ _ _ _ (setup_vault_tame _ _ _) H2) as Ht2.
  pose proof (setup_vault_env_stable _ _ _ _ H2) as He2.
  assert (vault_path = playbook_path </> DEFAULT_VAULT_PASSWORD_FILE) as ->.
  { unfold setup_vault in H2.
    apply bind_inv_Ok in H2 as (ex & s3 & _ & H2).
    by apply bind_inv_Ok in H2 as ([] & s4 & _ & [= <- _]). }
  apply bind_inv_Ok_modify in H.
  assert (keeps env P
            (try_finally
               (run_body h args runtime volume_opt container_name
                  (key_path_of playbook_path DEFAULT_KEY_BASENAME)
                  (playbook_path </> DEFAULT_VAULT_PASSWORD_FILE) host_port)
               (cleanup h runtime container_name);;
             mret RETURN_SUCCESS)) as Hrest.
  { apply keeps_bind;
      [|intros _; apply keeps_of; [apply env_stable_ret|apply tame_spawns, tame_ret]].
    apply keeps_try_finally; [apply run_body_keeps|].
    apply keeps_of; [apply cleanup_env_stable|].
    apply tame_spawns. unfold cleanup. tame_auto.
    apply tame_run_subprocess. by apply dispatch_env_other. }
  assert (environ (set_container_started false s2) = env) as He3
    by (simpl; congruence).
  destruct (Hrest _ _ _ He3 H) as (_ & evs3 & Ht3 & HP3).
  exists (evs1 ++ evs3). split; [|by apply Forall_app].
  simpl in Ht3. rewrite Ht3, Ht2, Ht1. by rewrite (assoc_L (++)).
Qed.

End dispatch_env.
Section run_dispatch_env.
Context (h : host) (args : Args.t).

Lemma run_resolved_dispatch_env preference container_name port_str s r s' :
  run_resolved h args preference container_name port_str s = (r, s') →
  ∃ evs, trace s' = trace s ++ evs
    ∧ Forall (dispatch_env_ok (Args.playbook_path args) (environ s)) evs.
Proof.
  unfold run_resolved.
  destruct (Py.int port_str) as [host_port|].
  2:{ intros [= <- <-]. exists []. by rewrite app_nil_r. }
  intros [([rt vol] & s1 & H1 & H)|(e & H1 & ->)]%bind_inv.
  2:{ exists []. rewrite app_nil_r. split; [|done].
      eapply tame_nil; [apply detect_container_runtime_io_tame|done]. }
  apply (tame_nil _ _ _ _ (detect_container_runtime_io_tame _ _ _)) in H1 as Ht1.
  apply (proj1 (detect_env_stable h _)) in H1 as He1.
  destruct rt as [runtime|].
  2:{ injection H as <- <-. exists []. by rewrite app_nil_r. }
  apply bind_inv in H as [(ansible & s2 & H2 & H)|(e & H2 & ->)].
  2:{ exists []. rewrite app_nil_r, <- Ht1. split; [|done].
      eapply tame_nil; [apply detect_ansible_tame|done]. }
  apply (tame_nil _ _ _ _ (detect_ansible_tame _ _)) in H2 as Ht2.
  apply (proj2 (detect_env_stable h None)) in H2 as He2.
  destruct ansible; cbn [negb] in H; cbv iota in H.
  2:{ injection H as <- <-. exists []. rewrite app_nil_r. split; [congruence|done]. }
  apply (run_steps_keeps h args (environ s)) in H as (evs & Ht & Hall);
    [|congruence].
  exists evs. split; [congruence|done].
Qed.

Lemma dispatch_extra_env_other playbook_path k :
  k ∉ ["ANSIBLE_PRIVATE_KEY_FILE"; "ANSIBLE_HOST_KEY_CHECKING";
       "ANSIBLE_VAULT_PASSWORD_FILE"] →
  dispatch_extra_env playbook_path !! k = None.
Proof.
  intros Hk. unfold dispatch_extra_env, dict_of. simpl.
  rewrite !lookup_insert_ne; [done|..]; intros <-; apply Hk;
    repeat first [by left|right].
Qed.

End run_dispatch_env.

(** X23: every dispatch of the playbook that [run] spawns runs in the
    process environment as [set_env_vars] left it, updated with three
    variables: the private key that [setup_ssh_keys] made, host key
    checking switched off, and the vault password file of
    [setup_vault].  So a variable of the settings file reaches the
    playbook with its value from the file, a variable the file does not
    hold with its value from the environment [run] was started in, and
    the three variables with the values of [run], whatever the file or
    the environment said. *)
Theorem run_dispatch_environment (h : host) (args : Args.t) (s : state)
    (r : result Z) (s' : state) :
  run h args s = (r, s') →
  let settings := load_env_file (fs s) (Args.env_file args) in
  let playbook_path := Args.playbook_path args in
  ∃ evs, trace s' = trace s ++ evs
    ∧ ∀ e, e ∈ evs → is_dispatch e = true →
        ∃ env, cmd_env (ev_cmd e) = Some env
          ∧ env !! "ANSIBLE_PRIVATE_KEY_FILE"
            = Some (playbook_path </> "ssh_keys" </> "ansible_target")
          ∧ env !! "ANSIBLE_HOST_KEY_CHECKING" = Some "False"
          ∧ env !! "ANSIBLE_VAULT_PASSWORD_FILE"
            = Some (playbook_path </> "vault-pw.txt")
          ∧ ∀ k, k ∉ ["ANSIBLE_PRIVATE_KEY_FILE"; "ANSIBLE_HOST_KEY_CHECKING";
                      "ANSIBLE_VAULT_PASSWORD_FILE"] →
              env !! k = match settings !! k with
                         | Some v => Some v
                         | None => environ s !! k
                         end.
Proof.
  cbv zeta. unfold run.
  intros [([[rp name] port] & s1 & H1 & H)|(e & H1 & ->)]%bind_inv.
  2:{ exists []. rewrite app_nil_r. split; [|by intros e' ?%elem_of_nil].
      eapply tame_nil; [apply resolve_settings_tame|done]. }
  apply (tame_nil _ _ _ _ (resolve_settings_tame _ _)) in H1 as Ht1.
  rewrite resolve_settings_unfold in H1.
  assert (environ s1
          = dict_update (environ s) (load_env_file (fs s) (Args.env_file args)))
    as Henv.
  { destruct (fs s !! Args.env_file args) as [[| |]|]; by simplify_eq/=. }
  apply run_resolved_dispatch_env in H as (evs & Ht & Hall).
  exists evs. split; [congruence|]. intros e He Hd.
  rewrite Forall_forall in Hall. specialize (Hall e He Hd).
  eexists. split; [exact Hall|]. unfold dict_update.
  split; [by apply lookup_union_Some_l; vm_compute|].
  split; [by apply lookup_union_Some_l; vm_compute|].
  split; [by apply lookup_union_Some_l; vm_compute|].
  intros k Hk. rewrite lookup_union_r by by apply dispatch_extra_env_other.
  rewrite Henv. unfold dict_update.
  destruct (load_env_file (fs s) (Args.env_file args) !! k) as [v|] eqn:Ek.
  - by apply lookup_union_Some_l.
  - by apply lookup_union_r.
Qed.

(** X23 on a settings file that names another vault password file and
    a variable of its own. *)
Lemma run_dispatch_environment_witness :
  ∃ e env,
    last (trace (run example_host example_skip_args vault_override_state).2) = Some e
    ∧ cmd_env (ev_cmd e) = Some env
    ∧ env !! "ANSIBLE_VAULT_PASSWORD_FILE" = Some "/p/vault-pw.txt"
    ∧ env !! "MY_SETTING" = Some "kept"
    ∧ env !! "HOME" = Some "/root".
Proof.
  destruct (run_dispatch_environment example_host example_skip_args
              vault_override_state _ _ (surjective_pairing _))
    as (evs & Ht & Hall).
  simpl in Ht. rewrite Ht.
  destruct (last evs) as [e|] eqn:El;
    [|by rewrite <- Ht in El; vm_compute in El].
  destruct (Hall e) as (env & Henv & _ & _ & Hv & Hother).
  { by apply last_Some_elem_of. }
  { rewrite <- Ht in El. vm_compute in El. by injection El as <-. }
  exists e, env. split; [done|]. split; [done|]. split; [done|].
  split; rewrite Hother; try (by vm_compute);
    intros Hin; repeat (apply elem_of_cons in Hin as [Hin|Hin]; [done|]);
    by apply elem_of_nil in Hin.
Defined.
(** ** Values with surrounding white space *)

Section trim.
Import Py.

Lemma lstrip_rstrip v : lstrip (rstrip v) = rstrip (lstrip v).
Proof.
  induction v as [|c v IH]; [done|].
  change (rstrip (String c v))
    with (match rstrip v with
          | EmptyString => if isspace c then EmptyString else String c EmptyString
          | r => String c r
          end).
  change (lstrip (String c v)) with (if isspace c then lstrip v else String c v).
  destruct (isspace c) eqn:Hc.
  - rewrite <- IH. destruct (rstrip v) as [|d r]; [done|]. simpl. by rewrite Hc.
  - change (rstrip (String c v))
      with (match rstrip v with
            | EmptyString => if isspace c then EmptyString else String c EmptyString
            | r => String c r
            end).
    rewrite Hc. destruct (rstrip v) as [|d r]; simpl; by rewrite Hc.
Qed.

Lemma strip_rstrip v : strip (rstrip v) = strip v.
Proof. unfold strip. by rewrite lstrip_rstrip, rstrip_idemp. Qed.

Lemma rstrip_separator v : rstrip (String "=" v) = String "=" (rstrip v).
Proof. simpl. by destruct (rstrip v). Qed.

(** A written entry is read back with its value trimmed. *)
Lemma load_env_line_KV_trim data k v :
  writable k v → load_env_line data (KV (k, v)) = <[k := strip v]> data.
Proof.
  intros (Hk & Heq & Hc & _ & _).
  apply strip_fixed in Hk as [Hk1 Hk2].
  unfold KV. simpl.
  assert (strip (k +:+ "=" +:+ v) = k +:+ "=" +:+ rstrip v) as Hline.
  { unfold strip.
    assert (lstrip (k +:+ "=" +:+ v) = k +:+ "=" +:+ v) as ->.
    { destruct k as [|c k]; [done|]. rewrite str_app_cons.
      apply lstrip_nonspace. eapply lstrip_head. exact Hk1. }
    change ("=" +:+ ?x) with (String "=" x).
    rewrite rstrip_app; rewrite rstrip_separator; done. }
  unfold load_env_line. rewrite Hline.
  assert (nonempty (k +:+ "=" +:+ rstrip v) = true) as -> by by destruct k.
  assert (startswith "#" (k +:+ "=" +:+ rstrip v) = false) as ->.
  { destruct k as [|c k]; [done|]. rewrite str_app_cons.
    by rewrite startswith_char in *. }
  rewrite str_in_char in Heq. apply negb_false_iff in Heq.
  assert (str_in "=" (k +:+ "=" +:+ rstrip v) = true) as ->.
  { rewrite str_in_char. apply negb_true_iff. rewrite all_chars_app.
    apply andb_false_iff. right. done. }
  simpl. change ("=" +:+ ?x) with (String "=" x).
  rewrite (split_once_app _ _ _ Heq).
  rewrite strip_rstrip. unfold strip at 1. by rewrite Hk1, Hk2.
Qed.

Lemma foldl_load_env_KV_trim data items :
  Forall (λ kv, writable kv.1 kv.2) items →
  foldl load_env_line data (KV <$> items)
  = foldl (λ m kv, <[kv.1 := kv.2]> m) data (prod_map id strip <$> items).
Proof.
  intros H. revert data. induction H as [|[k v] items Hkv _ IH]; intros data; [done|].
  simpl. rewrite <- IH. f_equal. by apply load_env_line_KV_trim.
Qed.

Lemma single_line_KV_writable k v : writable k v → single_line (KV (k, v)) = true.
Proof.
  intros (_ & _ & _ & Hk & Hv). unfold KV, single_line in *. simpl.
  rewrite all_chars_app, Hk. simpl. done.
Qed.

End trim.

(** X24: when every key of a map is trimmed, on one line, without
    ["="] and not the start of a comment, and every value is on one
    line, the file [write_env_file] writes loads back as the map with
    every value trimmed of its surrounding white space: nothing else of
    a value is lost, and no entry is lost or added. *)
Theorem load_after_write_trims (fs : files) (path : string)
    (m : gmap string string) :
  map_Forall writable m →
  load_env_file (write_env_file fs path m) path = Py.strip <$> m.
Proof.
  intros Hm. unfold load_env_file, write_env_file. rewrite lookup_insert_eq.
  unfold env_text.
  assert (Forall (λ kv, writable kv.1 kv.2) (sorted_items m)) as Hw.
  { rewrite sorted_items_perm. apply Forall_forall. intros [k v] Hin.
    apply elem_of_map_to_list in Hin. by apply Hm in Hin. }
  rewrite splitlines_env_text.
  2:{ apply Forall_fmap. eapply Forall_impl; [exact Hw|].
      intros [k v] H. by apply single_line_KV_writable. }
  assert (foldl load_env_line ∅ (KV <$> sorted_items m) = Py.strip <$> m) as Hload.
  { rewrite (foldl_load_env_KV_trim _ _ Hw), foldl_insert_list_to_map.
    rewrite (right_id_L ∅ (∪)), <- fmap_reverse, list_to_map_fmap. f_equal.
    rewrite <- (list_to_map_to_list m) at 2.
    apply list_to_map_proper.
    - rewrite reverse_Permutation, sorted_items_perm.
      apply NoDup_fst_map_to_list.
    - by rewrite reverse_Permutation, sorted_items_perm. }
  destruct (KV <$> sorted_items m) as [|l ls] eqn:E; [|done].
  simpl in *. done.
Qed.

(** X24 on a value with blanks around it. *)
Lemma load_after_write_trims_witness :
  load_env_file (write_env_file ∅ ".env" {[ "KEY" := "  padded value " ]}) ".env"
  = {[ "KEY" := "padded value" ]}.
Proof.
  rewrite (load_after_write_trims ∅ ".env" {[ "KEY" := "  padded value " ]}).
  - by rewrite map_fmap_singleton.
  - intros k v [<- <-]%lookup_singleton_Some. by vm_compute.
Defined.
(** ** The port *)

Section port.
Import Py.

(** [int] reads back what [pretty] writes for any integer. *)
Lemma int_pretty (z : Z) : int (pretty z) = Some z ∧ pretty z ≠ EmptyString.
Proof.
  destruct (Z.le_gt_cases 0 z) as [Hz|Hz].
  { by destruct (pretty_digits z Hz) as (_ & ? & ?). }
  destruct z as [|p|p]; [lia|lia|].
  destruct (pretty_digits (Z.pos p) ltac:(lia)) as (Hd & Hne & Hint).
  change (pretty (Z.neg p)) with ("-" +:+ pretty (Z.pos p)).
  set (d := pretty (Z.pos p)) in *. split; [|done].
  assert (int_digits 0 false d = Some (Z.pos p)) as Hdig.
  { revert Hint. unfold int. rewrite (strip_digits _ Hd).
    destruct d as [|c d']; [done|].
    apply andb_true_iff in Hd as [Hc _].
    destruct c as [[] [] [] [] [] [] [] []]; try discriminate; done. }
  unfold int, strip. change ("-" +:+ d) with (String "-" d).
  rewrite lstrip_nonspace by done. simpl rstrip. rewrite (rstrip_digits _ Hd).
  destruct d as [|c d']; [done|]. by rewrite Hdig.
Qed.

End port.

(** X25: the port of the command line is not checked against the
    range of ports.  Whatever integer it is the text of, negative or
    above 65535, [int] converts it, a start of the container that [run]
    spawns publishes that number, and when [run] returns status 4 the
    reason is that no container engine was found. *)
Theorem run_port_not_validated (h : host) (args : Args.t) (s : state) (port : Z)
    (r : result Z) (s' : state) :
  Args.container_host_port args = Some (pretty port) →
  run h args s = (r, s') →
  let settings := load_env_file (fs s) (Args.env_file args) in
  let preference :=
    resolve (Args.container_runtime args) (settings !! "CONTAINER_RUNTIME")
      DEFAULT_CONTAINER_RUNTIME in
  let container_name :=
    resolve (Args.container_name args) (settings !! "CONTAINER_NAME")
      DEFAULT_CONTAINER_NAME in
  Py.int (pretty port) = Some port
  ∧ (∃ evs, trace s' = trace s ++ evs
       ∧ ∀ e, e ∈ evs → is_start e = true →
           ∃ runtime,
             argv (ev_cmd e)
             = start_args runtime (volume_option runtime) (Args.playbook_path args)
                 container_name port DEFAULT_SSH_PORT DEFAULT_CONTAINER_IMAGE)
  ∧ (r = Ok RETURN_NO_RUNTIME →
     (detect_container_runtime (which h) (Some preference)).1 = None).
Proof.
  intros Hport Hrun. cbv zeta. destruct (int_pretty port) as [Hint Hne].
  assert (∀ persisted default,
            resolve (Some (pretty port)) persisted default = pretty port) as Hres.
  { intros persisted default. unfold resolve, Py.por, Py.or_else. simpl.
    by destruct (pretty port). }
  split; [done|]. split.
  - revert Hrun. unfold run.
    intros [([[rp name] pstr] & s1 & H1 & H)|(e & H1 & ->)]%bind_inv.
    2:{ exists []. rewrite app_nil_r. split; [|by intros e' ?%elem_of_nil].
        eapply tame_nil; [apply resolve_settings_tame|done]. }
    apply (tame_nil _ _ _ _ (resolve_settings_tame _ _)) in H1 as Ht1.
    rewrite resolve_settings_unfold in H1.
    assert (name = resolve (Args.container_name args)
                     (load_env_file (fs s) (Args.env_file args) !! "CONTAINER_NAME")
                     DEFAULT_CONTAINER_NAME
            ∧ pstr = pretty port) as (-> & ->).
    { cbv zeta in H1. rewrite Hport, Hres in H1.
      destruct (fs s !! Args.env_file args) as [[| |]|]; by simplify_eq/=. }
    apply run_resolved_spawns in H as (evs & Ht & Hevs).
    exists evs. split; [congruence|].
    destruct Hevs as [->|(runtime & host_port & Hd & Hp & Hall)];
      [by intros e' ?%elem_of_nil|].
    intros e He Hs. exists runtime.
    rewrite Hint in Hp. injection Hp as <-.
    rewrite Forall_forall in Hall. by apply (Hall e He).
  - intros ->.
    destruct (fs s !! Args.env_file args) as [n|] eqn:Efile.
    + destruct n as [c|m|t].
      * revert Hrun. rewrite run_resolution by (unfold readable; by rewrite Efile).
        cbv zeta. rewrite Hport, Hres. unfold run_resolved. rewrite Hint.
        intros ([rt vol] & s1 & Hd & H)%bind_inv_Ok.
        unfold detect_container_runtime_io in Hd.
        apply bind_inv_Ok in Hd as ([] & s0 & _ & [= Hd _]).
        rewrite Hd. destruct rt as [runtime|]; [|done]. exfalso.
        apply bind_inv_Ok in H as (ansible & s2 & _ & H).
        destruct ansible; cbn [negb] in H; cbv iota in H; [|by injection H].
        apply bind_inv_Ok in H as (x1 & s3 & _ & H).
        destruct x1 as [key_path auth_keys].
        apply bind_inv_Ok in H as (vault_path & s4 & _ & H).
        apply bind_inv_Ok in H as ([] & s5 & _ & H).
        by apply bind_inv_Ok in H as ([] & s6 & _ & [= ? _]).
      * revert Hrun. unfold run, mbind, M_bind. rewrite resolve_settings_unfold.
        by rewrite Efile.
      * revert Hrun. unfold run, mbind, M_bind. rewrite resolve_settings_unfold.
        by rewrite Efile.
    + revert Hrun. rewrite run_resolution by (unfold readable; by rewrite Efile).
      cbv zeta. rewrite Hport, Hres. unfold run_resolved. rewrite Hint.
      intros ([rt vol] & s1 & Hd & H)%bind_inv_Ok.
      unfold detect_container_runtime_io in Hd.
      apply bind_inv_Ok in Hd as ([] & s0 & _ & [= Hd _]).
      rewrite Hd. destruct rt as [runtime|]; [|done]. exfalso.
      apply bind_inv_Ok in H as (ansible & s2 & _ & H).
      destruct ansible; cbn [negb] in H; cbv iota in H; [|by injection H].
      apply bind_inv_Ok in H as (x1 & s3 & _ & H).
      destruct x1 as [key_path auth_keys].
      apply bind_inv_Ok in H as (vault_path & s4 & _ & H).
      apply bind_inv_Ok in H as ([] & s5 & _ & H).
      by apply bind_inv_Ok in H as ([] & s6 & _ & [= ? _]).
Qed.

(** X25 on the port 99999. *)
Lemma run_port_not_validated_witness :
  Forall (λ e, is_start e = true → argv (ev_cmd e) !! 8%nat = Some "99999:22")
    (trace (run example_host high_port_args example_state).2)
  ∧ existsb is_start (trace (run example_host high_port_args example_state).2) = true.
Proof.
  split; [|by vm_compute].
  destruct (run_port_not_validated example_host high_port_args example_state 99999
              _ _ eq_refl (surjective_pairing _)) as (_ & (evs & Ht & Hall) & _).
  simpl in Ht. rewrite Ht. apply Forall_forall. intros e He Hs.
  destruct (Hall e He Hs) as (runtime & ->). by vm_compute.
Defined.
